(** * Lab container orchestrator: a model of [docker_lab_manager.py]

    The manager talks to three things it does not own: the container
    runtime (Docker), the host (ports, clock, address) and two sources of
    random numbers.  They are gathered in one record, [World], which the
    manager's methods thread through a small state-and-exception monad.
    Exceptions are first class because the source's control flow is written
    with [try]/[except]: which handler fires decides the result. *)

From stdpp Require Import gmap strings list pretty.
From Stdlib Require Import ZArith Lia.

Open Scope Z_scope.

(** ** Time

    A [datetime] is the number of microseconds since [datetime.min]
    (0001-01-01T00:00:00); Python's type stops at
    9999-12-31T23:59:59.999999 and arithmetic that leaves the range
    raises [OverflowError]. *)

Definition datetime := Z.

Definition MICROS_PER_SECOND : Z := 1000000.
Definition MICROS_PER_MINUTE : Z := 60 * MICROS_PER_SECOND.
Definition MICROS_PER_DAY : Z := 86400 * MICROS_PER_SECOND.

(** [date.max.toordinal() = 3652059]. *)
Definition DATETIME_MAX : datetime := 3652059 * MICROS_PER_DAY - 1.

Definition datetime_in_range (t : Z) : bool :=
  (0 <=? t) && (t <=? DATETIME_MAX).

(** [timedelta(seconds=n)] and [timedelta(minutes=n)] as microseconds. *)
Definition seconds (n : Z) : Z := n * MICROS_PER_SECOND.
Definition minutes (n : Z) : Z := n * MICROS_PER_MINUTE.

(** [timedelta] normalises to days, seconds and microseconds and rejects
    [abs(days) > 999999999]. *)
Definition TIMEDELTA_MAX_DAYS : Z := 999999999.

Definition timedelta_in_range (d : Z) : bool :=
  (- TIMEDELTA_MAX_DAYS <=? d / MICROS_PER_DAY)
  && (d / MICROS_PER_DAY <=? TIMEDELTA_MAX_DAYS).

(** CPython builds the timedelta from a C [int] number of days: a
    number of days that does not fit is refused on conversion, one that
    fits but is out of range by [timedelta] itself. *)
Definition INT_MIN : Z := -2147483648.
Definition INT_MAX : Z := 2147483647.

Definition timedelta_overflow_text (d : Z) : string :=
  let days := d / MICROS_PER_DAY in
  if (INT_MIN <=? days) && (days <=? INT_MAX)
  then "days=" +:+ pretty days +:+ "; must have magnitude <= 999999999"
  else "Python int too large to convert to C int".

(** ** Floats

    [timedelta.total_seconds()] and the division that follows it are
    floating-point operations.  A [float] is a double, given by its
    mantissa and exponent: its value is [f_mantissa * 2 ^ f_exponent].
    The exponent is not bounded here; the quotients of datetimes are far
    inside the range of a double. *)

Record float := {
  f_mantissa : Z;
  f_exponent : Z;
}.

(** The integer nearest to [n / d], for [d > 0]; a tie goes to the even
    one. *)
Definition round_half_even (n d : Z) : Z :=
  let q := n / d in
  match 2 * (n mod d) ?= d with
  | Lt => q
  | Gt => q + 1
  | Eq => if Z.even q then q else q + 1
  end.

(** [2 ^ k] for [k >= 0], and 1 below. *)
Definition pow2 (k : Z) : Z := 2 ^ Z.max 0 k.

(** The exponent [e] of the double nearest to [n / d]:
    [2^52 <= |n| / (d * 2^e) < 2^53]. *)
Definition double_exponent (n d : Z) : Z :=
  let e := Z.log2 (Z.abs n) - Z.log2 d - 52 in
  if Z.abs n * pow2 (- e) <? 2 ^ 52 * (d * pow2 e) then e - 1 else e.

(** The double nearest to [n / d], for [d > 0], ties to even: the result
    of [int / int] and of the division of two doubles. *)
Definition nearest_double (n d : Z) : float :=
  if n =? 0 then {| f_mantissa := 0; f_exponent := 0 |}
  else
    let e := double_exponent n d in
    {| f_mantissa := round_half_even (n * pow2 (- e)) (d * pow2 e);
       f_exponent := e |}.

(** [td.total_seconds()], for a timedelta of [td] microseconds. *)
Definition total_seconds (td : Z) : float := nearest_double td MICROS_PER_SECOND.

(** [x / k] for a float [x] and a small positive [int] [k]. *)
Definition float_div_int (x : float) (k : Z) : float :=
  nearest_double (f_mantissa x * pow2 (f_exponent x)) (k * pow2 (- f_exponent x)).

(** [x > k] for a float [x] and an [int] [k]: Python compares the two
    exactly. *)
Definition float_gt_int (x : float) (k : Z) : bool :=
  f_mantissa x * pow2 (f_exponent x) >? k * pow2 (- f_exponent x).

Arguments nearest_double : simpl never.
Arguments total_seconds : simpl never.
Arguments float_div_int : simpl never.
Arguments float_gt_int : simpl never.

(** ** Exceptions *)

Inductive Exception :=
| ImageNotFound (msg : string)     (* docker.errors.ImageNotFound *)
| NotFound (msg : string)          (* docker.errors.NotFound, an APIError *)
| APIError (msg : string)          (* docker.errors.APIError *)
| RuntimeError (msg : string)
| ValueError (msg : string)
| TypeError (msg : string)
| OverflowError (msg : string)
| ConnectionError (msg : string).  (* transport failure under docker-py *)

(** [str(e)]. *)
Definition exc_str (e : Exception) : string :=
  match e with
  | ImageNotFound m | NotFound m | APIError m | RuntimeError m
  | ValueError m | TypeError m | OverflowError m | ConnectionError m => m
  end.

(** [isinstance(e, docker.errors.APIError)]: [NotFound] and
    [ImageNotFound] are subclasses of [APIError]. *)
Definition is_api_error (e : Exception) : bool :=
  match e with
  | ImageNotFound _ | NotFound _ | APIError _ => true
  | _ => false
  end.

(** ** Containers and their labels

    A Docker label value is a string.  The manager writes two kinds:
    plain text ([str(user_id)], [str(lab_id)], ["unknown"]) and the
    [isoformat()] rendering of a naive UTC datetime.  The rendering itself
    is kept abstract: [LTime t] is a string that
    [datetime.fromisoformat] parses to [t], [LText s] is the string [s],
    which it rejects with [ValueError]. *)

Inductive LabelValue :=
| LText (s : string)
| LTime (t : datetime).

Global Instance LabelValue_eq_dec : EqDecision LabelValue.
Proof. solve_decision. Defined.

(** Python truthiness of a label value ([if expires_str:]). *)
Definition label_truthy (v : LabelValue) : bool :=
  match v with
  | LText s => negb (String.eqb s "")
  | LTime _ => true
  end.

Definition LABEL_PREFIX : string := "studyhub".
Definition LABEL_USER_ID : string := LABEL_PREFIX +:+ ".user_id".
Definition LABEL_LAB_ID : string := LABEL_PREFIX +:+ ".lab_id".
Definition LABEL_CREATED_AT : string := LABEL_PREFIX +:+ ".created_at".
Definition LABEL_EXPIRES_AT : string := LABEL_PREFIX +:+ ".expires_at".

(** What the runtime knows of a container, and also what a docker-py
    [Container] object caches of it: [c_status] of a handle is the status
    at the time the handle was fetched. *)
Record Container := {
  c_id : Z;                                 (* [id]; [short_id] is a prefix of it *)
  c_name : string;
  c_image : string;
  c_labels : gmap string LabelValue;
  c_status : string;                        (* "created", "running", "exited", ... *)
  c_ports : option (Z * Z);                 (* container port, host port *)
}.

Definition with_status (s : string) (c : Container) : Container :=
  {| c_id := c_id c; c_name := c_name c; c_image := c_image c;
     c_labels := c_labels c; c_status := s; c_ports := c_ports c |}.

Definition is_running (c : Container) : bool := String.eqb (c_status c) "running".

(** ** Log records

    The calls to [logger] that mark the manager's steps, in the order
    they are emitted (newest first in [w_log]). *)

Inductive LogRecord :=
| LogSpawning (user_id : Z) (image_name : string)  (* "Spawning lab container for user .." *)
| LogSimulation                                  (* "Docker not available, returning simulation response" *)
| LogFoundPort (port : Z)
| LogStarted (cid : Z)
| LogReady (user_id : Z)
| LogFallback (image_name : string)                (* ".. Attempting fallback to default image." *)
| LogError (msg : string)
| LogKilling (user_id : Z)
| LogKilled (cid : Z)
| LogCleanupComplete (user_id : Z) (killed : nat)
| LogExpired (cid : Z)
| LogStale (cid : Z)
| LogStaleRemoved (n : nat)
| LogRecovered                                   (* "Docker connection established/recovered!" *)
| LogConnected                                   (* "Docker connection established successfully" *)
| LogNotAvailable                                (* "Docker not available: .." *)
| LogSimulationMode                              (* "Lab manager will run in simulation mode" *)
| LogBackgroundStarted.                          (* "Background container cleanup started" *)

(** ** The world *)

Record World := {
  (* the manager object *)
  w_docker_available : bool;        (* [self._docker_available] *)
  w_log : list LogRecord;
  w_cleanup_thread : bool;          (* the daemon thread of [run_cleanup] was started *)
  (* the container runtime *)
  w_reachable : bool;               (* [client.ping()] and every API call get through *)
  w_containers : list Container;    (* newest first, as [containers.list] returns them *)
  w_next_id : Z;                    (* id the runtime gives to the next container *)
  w_images : gmap string string;    (* image present locally or pullable, with the
                                       status its container reports once settled *)
  w_kill_fails : list Z;            (* containers whose [kill()] the runtime refuses *)
  w_stop_fails : list Z;            (* .. [stop()] .. *)
  w_remove_fails : list Z;          (* .. [remove()] .. *)
  (* the host *)
  w_bound_ports : list Z;           (* TCP ports bound by other processes *)
  w_host_ip : string;               (* what [_get_host_ip] finds *)
  w_now : datetime;                 (* the UTC clock *)
  w_random : list Z;                (* raw draws still to come from [random] and [secrets] *)
}.

Definition set_docker_available (b : bool) (w : World) : World :=
  {| w_docker_available := b; w_log := w_log w;
     w_cleanup_thread := w_cleanup_thread w; w_reachable := w_reachable w;
     w_containers := w_containers w; w_next_id := w_next_id w;
     w_images := w_images w; w_kill_fails := w_kill_fails w;
     w_stop_fails := w_stop_fails w; w_remove_fails := w_remove_fails w;
     w_bound_ports := w_bound_ports w; w_host_ip := w_host_ip w;
     w_now := w_now w; w_random := w_random w |}.

Definition set_log (l : list LogRecord) (w : World) : World :=
  {| w_docker_available := w_docker_available w; w_log := l;
     w_cleanup_thread := w_cleanup_thread w; w_reachable := w_reachable w;
     w_containers := w_containers w; w_next_id := w_next_id w;
     w_images := w_images w; w_kill_fails := w_kill_fails w;
     w_stop_fails := w_stop_fails w; w_remove_fails := w_remove_fails w;
     w_bound_ports := w_bound_ports w; w_host_ip := w_host_ip w;
     w_now := w_now w; w_random := w_random w |}.

Definition set_cleanup_thread (b : bool) (w : World) : World :=
  {| w_docker_available := w_docker_available w; w_log := w_log w;
     w_cleanup_thread := b; w_reachable := w_reachable w;
     w_containers := w_containers w; w_next_id := w_next_id w;
     w_images := w_images w; w_kill_fails := w_kill_fails w;
     w_stop_fails := w_stop_fails w; w_remove_fails := w_remove_fails w;
     w_bound_ports := w_bound_ports w; w_host_ip := w_host_ip w;
     w_now := w_now w; w_random := w_random w |}.

Definition set_reachable (b : bool) (w : World) : World :=
  {| w_docker_available := w_docker_available w; w_log := w_log w;
     w_cleanup_thread := w_cleanup_thread w; w_reachable := b;
     w_containers := w_containers w; w_next_id := w_next_id w;
     w_images := w_images w; w_kill_fails := w_kill_fails w;
     w_stop_fails := w_stop_fails w; w_remove_fails := w_remove_fails w;
     w_bound_ports := w_bound_ports w; w_host_ip := w_host_ip w;
     w_now := w_now w; w_random := w_random w |}.

Definition set_containers (cs : list Container) (w : World) : World :=
  {| w_docker_available := w_docker_available w; w_log := w_log w;
     w_cleanup_thread := w_cleanup_thread w; w_reachable := w_reachable w;
     w_containers := cs; w_next_id := w_next_id w;
     w_images := w_images w; w_kill_fails := w_kill_fails w;
     w_stop_fails := w_stop_fails w; w_remove_fails := w_remove_fails w;
     w_bound_ports := w_bound_ports w; w_host_ip := w_host_ip w;
     w_now := w_now w; w_random := w_random w |}.

Definition set_next_id (n : Z) (w : World) : World :=
  {| w_docker_available := w_docker_available w; w_log := w_log w;
     w_cleanup_thread := w_cleanup_thread w; w_reachable := w_reachable w;
     w_containers := w_containers w; w_next_id := n;
     w_images := w_images w; w_kill_fails := w_kill_fails w;
     w_stop_fails := w_stop_fails w; w_remove_fails := w_remove_fails w;
     w_bound_ports := w_bound_ports w; w_host_ip := w_host_ip w;
     w_now := w_now w; w_random := w_random w |}.

Definition set_now (t : datetime) (w : World) : World :=
  {| w_docker_available := w_docker_available w; w_log := w_log w;
     w_cleanup_thread := w_cleanup_thread w; w_reachable := w_reachable w;
     w_containers := w_containers w; w_next_id := w_next_id w;
     w_images := w_images w; w_kill_fails := w_kill_fails w;
     w_stop_fails := w_stop_fails w; w_remove_fails := w_remove_fails w;
     w_bound_ports := w_bound_ports w; w_host_ip := w_host_ip w;
     w_now := t; w_random := w_random w |}.

Definition set_random (r : list Z) (w : World) : World :=
  {| w_docker_available := w_docker_available w; w_log := w_log w;
     w_cleanup_thread := w_cleanup_thread w; w_reachable := w_reachable w;
     w_containers := w_containers w; w_next_id := w_next_id w;
     w_images := w_images w; w_kill_fails := w_kill_fails w;
     w_stop_fails := w_stop_fails w; w_remove_fails := w_remove_fails w;
     w_bound_ports := w_bound_ports w; w_host_ip := w_host_ip w;
     w_now := w_now w; w_random := r |}.

(** ** The monad: state [World], exceptions [Exception] *)

Inductive Result (A : Type) :=
| Ok (a : A)
| Raise (e : Exception).
Arguments Ok {A} a.
Arguments Raise {A} e.

Definition M (A : Type) : Type := World -> Result A * World.

Definition ret {A} (a : A) : M A := fun w => (Ok a, w).
Definition raise {A} (e : Exception) : M A := fun w => (Raise e, w).

Definition bind {A B} (m : M A) (k : A -> M B) : M B :=
  fun w =>
    match m w with
    | (Ok a, w') => k a w'
    | (Raise e, w') => (Raise e, w')
    end.

(** [try: m except Exception as e: h e]. *)
Definition try_except {A} (m : M A) (h : Exception -> M A) : M A :=
  fun w =>
    match m w with
    | (Ok a, w') => (Ok a, w')
    | (Raise e, w') => h e w'
    end.

Definition get_world : M World := fun w => (Ok w, w).
Definition modify (f : World -> World) : M unit := fun w => (Ok tt, f w).

Declare Scope lab_scope.
Delimit Scope lab_scope with lab.
Notation "x <-- c1 ;; c2" := (bind c1 (fun x => c2))
  (at level 100, c1 at next level, right associativity) : lab_scope.
Notation "c1 ;;; c2" := (bind c1 (fun _ => c2))
  (at level 100, right associativity) : lab_scope.
Open Scope lab_scope.

(** [for x in xs: body], threading an accumulator. *)
Fixpoint for_each {A S} (xs : list A) (body : A -> S -> M S) (acc : S) : M S :=
  match xs with
  | [] => ret acc
  | x :: xs' => acc' <-- body x acc ;; for_each xs' body acc'
  end.

Definition log (r : LogRecord) : M unit :=
  modify (fun w => set_log (r :: w_log w) w).

(** ** The host: clock, random numbers, ports *)

(** [datetime.utcnow()].  Two readings agree unless a [sleep] lies
    between them: the time the other steps take is not modelled. *)
Definition utcnow : M datetime := fun w => (Ok (w_now w), w).

(** [time.sleep(s)]: the only thing that moves the clock; every other
    step is taken to be instantaneous. *)
Definition sleep (s : Z) : M unit :=
  modify (fun w => set_now (w_now w + seconds s) w).

(** [int(time.time())]: whole seconds since 1970-01-01, whose ordinal is
    719163; [int] truncates towards zero. *)
Definition UNIX_EPOCH : datetime := 719162 * MICROS_PER_DAY.

Definition time_time_int : M Z :=
  fun w => (Ok (Z.quot (w_now w - UNIX_EPOCH) MICROS_PER_SECOND), w).

(** [timedelta(minutes=n)]. *)
Definition timedelta_minutes (n : Z) : M Z :=
  if timedelta_in_range (minutes n) then ret (minutes n)
  else raise (OverflowError (timedelta_overflow_text (minutes n))).

(** [t + d] for a datetime [t] and a timedelta [d]. *)
Definition datetime_add (t : datetime) (d : Z) : M datetime :=
  if datetime_in_range (t + d) then ret (t + d)
  else raise (OverflowError "date value out of range").

(** [datetime.fromisoformat(s)], where [s] comes from [labels.get(..)]
    and so may be [None]. *)
Definition fromisoformat (s : option LabelValue) : M datetime :=
  match s with
  | Some (LTime t) => ret t
  | Some (LText _) => raise (ValueError "Invalid isoformat string")
  | None => raise (TypeError "fromisoformat: argument must be str")
  end.

(** The next raw value of the random source; a source that has run dry
    keeps giving 0. *)
Definition raw_draw : M Z :=
  fun w =>
    match w_random w with
    | [] => (Ok 0, w)
    | r :: rs => (Ok r, set_random rs w)
    end.

(** [random.randint(a, b)]: both ends included. *)
Definition randint (a b : Z) : M Z :=
  r <-- raw_draw ;; ret (a + r mod (b - a + 1)).

Definition hex_digit (d : Z) : string :=
  match d with
  | 0 => "0" | 1 => "1" | 2 => "2" | 3 => "3" | 4 => "4" | 5 => "5"
  | 6 => "6" | 7 => "7" | 8 => "8" | 9 => "9" | 10 => "a" | 11 => "b"
  | 12 => "c" | 13 => "d" | 14 => "e" | _ => "f"
  end.

Fixpoint hex_digits (n : nat) (v : Z) : string :=
  match n with
  | O => ""
  | S n' => hex_digits n' (v / 16) +:+ hex_digit (v mod 16)
  end.

(** [secrets.token_hex(nbytes)]. *)
Definition token_hex (nbytes : nat) : M string :=
  r <-- raw_draw ;; ret (hex_digits (2 * nbytes) (r mod 256 ^ Z.of_nat nbytes)).

Definition publishes (p : Z) (c : Container) : bool :=
  is_running c &&
  match c_ports c with
  | Some (_, host_port) => host_port =? p
  | None => false
  end.

(** A port is taken by another process or by a running container that
    publishes it. *)
Definition port_in_use (w : World) (p : Z) : bool :=
  bool_decide (p ∈ w_bound_ports w) || existsb (publishes p) (w_containers w).

(** ** The runtime client

    The texts of the runtime's errors are abbreviated. *)

Definition require_reachable : M unit :=
  fun w =>
    if w_reachable w then (Ok tt, w)
    else (Raise (ConnectionError "Error while fetching server API version"), w).

(** [client.ping()] as a test. *)
Definition ping_ok (w : World) : bool := w_reachable w.

(** The [filters] argument of [containers.list]: a label that must be
    present, optionally with a given value, and optionally a status. *)
Record Filters := {
  f_label : string;
  f_label_value : option LabelValue;
  f_status : option string;
}.

Definition matches (all : bool) (f : Filters) (c : Container) : bool :=
  match c_labels c !! f_label f with
  | None => false
  | Some v =>
      match f_label_value f with
      | None => true
      | Some v' => bool_decide (v = v')
      end
  end
  && match f_status f with
     | None => all || is_running c
     | Some s => String.eqb (c_status c) s
     end.

(** [client.containers.list(all=.., filters=..)]. *)
Definition containers_list (all : bool) (f : Filters) : M (list Container) :=
  require_reachable ;;;
  w <-- get_world ;;
  ret (List.filter (matches all f) (w_containers w)).

Definition find_container (cid : Z) (w : World) : option Container :=
  List.find (fun c => c_id c =? cid) (w_containers w).

(** [client.containers.get(id)] and [container.reload()]. *)
Definition containers_get (cid : Z) : M Container :=
  require_reachable ;;;
  w <-- get_world ;;
  match find_container cid w with
  | Some c => ret c
  | None => raise (NotFound "No such container")
  end.

Definition container_reload (c : Container) : M Container :=
  containers_get (c_id c).

Definition mark_exited (cid : Z) (cs : list Container) : list Container :=
  map (fun c => if c_id c =? cid then with_status "exited" c else c) cs.

Definition drop_container (cid : Z) (cs : list Container) : list Container :=
  List.filter (fun c => negb (c_id c =? cid)) cs.

(** [container.kill()]: the runtime refuses a container that is not
    running. *)
Definition container_kill (c : Container) : M unit :=
  require_reachable ;;;
  w <-- get_world ;;
  if bool_decide (c_id c ∈ w_kill_fails w) then raise (APIError "cannot kill container")
  else
    match find_container (c_id c) w with
    | None => raise (NotFound "No such container")
    | Some c' =>
        if is_running c'
        then modify (fun w => set_containers (mark_exited (c_id c) (w_containers w)) w)
        else raise (APIError "container is not running")
    end.

(** [container.stop(timeout=10)]: stopping a stopped container is
    accepted. *)
Definition container_stop (c : Container) : M unit :=
  require_reachable ;;;
  w <-- get_world ;;
  if bool_decide (c_id c ∈ w_stop_fails w) then raise (APIError "cannot stop container")
  else
    match find_container (c_id c) w with
    | None => raise (NotFound "No such container")
    | Some _ => modify (fun w => set_containers (mark_exited (c_id c) (w_containers w)) w)
    end.

(** [container.remove(force=True)]. *)
Definition container_remove (c : Container) : M unit :=
  require_reachable ;;;
  w <-- get_world ;;
  if bool_decide (c_id c ∈ w_remove_fails w) then raise (APIError "cannot remove container")
  else
    match find_container (c_id c) w with
    | None => raise (NotFound "No such container")
    | Some _ => modify (fun w => set_containers (drop_container (c_id c) (w_containers w)) w)
    end.

(** A container name belongs to one container at a time, whatever the
    state of that container. *)
Definition name_in_use (w : World) (name : string) : bool :=
  existsb (fun c => String.eqb (c_name c) name) (w_containers w).

(** [client.containers.run(image, name=.., detach=True, ports=..,
    labels=.., ..)]: creates the container, then starts it.  A missing
    image stops the call before anything is created, and so does a name
    that another container bears (409 Conflict); a host port that is taken
    makes the start fail and leaves the container behind in state
    "created".  The handle returned caches the state "created"; the runtime
    already holds the state the container settles in. *)
Definition containers_run (image name : string) (ports : Z * Z)
    (labels : gmap string LabelValue) : M Container :=
  require_reachable ;;;
  w <-- get_world ;;
  match w_images w !! image with
  | None => raise (ImageNotFound ("No such image: " +:+ image))
  | Some settled =>
      let c := {| c_id := w_next_id w; c_name := name; c_image := image;
                  c_labels := labels; c_status := "created";
                  c_ports := Some ports |} in
      if name_in_use w name then
        raise (APIError ("Conflict. The container name is already in use: " +:+ name))
      else if port_in_use w (snd ports) then
        modify (fun w => set_next_id (w_next_id w + 1)
                           (set_containers (c :: w_containers w) w)) ;;;
        raise (APIError "port is already allocated")
      else
        modify (fun w => set_next_id (w_next_id w + 1)
                           (set_containers (with_status settled c :: w_containers w) w)) ;;;
        ret c
  end.

(** ** DockerLabManager *)

Definition PORT_RANGE_START : Z := 20000.
Definition PORT_RANGE_END : Z := 30000.
Definition DEFAULT_TIMEOUT_MINUTES : Z := 120.

(** [range(a, b)]: [a], [a + 1], .. up to but not including [b]. *)
Fixpoint range_from (n : nat) (a : Z) : list Z :=
  match n with
  | O => []
  | S n' => a :: range_from n' (a + 1)
  end.

Definition range (a b : Z) : list Z := range_from (Z.to_nat (b - a)) a.

(** [start_background_cleanup]: starts the daemon thread of
    [run_cleanup]; what the thread does is modelled by the turns of
    [run_cleanup] below.  Nothing stops the thread, and nothing else
    starts it. *)
Definition start_background_cleanup : M unit :=
  modify (set_cleanup_thread true) ;;;
  log LogBackgroundStarted.

(** [__init__], without a [docker_host]: the manager as the process
    builds it, once.  A daemon that does not answer makes the client
    raise [DockerException], which the constructor catches. *)
Definition __init__ : M unit :=
  w <-- get_world ;;
  if ping_ok w then
    log LogConnected ;;;
    modify (set_docker_available true) ;;;
    start_background_cleanup
  else
    log LogNotAvailable ;;;
    log LogSimulationMode ;;;
    modify (set_docker_available false).

(** [_try_connect_docker]. *)
Definition _try_connect_docker : M bool :=
  w <-- get_world ;;
  if ping_ok w then
    modify (set_docker_available true) ;;;
    log LogRecovered ;;;
    ret true
  else ret false.

(** The property [is_docker_available]. *)
Definition is_docker_available : M bool :=
  w <-- get_world ;;
  if negb (w_docker_available w) then _try_connect_docker
  else ret (w_docker_available w).

(** [_is_port_available]: bind, then release. *)
Definition _is_port_available (port : Z) : M bool :=
  w <-- get_world ;; ret (negb (port_in_use w port)).

(** [_get_host_ip]. *)
Definition _get_host_ip : M string :=
  w <-- get_world ;; ret (w_host_ip w).

(** [for _ in range(n): port = random.randint(..); if free: return port]. *)
Fixpoint random_probe (n : nat) : M (option Z) :=
  match n with
  | O => ret None
  | S n' =>
      port <-- randint PORT_RANGE_START PORT_RANGE_END ;;
      free <-- _is_port_available port ;;
      if free then ret (Some port) else random_probe n'
  end.

(** [for port in ports: if free: return port]. *)
Fixpoint sequential_scan (ports : list Z) : M (option Z) :=
  match ports with
  | [] => ret None
  | port :: rest =>
      free <-- _is_port_available port ;;
      if free then ret (Some port) else sequential_scan rest
  end.

Definition _find_free_port : M Z :=
  r <-- random_probe 100 ;;
  match r with
  | Some port => ret port
  | None =>
      s <-- sequential_scan (range PORT_RANGE_START PORT_RANGE_END) ;;
      match s with
      | Some port => ret port
      | None => raise (RuntimeError "No free port available in range 20000-30000")
      end
  end.

(** *** Results

    The dictionaries the methods return.  Fields that are formatted from
    other fields of the same dictionary ([connection_string] and the
    greeting in [message], both built from [ip] and [port]) are left
    out. *)

Inductive ContainerRef :=
| RealId (cid : Z)                       (* [container.id] *)
| SimId (user_id : Z) (epoch : Z).       (* f"sim_{user_id}_{int(time.time())}" *)

Record SpawnInfo := {
  si_simulated : bool;                   (* key "simulated" present and true *)
  si_container_id : ContainerRef;
  si_container_name : string;
  si_ip : string;
  si_port : Z;
  si_internal_port : Z;
  si_image : string;
  si_user_id : Z;
  si_lab_id : option Z;
  si_started_at : datetime;
  si_expires_at : datetime;
  si_timeout_minutes : Z;
}.

Inductive SpawnResult :=
| SpawnSuccess (info : SpawnInfo)                       (* "success": True *)
| SpawnFailure (error_code error message : string).     (* "success": False *)

Record KillResult := {
  kr_success : bool;
  kr_killed_count : nat;
  kr_containers : list Z;
  kr_errors : option (list string);      (* [errors if errors else None] *)
  kr_error : option string;              (* only when listing failed *)
  kr_message : string;
}.

Record LabInfo := {
  li_container_id : Z;
  li_container_name : string;
  li_image : string;
  li_ip : string;
  li_port : option Z;
  li_lab_id : option LabelValue;
  li_created_at : option LabelValue;
  li_expires_at : option LabelValue;
  li_status : string;
}.

Record CleanupResult := {
  cr_success : bool;
  cr_cleaned : nat;
  cr_containers : list Z;
  cr_errors : option (list string);
  cr_error : option string;
}.

Record StaleResult := {
  sr_success : bool;
  sr_cleaned : option nat;               (* absent from the failure dictionary *)
  sr_error : option string;
}.

Inductive ExtendResult :=
| ExtendSuccess (new_expires_at : datetime) (additional_minutes : Z)
| ExtendFailure (error : string).

(** [x if x else None] for a list. *)
Definition none_if_empty {A} (l : list A) : option (list A) :=
  match l with [] => None | _ => Some l end.

(** *** kill_user_containers *)

Definition user_filter (user_id : Z) (status : option string) : Filters :=
  {| f_label := LABEL_USER_ID;
     f_label_value := Some (LText (pretty user_id));
     f_status := status |}.

(** The body of the [for container in containers] loop, with its own
    [try]/[except]: the pair is ([killed_containers], [errors]). *)
Definition kill_one (force : bool) (container : Container)
    (acc : list Z * list string) : M (list Z * list string) :=
  try_except
    (let container_id := c_id container in
     (if is_running container
      then (if force then container_kill container else container_stop container)
      else ret tt) ;;;
     container_remove container ;;;
     log (LogKilled container_id) ;;;
     ret (fst acc ++ [container_id], snd acc))
    (fun e =>
       let error_msg :=
         "Failed to kill container " +:+ pretty (c_id container) +:+ ": " +:+ exc_str e in
       log (LogError error_msg) ;;;
       ret (fst acc, snd acc ++ [error_msg])).

(** The loop body catches every exception, so the outer handler can only
    fire on [containers.list], when [killed_containers] is still empty. *)
Definition kill_user_containers (user_id : Z) (force : bool) : M KillResult :=
  log (LogKilling user_id) ;;;
  w <-- get_world ;;
  if negb (w_docker_available w) then
    ret {| kr_success := true; kr_killed_count := 0; kr_containers := [];
           kr_errors := None; kr_error := None;
           kr_message := "Docker not available (simulation mode)" |}
  else
    try_except
      (containers <-- containers_list true (user_filter user_id None) ;;
       acc <-- for_each containers (kill_one force) ([], []) ;;
       let (killed_containers, errors) := acc in
       log (LogCleanupComplete user_id (length killed_containers)) ;;;
       ret {| kr_success := bool_decide (length errors = 0%nat);
              kr_killed_count := length killed_containers;
              kr_containers := killed_containers;
              kr_errors := none_if_empty errors;
              kr_error := None;
              kr_message :=
                match killed_containers with
                | [] => "No active containers found"
                | _ => "Killed " +:+ pretty (length killed_containers) +:+ " container(s)"
                end |})
      (fun e =>
         let error_msg := "Error during cleanup: " +:+ exc_str e in
         log (LogError error_msg) ;;;
         ret {| kr_success := false; kr_killed_count := 0; kr_containers := [];
                kr_errors := None; kr_error := Some error_msg;
                kr_message := "Cleanup partially failed" |}).

(** *** get_user_active_lab *)

Definition get_user_active_lab (user_id : Z) : M (option LabInfo) :=
  w <-- get_world ;;
  if negb (w_docker_available w) then ret None
  else
    try_except
      (containers <-- containers_list false (user_filter user_id (Some "running")) ;;
       match containers with
       | [] => ret None
       | container :: _ =>
           let labels := c_labels container in
           ip <-- _get_host_ip ;;
           ret (Some {| li_container_id := c_id container;
                        li_container_name := c_name container;
                        li_image := c_image container;
                        li_ip := ip;
                        li_port := snd <$> c_ports container;
                        li_lab_id := labels !! LABEL_LAB_ID;
                        li_created_at := labels !! LABEL_CREATED_AT;
                        li_expires_at := labels !! LABEL_EXPIRES_AT;
                        li_status := c_status container |})
       end)
      (fun e =>
         log (LogError ("Error getting active lab: " +:+ exc_str e)) ;;;
         ret None).

(** *** cleanup_expired_containers *)

Definition kill_if_running_then_remove (container : Container) : M unit :=
  (if is_running container then container_kill container else ret tt) ;;;
  container_remove container.

Definition expire_one (now : datetime) (container : Container)
    (acc : list Z * list string) : M (list Z * list string) :=
  try_except
    (let expires_str := c_labels container !! LABEL_EXPIRES_AT in
     match expires_str with
     | Some v =>
         if label_truthy v then
           expires_at <-- fromisoformat expires_str ;;
           if now >? expires_at then
             log (LogExpired (c_id container)) ;;;
             kill_if_running_then_remove container ;;;
             ret (fst acc ++ [c_id container], snd acc)
           else ret acc
         else ret acc
     | None => ret acc
     end)
    (fun e => ret (fst acc, snd acc ++ [pretty (c_id container) +:+ ": " +:+ exc_str e])).

Definition cleanup_expired_containers : M CleanupResult :=
  w <-- get_world ;;
  if negb (w_docker_available w) then
    ret {| cr_success := true; cr_cleaned := 0; cr_containers := [];
           cr_errors := None; cr_error := None |}
  else
    try_except
      (containers <-- containers_list true
         {| f_label := LABEL_EXPIRES_AT; f_label_value := None; f_status := None |} ;;
       now <-- utcnow ;;
       acc <-- for_each containers (expire_one now) ([], []) ;;
       let (cleaned, errors) := acc in
       ret {| cr_success := true; cr_cleaned := length cleaned;
              cr_containers := cleaned; cr_errors := none_if_empty errors;
              cr_error := None |})
      (fun e =>
         log (LogError ("Cleanup error: " +:+ exc_str e)) ;;;
         ret {| cr_success := false; cr_cleaned := 0; cr_containers := [];
                cr_errors := None; cr_error := Some (exc_str e) |}).

(** *** cleanup_stale_containers

    [age = (now - created_at).total_seconds() / 60] is a float: the
    difference in microseconds is divided by [10**6] and the quotient by
    60, each division rounded to the nearest double; [age >
    max_age_minutes] compares that float with the integer. *)

Definition stale_one (now : datetime) (max_age_minutes : Z) (container : Container)
    (cleaned : list Z) : M (list Z) :=
  try_except
    (let created_str := c_labels container !! LABEL_CREATED_AT in
     match created_str with
     | Some v =>
         if label_truthy v then
           created_at <-- fromisoformat created_str ;;
           let age := float_div_int (total_seconds (now - created_at)) 60 in
           if float_gt_int age max_age_minutes then
             log (LogStale (c_id container)) ;;;
             kill_if_running_then_remove container ;;;
             ret (cleaned ++ [c_id container])
           else ret cleaned
         else ret cleaned
     | None => ret cleaned
     end)
    (fun e =>
       log (LogError ("Error checking stale container " +:+ pretty (c_id container)
                      +:+ ": " +:+ exc_str e)) ;;;
       ret cleaned).

Definition cleanup_stale_containers (max_age_minutes : Z) : M StaleResult :=
  w <-- get_world ;;
  if negb (w_docker_available w) then
    ret {| sr_success := true; sr_cleaned := Some 0%nat; sr_error := None |}
  else
    try_except
      (containers <-- containers_list true
         {| f_label := LABEL_CREATED_AT; f_label_value := None; f_status := None |} ;;
       now <-- utcnow ;;
       cleaned <-- for_each containers (stale_one now max_age_minutes) [] ;;
       (match cleaned with
        | [] => ret tt
        | _ => log (LogStaleRemoved (length cleaned))
        end) ;;;
       ret {| sr_success := true; sr_cleaned := Some (length cleaned); sr_error := None |})
      (fun e =>
         log (LogError ("Stale cleanup failed: " +:+ exc_str e)) ;;;
         ret {| sr_success := false; sr_cleaned := None; sr_error := Some (exc_str e) |}).

(** *** start_background_cleanup

    One turn of the [while True] loop of [run_cleanup], and its first [n]
    turns.  The default [max_age_minutes] of [cleanup_stale_containers]
    is 60. *)

Definition STALE_MAX_AGE_MINUTES : Z := 60.
Definition CLEANUP_PERIOD_SECONDS : Z := 300.

Definition run_cleanup_once : M unit :=
  try_except
    (w <-- get_world ;;
     if w_docker_available w
     then (cleanup_stale_containers STALE_MAX_AGE_MINUTES ;;; ret tt)
     else ret tt)
    (fun e => log (LogError ("Error in background cleanup: " +:+ exc_str e))) ;;;
  sleep CLEANUP_PERIOD_SECONDS.

Fixpoint run_cleanup (n : nat) : M unit :=
  match n with
  | O => ret tt
  | S n' => run_cleanup_once ;;; run_cleanup n'
  end.

(** *** _simulate_spawn *)

Definition _simulate_spawn (user_id : Z) (image_name : string) (lab_id : option Z)
    : M SpawnResult :=
  simulated_port <-- randint PORT_RANGE_START PORT_RANGE_END ;;
  let simulated_ip := "10.10.10.5" in
  epoch <-- time_time_int ;;
  started_at <-- utcnow ;;
  now <-- utcnow ;;
  td <-- timedelta_minutes 120 ;;
  expires_at <-- datetime_add now td ;;
  ret (SpawnSuccess
         {| si_simulated := true;
            si_container_id := SimId user_id epoch;
            si_container_name := "simulated_lab_" +:+ pretty user_id;
            si_ip := simulated_ip;
            si_port := simulated_port;
            si_internal_port := 80;
            si_image := image_name;
            si_user_id := user_id;
            si_lab_id := lab_id;
            si_started_at := started_at;
            si_expires_at := expires_at;
            si_timeout_minutes := 120 |}).

(** *** spawn_lab_container

    The arguments [environment], [memory_limit] and [cpu_limit] are passed
    to the runtime untouched and never read back; they are left out. *)

Definition FALLBACK_IMAGE : string := "nginx:alpine".

(** Truthiness of an [Optional[int]] ([if lab_id]). *)
Definition lab_id_truthy (lab_id : option Z) : bool :=
  match lab_id with
  | Some n => negb (n =? 0)
  | None => false
  end.

Definition lab_id_text (lab_id : option Z) (default : string) : string :=
  match lab_id with
  | Some n => if n =? 0 then default else pretty n
  | None => default
  end.

Definition spawn_labels (user_id : Z) (lab_id : option Z)
    (created_at expires_at : datetime) : gmap string LabelValue :=
  <[LABEL_USER_ID := LText (pretty user_id)]>
    (<[LABEL_LAB_ID := LText (lab_id_text lab_id "unknown")]>
       (<[LABEL_CREATED_AT := LTime created_at]>
          (<[LABEL_EXPIRES_AT := LTime expires_at]> ∅))).

(** What steps 1 to 5 hand over to steps 6 and 7. *)
Record Launched := {
  la_container : Container;      (* the handle [containers.run] returned *)
  la_container_name : string;
  la_host_port : Z;
}.

(** The [try:] block, steps 1 to 5: up to the container being created. *)
Definition spawn_launch (user_id : Z) (image_name : string) (lab_id : option Z)
    (container_port timeout_minutes : Z) : M Launched :=
  (* Step 1: kill any existing containers for this user; the result is dropped *)
  kill_user_containers user_id true ;;;
  (* Step 2 *)
  host_port <-- _find_free_port ;;
  log (LogFoundPort host_port) ;;;
  (* Step 3 *)
  created_at <-- utcnow ;;
  now <-- utcnow ;;
  td <-- timedelta_minutes timeout_minutes ;;
  label_expires_at <-- datetime_add now td ;;
  let labels := spawn_labels user_id lab_id created_at label_expires_at in
  (* Step 4 *)
  random_suffix <-- token_hex 4 ;;
  let container_name :=
    "lab_user" +:+ pretty user_id +:+ "_" +:+ lab_id_text lab_id "dev"
    +:+ "_" +:+ random_suffix in
  (* Step 5 *)
  container <-- containers_run image_name container_name (container_port, host_port) labels ;;
  log (LogStarted (c_id container)) ;;;
  ret {| la_container := container; la_container_name := container_name;
         la_host_port := host_port |}.

(** The [try:] block, steps 6 and 7: the settle delay, the check that
    the container runs, and the result. *)
Definition spawn_settle (user_id : Z) (image_name : string) (lab_id : option Z)
    (container_port timeout_minutes : Z) (la : Launched) : M SpawnResult :=
  (* Step 6 *)
  host_ip <-- _get_host_ip ;;
  (* Step 7 *)
  sleep 2 ;;;
  container <-- container_reload (la_container la) ;;
  if negb (is_running container) then
    raise (RuntimeError ("Container failed to start: " +:+ c_status container))
  else
    now <-- utcnow ;;
    td <-- timedelta_minutes timeout_minutes ;;
    expires_at <-- datetime_add now td ;;
    started_at <-- utcnow ;;
    log (LogReady user_id) ;;;
    ret (SpawnSuccess
           {| si_simulated := false;
              si_container_id := RealId (c_id container);
              si_container_name := la_container_name la;
              si_ip := host_ip;
              si_port := la_host_port la;
              si_internal_port := container_port;
              si_image := image_name;
              si_user_id := user_id;
              si_lab_id := lab_id;
              si_started_at := started_at;
              si_expires_at := expires_at;
              si_timeout_minutes := timeout_minutes |}).

Definition spawn_try (user_id : Z) (image_name : string) (lab_id : option Z)
    (container_port timeout_minutes : Z) : M SpawnResult :=
  la <-- spawn_launch user_id image_name lab_id container_port timeout_minutes ;;
  spawn_settle user_id image_name lab_id container_port timeout_minutes la.

(** What comes before the [try:] block: the first log line and the check
    that Docker is there, with one more attempt to connect. *)
Definition spawn_enter (user_id : Z) (image_name : string) : M bool :=
  log (LogSpawning user_id image_name) ;;;
  w <-- get_world ;;
  if negb (w_docker_available w) then _try_connect_docker else ret true.

(** The handlers that end in a dictionary: [APIError], [RuntimeError],
    [Exception], tried in this order. *)
Definition spawn_handle_other (e : Exception) : M SpawnResult :=
  if is_api_error e then
    let error_msg := "Docker API error: " +:+ exc_str e in
    log (LogError error_msg) ;;;
    ret (SpawnFailure "DOCKER_API_ERROR" error_msg "Failed to start lab. Please try again.")
  else
    match e with
    | RuntimeError msg =>
        log (LogError msg) ;;;
        ret (SpawnFailure "RUNTIME_ERROR" msg "Server is busy. Please try again later.")
    | _ =>
        let error_msg := "Unexpected error: " +:+ exc_str e in
        log (LogError error_msg) ;;;
        ret (SpawnFailure "UNKNOWN_ERROR" error_msg "An unexpected error occurred.")
    end.

(** The method calls itself from its [ImageNotFound] handler; [fuel]
    bounds the depth of the calls, and [None] means the bound was hit. *)
Fixpoint spawn_lab_container (fuel : nat) (user_id : Z) (image_name : string)
    (lab_id : option Z) (container_port timeout_minutes : Z) (w : World)
    : option (Result SpawnResult * World) :=
  match fuel with
  | O => None
  | S fuel' =>
      match spawn_enter user_id image_name w with
      | (Raise e, w) => Some (Raise e, w)
      | (Ok false, w) =>
          let (_, w) := log LogSimulation w in
          Some (_simulate_spawn user_id image_name lab_id w)
      | (Ok true, w) =>
          match spawn_try user_id image_name lab_id container_port timeout_minutes w with
          | (Ok result, w) => Some (Ok result, w)
          | (Raise (ImageNotFound _), w) =>
              let (_, w) := log (LogFallback image_name) w in
              if String.eqb image_name FALLBACK_IMAGE then
                (* Avoid infinite recursion if default is also missing *)
                Some (Ok (SpawnFailure "DEFAULT_IMAGE_MISSING" "Default image missing"
                            "System configuration error. Please contact support."), w)
              else
                match spawn_lab_container fuel' user_id FALLBACK_IMAGE lab_id
                        container_port timeout_minutes w with
                | None => None
                | Some (Ok result, w) => Some (Ok result, w)
                | Some (Raise e, w) =>
                    let (_, w) := log (LogError ("Fallback failed: " +:+ exc_str e)) w in
                    Some (Ok (SpawnFailure "IMAGE_NOT_FOUND"
                                ("Image " +:+ image_name +:+ " not found and fallback failed.")
                                "Lab image not available. Please contact support."), w)
                end
          | (Raise e, w) => Some (spawn_handle_other e w)
          end
      end
  end.

(** *** extend_lab_timeout *)

Definition extend_lab_timeout (user_id : Z) (additional_minutes : Z) : M ExtendResult :=
  w <-- get_world ;;
  if negb (w_docker_available w) then ret (ExtendFailure "Docker not available")
  else
    try_except
      (lab <-- get_user_active_lab user_id ;;
       match lab with
       | None => ret (ExtendFailure "No active lab found")
       | Some lab =>
           container <-- containers_get (li_container_id lab) ;;
           current_expires <-- fromisoformat (li_expires_at lab) ;;
           td <-- timedelta_minutes additional_minutes ;;
           new_expires <-- datetime_add current_expires td ;;
           ret (ExtendSuccess new_expires additional_minutes)
       end)
      (fun e =>
         log (LogError ("Error extending timeout: " +:+ exc_str e)) ;;;
         ret (ExtendFailure (exc_str e))).

(** * Properties *)

(** ** The runtime when it cooperates *)

(** What no method of the manager changes. *)
Definition static (w : World) :=
  (w_reachable w, w_images w, w_kill_fails w, w_stop_fails w,
   w_remove_fails w, w_bound_ports w, w_host_ip w).

(** The runtime answers, and refuses no kill, stop or remove. *)
Definition healthy (w : World) : Prop :=
  w_reachable w = true ∧ w_kill_fails w = [] ∧ w_stop_fails w = []
  ∧ w_remove_fails w = [].

Definition ids (w : World) : list Z := map c_id (w_containers w).

(** Container ids are unique and below the next id to be given out. *)
Definition well_formed (w : World) : Prop :=
  NoDup (ids w) ∧ Forall (fun i => i < w_next_id w) (ids w).

(** The container carries the owner's label, as [user_filter] asks. *)
Definition tagged (user_id : Z) (c : Container) : bool :=
  bool_decide (c_labels c !! LABEL_USER_ID = Some (LText (pretty user_id))).

Lemma healthy_static w w' : static w' = static w → healthy w → healthy w'.
Proof. unfold static, healthy. intros Heq; injection Heq as -> _ -> -> -> _ _. tauto. Qed.

Lemma log_run r w : log r w = (Ok tt, set_log (r :: w_log w) w).
Proof. reflexivity. Qed.

Lemma find_container_Some cid w c :
  find_container cid w = Some c → c ∈ w_containers w ∧ c_id c = cid.
Proof.
  unfold find_container. intros H. apply find_some in H as [Hin Hid].
  split; [by apply list_elem_of_In | lia].
Qed.

Lemma find_container_elem w c :
  NoDup (ids w) → c ∈ w_containers w → find_container (c_id c) w = Some c.
Proof.
  unfold ids, find_container. induction (w_containers w) as [|d cs IH]; simpl.
  - intros _ H. by apply elem_of_nil in H.
  - intros Hnd Hin. apply NoDup_cons in Hnd as [Hd Hnd].
    apply elem_of_cons in Hin as [->|Hin].
    + by rewrite Z.eqb_refl.
    + destruct (c_id d =? c_id c) eqn:E; [|by apply IH].
      exfalso. apply Hd. apply Z.eqb_eq in E. rewrite E.
      apply list_elem_of_fmap. by exists c.
Qed.

Lemma drop_mark_exited cid cs :
  drop_container cid (mark_exited cid cs) = drop_container cid cs.
Proof.
  unfold drop_container, mark_exited. induction cs as [|d cs IH]; simpl; [done|].
  destruct (c_id d =? cid) eqn:E; simpl; rewrite E; simpl; by rewrite IH.
Qed.

Lemma find_mark_exited cid w c :
  find_container cid w = Some c →
  find_container cid (set_containers (mark_exited cid (w_containers w)) w)
  = Some (with_status "exited" c).
Proof.
  unfold find_container, mark_exited; simpl.
  induction (w_containers w) as [|d cs IH]; simpl; [done|].
  destruct (c_id d =? cid) eqn:E; simpl; rewrite E; [congruence | done].
Qed.

Lemma container_kill_healthy w c :
  healthy w → NoDup (ids w) → c ∈ w_containers w → is_running c = true →
  container_kill c w
  = (Ok tt, set_containers (mark_exited (c_id c) (w_containers w)) w).
Proof.
  intros (Hr & Hk & _ & _) Hnd Hin Hrun.
  unfold container_kill, bind, require_reachable, get_world, raise, modify.
  rewrite Hr, Hk, (find_container_elem w c Hnd Hin), Hrun.
  by rewrite bool_decide_eq_false_2 by apply not_elem_of_nil.
Qed.

Lemma container_stop_healthy w c :
  healthy w → NoDup (ids w) → c ∈ w_containers w →
  container_stop c w
  = (Ok tt, set_containers (mark_exited (c_id c) (w_containers w)) w).
Proof.
  intros (Hr & _ & Hs & _) Hnd Hin.
  unfold container_stop, bind, require_reachable, get_world, raise, modify.
  rewrite Hr, Hs, (find_container_elem w c Hnd Hin).
  by rewrite bool_decide_eq_false_2 by apply not_elem_of_nil.
Qed.

Lemma container_remove_healthy w c d :
  healthy w → find_container (c_id c) w = Some d →
  container_remove c w
  = (Ok tt, set_containers (drop_container (c_id c) (w_containers w)) w).
Proof.
  intros (Hr & _ & _ & Hrm) Hf.
  unfold container_remove, bind, require_reachable, get_world, raise, modify.
  rewrite Hr, Hrm, Hf.
  by rewrite bool_decide_eq_false_2 by apply not_elem_of_nil.
Qed.

(** Stop it if it runs, by [kill] or [stop]. *)
Definition stopped (c : Container) (w : World) : World :=
  if is_running c
  then set_containers (mark_exited (c_id c) (w_containers w)) w
  else w.

Lemma stop_if_running_healthy (force : bool) w c :
  healthy w → NoDup (ids w) → c ∈ w_containers w →
  (if is_running c
   then (if force then container_kill c else container_stop c)
   else ret tt) w
  = (Ok tt, stopped c w).
Proof.
  intros Hh Hnd Hin. unfold stopped. destruct (is_running c) eqn:Hrun; [|done].
  destruct force; [by apply container_kill_healthy | by apply container_stop_healthy].
Qed.

(** Then remove it: the container is gone and nothing else moved. *)
Lemma remove_stopped_healthy w c :
  healthy w → NoDup (ids w) → c ∈ w_containers w →
  container_remove c (stopped c w)
  = (Ok tt, set_containers (drop_container (c_id c) (w_containers w)) w).
Proof.
  intros Hh Hnd Hin. unfold stopped. destruct (is_running c).
  - erewrite container_remove_healthy.
    + simpl. by rewrite drop_mark_exited.
    + done.
    + apply find_mark_exited. by apply find_container_elem.
  - erewrite container_remove_healthy; [done | done |].
    by apply find_container_elem.
Qed.

Lemma kill_if_running_then_remove_healthy w c :
  healthy w → NoDup (ids w) → c ∈ w_containers w →
  kill_if_running_then_remove c w
  = (Ok tt, set_containers (drop_container (c_id c) (w_containers w)) w).
Proof.
  intros Hh Hnd Hin. unfold kill_if_running_then_remove, bind.
  rewrite (stop_if_running_healthy true) by done.
  by apply remove_stopped_healthy.
Qed.

(** A world that differs from [w] in its log and containers only. *)
Definition upd (l : list LogRecord) (cs : list Container) (w : World) : World :=
  set_log l (set_containers cs w).

Lemma upd_id w : upd (w_log w) (w_containers w) w = w.
Proof. by destruct w. Qed.

Lemma upd_upd l cs l' cs' w : upd l' cs' (upd l cs w) = upd l' cs' w.
Proof. reflexivity. Qed.

Lemma map_filter_NoDup {A B} (f : A → B) (p : A → bool) (l : list A) :
  NoDup (map f l) → NoDup (map f (List.filter p l)).
Proof.
  induction l as [|a l IH]; simpl; [done|].
  intros Hnd. apply NoDup_cons in Hnd as [Ha Hnd].
  destruct (p a); simpl; [|by apply IH].
  apply NoDup_cons. split; [|by apply IH].
  intros Hin. apply Ha. apply list_elem_of_fmap in Hin as (b & -> & Hb).
  apply list_elem_of_fmap. exists b. split; [done|].
  apply list_elem_of_In in Hb. apply filter_In in Hb as [Hb _].
  by apply list_elem_of_In.
Qed.

Lemma filter_filter_andb {A} (p q : A → bool) (l : list A) :
  List.filter p (List.filter q l) = List.filter (fun a => q a && p a) l.
Proof.
  induction l as [|a l IH]; simpl; [done|].
  destruct (q a); simpl; [destruct (p a)|]; by rewrite IH.
Qed.

(** The containers left once those of [L] picked by [sel] are removed. *)
Definition remaining (sel : Container → bool) (L cs : list Container) : list Container :=
  List.filter
    (fun c => negb (existsb (fun d => sel d && (c_id d =? c_id c)) L)) cs.

Lemma remaining_nil sel cs : remaining sel [] cs = cs.
Proof. unfold remaining. simpl. induction cs; simpl; congruence. Qed.

Lemma remaining_cons sel c L cs :
  remaining sel L (if sel c then drop_container (c_id c) cs else cs)
  = remaining sel (c :: L) cs.
Proof.
  unfold remaining, drop_container. simpl. destruct (sel c); simpl.
  - rewrite filter_filter_andb. apply filter_ext. intros a.
    rewrite (Z.eqb_sym (c_id a)). by destruct (c_id c =? c_id a).
  - done.
Qed.

(** On unique ids, removing the picked members of a filtered listing is
    filtering the picked ones out. *)
Lemma remaining_filter sel p cs :
  NoDup (map c_id cs) →
  remaining sel (List.filter p cs) cs = List.filter (fun c => negb (p c && sel c)) cs.
Proof.
  intros Hnd. unfold remaining. apply filter_ext_in. intros a Ha. f_equal.
  apply eq_true_iff_eq. rewrite existsb_exists, andb_true_iff. split.
  - intros (d & Hd & Hsel). apply andb_true_iff in Hsel as [Hsel Hid].
    apply filter_In in Hd as [Hd Hp]. apply Z.eqb_eq in Hid.
    assert (d = a) as <-; [|done].
    apply list_elem_of_In in Hd, Ha.
    apply list_elem_of_lookup in Hd as [i Hi], Ha as [j Hj].
    assert (i = j) as ->; [|congruence].
    apply (NoDup_lookup (map c_id cs) i j (c_id a) Hnd);
      rewrite list_lookup_fmap; [rewrite Hi | rewrite Hj]; simpl; congruence.
  - intros [Hp Hsel]. exists a. rewrite filter_In, Hsel, Z.eqb_refl. tauto.
Qed.

Section Sweep.
Context {S : Type}.
Variable body : Container → S → M S.
Variable sel : Container → bool.
Variable step : Container → S → S.

(** One turn of the loop removes the container when [sel] picks it and
    leaves the runtime alone otherwise. *)
Hypothesis body_spec : ∀ c acc w,
  healthy w → NoDup (ids w) → c ∈ w_containers w →
  ∃ l, body c acc w
       = (Ok (step c acc),
          upd l (if sel c then drop_container (c_id c) (w_containers w)
                 else w_containers w) w).

Lemma for_each_sweep L : ∀ w acc,
  healthy w → NoDup (ids w) →
  (∀ c, c ∈ L → c ∈ w_containers w) → NoDup (map c_id L) →
  ∃ l, for_each L body acc w
       = (Ok (fold_left (fun a c => step c a) L acc),
          upd l (remaining sel L (w_containers w)) w).
Proof.
  induction L as [|c L IH]; intros w acc Hh Hnd Hsub HndL.
  - exists (w_log w). simpl. by rewrite remaining_nil, upd_id.
  - simpl. unfold bind.
    destruct (body_spec c acc w Hh Hnd) as [l1 ->]; [apply Hsub; left|].
    set (cs1 := if sel c then drop_container (c_id c) (w_containers w)
                else w_containers w).
    apply NoDup_cons in HndL as [Hc HndL].
    destruct (IH (upd l1 cs1 w) (step c acc)) as [l ->].
    + by apply (healthy_static w).
    + unfold ids, cs1; simpl. destruct (sel c); [|done].
      by apply map_filter_NoDup.
    + intros d Hd. simpl. unfold cs1. destruct (sel c); [|apply Hsub; by right].
      apply list_elem_of_In, filter_In. split.
      * apply list_elem_of_In, Hsub. by right.
      * apply negb_true_iff, Z.eqb_neq. intros Heq. apply Hc.
        rewrite <- Heq. apply list_elem_of_fmap. by exists d.
    + done.
    + exists l. rewrite upd_upd. simpl.
      by rewrite <- (remaining_cons sel c L (w_containers w)).
Qed.
End Sweep.

(** *** The three loops on a cooperating runtime *)

Lemma kill_one_healthy force c acc w :
  healthy w → NoDup (ids w) → c ∈ w_containers w →
  ∃ l, kill_one force c acc w
       = (Ok (fst acc ++ [c_id c], snd acc),
          upd l (if true then drop_container (c_id c) (w_containers w)
                 else w_containers w) w).
Proof.
  intros Hh Hnd Hin. unfold kill_one, try_except, bind.
  rewrite (stop_if_running_healthy force) by done.
  rewrite remove_stopped_healthy by done.
  eexists. reflexivity.
Qed.

(** The instance is past its expiry: its label parses, and the sweep's
    clock reading is strictly later. *)
Definition expired (now : datetime) (c : Container) : bool :=
  match c_labels c !! LABEL_EXPIRES_AT with
  | Some (LTime expires_at) => now >? expires_at
  | _ => false
  end.

(** What [expire_one] does to its pair of lists. *)
Definition expire_step (now : datetime) (c : Container)
    (acc : list Z * list string) : list Z * list string :=
  match c_labels c !! LABEL_EXPIRES_AT with
  | Some (LTime expires_at) =>
      if now >? expires_at then (fst acc ++ [c_id c], snd acc) else acc
  | Some (LText s) =>
      if String.eqb s "" then acc
      else (fst acc, snd acc ++ [pretty (c_id c) +:+ ": " +:+ "Invalid isoformat string"])
  | None => acc
  end.

Lemma expire_one_healthy now c acc w :
  healthy w → NoDup (ids w) → c ∈ w_containers w →
  ∃ l, expire_one now c acc w
       = (Ok (expire_step now c acc),
          upd l (if expired now c then drop_container (c_id c) (w_containers w)
                 else w_containers w) w).
Proof.
  intros Hh Hnd Hin. unfold expire_one, expire_step, expired, try_except.
  destruct (c_labels c !! LABEL_EXPIRES_AT) as [[s|t]|]; simpl.
  - exists (w_log w). rewrite upd_id. destruct acc. by destruct (String.eqb s "").
  - unfold bind, ret. simpl. destruct (now >? t).
    + rewrite kill_if_running_then_remove_healthy;
        [eexists; reflexivity | by apply (healthy_static w) | done | done].
    + exists (w_log w). by rewrite upd_id.
  - exists (w_log w). by rewrite upd_id.
Qed.

(** *** The age test in floating point *)

(** The test of the stale sweep on an age of [age] microseconds. *)
Definition age_exceeds (age max_age_minutes : Z) : bool :=
  float_gt_int (float_div_int (total_seconds age) 60) max_age_minutes.

Lemma pow2_pos k : 0 < pow2 k.
Proof. unfold pow2. apply Z.pow_pos_nonneg; lia. Qed.

Lemma pow2_nonneg_r k : 0 ≤ k → pow2 k = 2 ^ k ∧ pow2 (- k) = 1.
Proof.
  intros Hk. unfold pow2. rewrite (Z.max_r 0 k) by lia. rewrite (Z.max_l 0 (- k)) by lia.
  done.
Qed.

Lemma pow2_nonpos_r k : k ≤ 0 → pow2 k = 1 ∧ pow2 (- k) = 2 ^ (- k).
Proof.
  intros Hk. unfold pow2. rewrite (Z.max_l 0 k) by lia. rewrite (Z.max_r 0 (- k)) by lia.
  done.
Qed.

Lemma round_half_even_le n d i : 0 < d → n ≤ i * d → round_half_even n d ≤ i.
Proof.
  intros Hd Hn. unfold round_half_even.
  pose proof (Z.div_mod n d ltac:(lia)) as Hdm.
  pose proof (Z.mod_pos_bound n d Hd) as Hr.
  assert (Hq : n / d ≤ i) by nia.
  destruct (Z.compare_spec (2 * (n mod d)) d) as [He|Hl|Hg]; [|done|].
  - destruct (Z.even (n / d)); [done|]. nia.
  - nia.
Qed.

Lemma round_half_even_ge n d i : 0 < d → i * d ≤ n → i ≤ round_half_even n d.
Proof.
  intros Hd Hn. unfold round_half_even.
  pose proof (Z.div_mod n d ltac:(lia)) as Hdm.
  pose proof (Z.mod_pos_bound n d Hd) as Hr.
  assert (Hq : i ≤ n / d) by nia.
  destruct (Z.compare_spec (2 * (n mod d)) d) as [He|Hl|Hg]; [|done|lia].
  destruct (Z.even (n / d)); lia.
Qed.

Lemma round_half_even_gt n d i :
  0 < d → (2 * i + 1) * d < 2 * n → i < round_half_even n d.
Proof.
  intros Hd Hn. unfold round_half_even.
  pose proof (Z.div_mod n d ltac:(lia)) as Hdm.
  pose proof (Z.mod_pos_bound n d Hd) as Hr.
  assert (Hq : i ≤ n / d) by nia.
  destruct (Z.compare_spec (2 * (n mod d)) d) as [He|Hl|Hg].
  - destruct (Z.even (n / d)); nia.
  - nia.
  - lia.
Qed.

(** The exponent normalises the quotient: [2^52 <= n / (d * 2^e) < 2^53]. *)
Lemma double_exponent_spec n d :
  0 < n → 0 < d →
  let e := double_exponent n d in
  2 ^ 52 * (d * pow2 e) ≤ n * pow2 (- e) ∧ n * pow2 (- e) < 2 ^ 53 * (d * pow2 e).
Proof.
  intros Hn Hd. unfold double_exponent. rewrite (Z.abs_eq n) by lia.
  pose proof (Z.log2_spec n Hn) as [Ha1 Ha2].
  pose proof (Z.log2_spec d Hd) as [Hb1 Hb2].
  pose proof (Z.log2_nonneg n) as Ha0. pose proof (Z.log2_nonneg d) as Hb0.
  set (a := Z.log2 n) in *. set (b := Z.log2 d) in *.
  rewrite Z.pow_succ_r in Ha2, Hb2 by done.
  set (e0 := a - b - 52).
  assert (Hpa : 0 < 2 ^ a) by (apply Z.pow_pos_nonneg; lia).
  assert (Hpb : 0 < 2 ^ b) by (apply Z.pow_pos_nonneg; lia).
  destruct (Z.ltb_spec (n * pow2 (- e0)) (2 ^ 52 * (d * pow2 e0))) as [Hlt|Hge]; cbv zeta.
  - (* the quotient is below 2^52 at e0: one step down *)
    destruct (Z_le_gt_dec e0 0) as [Hneg|Hpos].
    + destruct (pow2_nonpos_r e0 Hneg) as [H1 H2].
      destruct (pow2_nonpos_r (e0 - 1) ltac:(lia)) as [H3 H4].
      rewrite H1, H2 in Hlt. rewrite H3, H4.
      replace (- (e0 - 1)) with (- e0 + 1) by lia.
      rewrite Z.pow_add_r by lia. change (2 ^ 1) with 2.
      assert (Hab : 2 ^ a * 2 ^ (- e0) = 2 ^ b * 2 ^ 52).
      { rewrite <- !Z.pow_add_r by lia. f_equal. unfold e0. lia. }
      assert (Hp : 0 < 2 ^ (- e0)) by (apply Z.pow_pos_nonneg; lia).
      split; nia.
    + destruct (pow2_nonneg_r e0 ltac:(lia)) as [H1 H2].
      destruct (pow2_nonneg_r (e0 - 1) ltac:(lia)) as [H3 H4].
      rewrite H1, H2 in Hlt. rewrite H3, H4.
      assert (He : 2 ^ e0 = 2 * 2 ^ (e0 - 1)).
      { replace e0 with (Z.succ (e0 - 1)) at 1 by lia. apply Z.pow_succ_r. lia. }
      assert (Hab : 2 ^ a = 2 ^ b * 2 ^ 52 * 2 ^ e0).
      { rewrite <- !Z.pow_add_r by lia. f_equal. unfold e0. lia. }
      assert (Hp : 0 < 2 ^ (e0 - 1)) by (apply Z.pow_pos_nonneg; lia).
      split; nia.
  - split; [done|].
    destruct (Z_le_gt_dec e0 0) as [Hneg|Hpos].
    + destruct (pow2_nonpos_r e0 Hneg) as [H1 H2]. rewrite H1, H2.
      assert (Hab : 2 ^ a * 2 ^ (- e0) = 2 ^ b * 2 ^ 52).
      { rewrite <- !Z.pow_add_r by lia. f_equal. unfold e0. lia. }
      assert (Hp : 0 < 2 ^ (- e0)) by (apply Z.pow_pos_nonneg; lia).
      nia.
    + destruct (pow2_nonneg_r e0 ltac:(lia)) as [H1 H2]. rewrite H1, H2.
      assert (Hab : 2 ^ a = 2 ^ b * 2 ^ 52 * 2 ^ e0).
      { rewrite <- !Z.pow_add_r by lia. f_equal. unfold e0. lia. }
      assert (Hp : 0 < 2 ^ e0) by (apply Z.pow_pos_nonneg; lia).
      nia.
Qed.

(** The double nearest to a quotient that is at most an integer below
    [2^53] is at most that integer. *)
Lemma nearest_double_le n d k :
  0 < d → 0 ≤ k < 2 ^ 53 → n ≤ k * d →
  let x := nearest_double n d in
  f_mantissa x * pow2 (f_exponent x) ≤ k * pow2 (- f_exponent x).
Proof.
  intros Hd Hk Hn. unfold nearest_double. destruct (Z.eqb_spec n 0) as [->|Hn0].
  { simpl. unfold pow2. simpl. lia. }
  cbv zeta. cbn [f_mantissa f_exponent].
  set (e := double_exponent n d).
  pose proof (pow2_pos e) as Hpe. pose proof (pow2_pos (- e)) as Hpne.
  destruct (Z_lt_le_dec n 0) as [Hneg|Hpos].
  - assert (Hm : round_half_even (n * pow2 (- e)) (d * pow2 e) ≤ 0).
    { apply round_half_even_le; nia. }
    nia.
  - pose proof (double_exponent_spec n d ltac:(lia) Hd) as [Hlow _]. fold e in Hlow.
    destruct (Z_le_gt_dec e 0) as [He|He].
    + destruct (pow2_nonpos_r e He) as [H1 H2]. rewrite H1, H2 in *.
      rewrite !Z.mul_1_r. apply round_half_even_le; [lia|]. nia.
    + destruct (pow2_nonneg_r e ltac:(lia)) as [H1 H2]. rewrite H1, H2 in *.
      exfalso.
      assert (2 ≤ 2 ^ e).
      { change 2 with (2 ^ 1) at 1. apply Z.pow_le_mono_r; lia. }
      nia.
Qed.

(** No false positive: an age of at most [k] minutes, to the microsecond,
    with [k] at most [max_age], does not exceed [max_age] in floating point
    either. *)
Lemma age_exceeds_false age k max_age :
  0 ≤ k ≤ max_age → 60 * k < 2 ^ 53 → age ≤ minutes k →
  age_exceeds age max_age = false.
Proof.
  intros H0 Hmax Hage. unfold age_exceeds, float_gt_int, float_div_int, total_seconds.
  unfold minutes, MICROS_PER_MINUTE, MICROS_PER_SECOND in *.
  pose proof (nearest_double_le age 1000000 (60 * k) ltac:(lia) ltac:(lia) ltac:(lia))
    as Hts.
  cbv zeta in Hts. set (ts := nearest_double age 1000000) in *.
  pose proof (pow2_pos (- f_exponent ts)) as Hp.
  pose proof (nearest_double_le (f_mantissa ts * pow2 (f_exponent ts))
                (60 * pow2 (- f_exponent ts)) k ltac:(lia) ltac:(lia) ltac:(lia))
    as Hq.
  cbv zeta in Hq. rewrite Z.gtb_ltb. apply Z.ltb_ge.
  match goal with
  | |- _ ≤ _ * pow2 ?x => pose proof (pow2_pos x)
  end.
  nia.
Qed.

Lemma nearest_double_mantissa n d :
  0 < n → 0 < d →
  let x := nearest_double n d in
  0 < f_mantissa x ≤ 2 ^ 53.
Proof.
  intros Hn Hd. unfold nearest_double. destruct (Z.eqb_spec n 0) as [->|_]; [lia|].
  cbv zeta. cbn [f_mantissa].
  pose proof (double_exponent_spec n d Hn Hd) as [Hlow Hup]. cbv zeta in Hlow, Hup.
  set (e := double_exponent n d) in *.
  pose proof (pow2_pos e) as Hpe. split.
  - apply Z.lt_le_trans with (2 ^ 52); [done|]. apply round_half_even_ge; lia.
  - apply round_half_even_le; lia.
Qed.

(** No false negative below 2^33 seconds (272 years): an age of more
    than [max_age] minutes exceeds it in floating point too. *)
Lemma age_exceeds_true age max_age :
  0 ≤ max_age → minutes max_age < age → age < seconds (2 ^ 33) →
  age_exceeds age max_age = true.
Proof.
  intros H0 Hage Hbound. unfold age_exceeds, float_gt_int, float_div_int, total_seconds.
  unfold minutes, seconds, MICROS_PER_MINUTE, MICROS_PER_SECOND in *.
  assert (Hpos : 0 < age) by lia.
  pose proof (nearest_double_mantissa age 1000000 Hpos ltac:(lia)) as Hm1.
  cbv zeta in Hm1.
  assert (Hts : ∃ E1, 20 ≤ E1 ∧ f_exponent (nearest_double age 1000000) = - E1
                 ∧ (60 * max_age) * 2 ^ E1 + 1 ≤ f_mantissa (nearest_double age 1000000)).
  { unfold nearest_double. destruct (Z.eqb_spec age 0) as [->|_]; [lia|].
    cbv zeta. cbn [f_mantissa f_exponent].
    pose proof (double_exponent_spec age 1000000 Hpos ltac:(lia)) as [Hlow _].
    cbv zeta in Hlow. set (e := double_exponent age 1000000) in *.
    assert (He : e ≤ - 20).
    { destruct (Z_le_gt_dec e (- 20)) as [|Hgt]; [done|]. exfalso.
      destruct (Z_le_gt_dec e 0) as [Hneg|Hp].
      - destruct (pow2_nonpos_r e Hneg) as [H1 H2]. rewrite H1, H2 in Hlow.
        assert (2 ^ (- e) ≤ 2 ^ 19) by (apply Z.pow_le_mono_r; lia).
        nia.
      - destruct (pow2_nonneg_r e ltac:(lia)) as [H1 H2]. rewrite H1, H2 in Hlow.
        assert (0 < 2 ^ e) by (apply Z.pow_pos_nonneg; lia). nia. }
    exists (- e). split; [lia|]. split; [lia|].
    destruct (pow2_nonpos_r e ltac:(lia)) as [H1 H2]. rewrite H1, H2.
    apply round_half_even_ge; [lia|].
    assert (2 ^ 20 ≤ 2 ^ (- e)) by (apply Z.pow_le_mono_r; lia).
    nia. }
  destruct Hts as (E1 & HE1 & He1 & Hlow1).
  set (ts := nearest_double age 1000000) in *.
  destruct (pow2_nonpos_r (f_exponent ts) ltac:(lia)) as [H1 H2].
  rewrite H1, H2, He1, Z.opp_involutive, Z.mul_1_r.
  set (m1 := f_mantissa ts) in *.
  assert (Hp1 : 0 < 2 ^ E1) by (apply Z.pow_pos_nonneg; lia).
  unfold nearest_double. destruct (Z.eqb_spec m1 0) as [Hz|_]; [lia|].
  cbv zeta. cbn [f_mantissa f_exponent].
  pose proof (double_exponent_spec m1 (60 * 2 ^ E1) ltac:(lia) ltac:(lia)) as [Hlow2 _].
  cbv zeta in Hlow2. set (e2 := double_exponent m1 (60 * 2 ^ E1)) in *.
  assert (He2 : e2 ≤ - (E1 + 5)).
  { destruct (Z_le_gt_dec e2 (- (E1 + 5))) as [|Hgt]; [done|]. exfalso.
    destruct (Z_le_gt_dec e2 0) as [Hneg|Hp].
    - destruct (pow2_nonpos_r e2 Hneg) as [H3 H4]. rewrite H3, H4 in Hlow2.
      assert (2 ^ (- e2) ≤ 2 ^ (E1 + 4)) by (apply Z.pow_le_mono_r; lia).
      rewrite Z.pow_add_r in H by lia. nia.
    - destruct (pow2_nonneg_r e2 ltac:(lia)) as [H3 H4]. rewrite H3, H4 in Hlow2.
      assert (0 < 2 ^ e2) by (apply Z.pow_pos_nonneg; lia). nia. }
  destruct (pow2_nonpos_r e2 ltac:(lia)) as [H3 H4]. rewrite H3, H4.
  rewrite !Z.mul_1_r. apply Z.gtb_lt. apply round_half_even_gt; [lia|].
  assert (Hp2 : 2 ^ (E1 + 5) ≤ 2 ^ (- e2)) by (apply Z.pow_le_mono_r; lia).
  rewrite Z.pow_add_r in Hp2 by lia. nia.
Qed.

(** Below 2^33 seconds the comparison in floating point is the exact
    one. *)
Lemma age_exceeds_exact age max_age :
  0 ≤ max_age → age < seconds (2 ^ 33) →
  age_exceeds age max_age = (age >? minutes max_age).
Proof.
  intros H0 Hbound.
  assert (Hm : minutes max_age = max_age * 60000000)
    by (unfold minutes, MICROS_PER_MINUTE, MICROS_PER_SECOND; lia).
  assert (Hs : seconds (2 ^ 33) = 2 ^ 33 * 1000000) by reflexivity.
  destruct (Z_le_gt_dec age (minutes max_age)) as [Hle|Hgt].
  - rewrite (age_exceeds_false age (Z.min max_age (2 ^ 33)) max_age); [|lia|lia|].
    + symmetry. rewrite Z.gtb_ltb. by apply Z.ltb_ge.
    + unfold minutes, MICROS_PER_MINUTE, MICROS_PER_SECOND in *. lia.
  - rewrite age_exceeds_true; [symmetry; apply Z.gtb_lt; lia | done | lia | done].
Qed.

(** The instance is older than the ceiling, by the sweep's own test. *)
Definition stale (now : datetime) (max_age_minutes : Z) (c : Container) : bool :=
  match c_labels c !! LABEL_CREATED_AT with
  | Some (LTime created_at) => age_exceeds (now - created_at) max_age_minutes
  | _ => false
  end.

Lemma stale_one_healthy now max_age c cleaned w :
  healthy w → NoDup (ids w) → c ∈ w_containers w →
  ∃ l, stale_one now max_age c cleaned w
       = (Ok (if stale now max_age c then cleaned ++ [c_id c] else cleaned),
          upd l (if stale now max_age c
                 then drop_container (c_id c) (w_containers w)
                 else w_containers w) w).
Proof.
  intros Hh Hnd Hin. unfold stale_one, stale, age_exceeds, try_except.
  destruct (c_labels c !! LABEL_CREATED_AT) as [[s|t]|]; simpl.
  - destruct (String.eqb s ""); simpl.
    + exists (w_log w). by rewrite upd_id.
    + unfold bind, raise. rewrite log_run. eexists. reflexivity.
  - unfold bind, ret. simpl. destruct (float_gt_int _ max_age).
    + rewrite kill_if_running_then_remove_healthy;
        [eexists; reflexivity | by apply (healthy_static w) | done | done].
    + exists (w_log w). by rewrite upd_id.
  - exists (w_log w). by rewrite upd_id.
Qed.

(** ** Running a method step by step *)

Lemma bind_ok {A B} (m : M A) (k : A → M B) w a w1 :
  m w = (Ok a, w1) → bind m k w = k a w1.
Proof. unfold bind. by intros ->. Qed.

Lemma bind_raise {A B} (m : M A) (k : A → M B) w e w1 :
  m w = (Raise e, w1) → bind m k w = (Raise e, w1).
Proof. unfold bind. by intros ->. Qed.

Lemma try_ok {A} (m : M A) h w a w1 :
  m w = (Ok a, w1) → try_except m h w = (Ok a, w1).
Proof. unfold try_except. by intros ->. Qed.

Lemma try_raise {A} (m : M A) h w e w1 :
  m w = (Raise e, w1) → try_except m h w = h e w1.
Proof. unfold try_except. by intros ->. Qed.

Lemma require_reachable_ok w : w_reachable w = true → require_reachable w = (Ok tt, w).
Proof. unfold require_reachable. by intros ->. Qed.

Lemma containers_list_ok all flt w :
  w_reachable w = true →
  containers_list all flt w = (Ok (List.filter (matches all flt) (w_containers w)), w).
Proof.
  intros Hr. unfold containers_list.
  by rewrite (bind_ok _ _ _ _ _ (require_reachable_ok w Hr)).
Qed.

(** ** Frames: what a method leaves alone

    [respects R m]: whatever [m] returns or raises, the world after is
    related by [R] to the world before.  With [R] the equality of an
    observation this says what [m] leaves alone; with [R] the
    preservation of an invariant, that [m] keeps it. *)

Definition respects {A} (R : World → World → Prop) (m : M A) : Prop :=
  ∀ w r w', m w = (r, w') → R w w'.

(** The observation [f] is the same after as before. *)
Definition eq_on {T} (f : World → T) (w w' : World) : Prop := f w' = f w.

Create HintDb keeps.

Section Respects.
Variable R : World → World → Prop.
Hypothesis R_refl : ∀ w, R w w.
Hypothesis R_trans : ∀ w1 w2 w3, R w1 w2 → R w2 w3 → R w1 w3.

Lemma keeps_ret {A} (a : A) : respects R (ret a).
Proof. intros w r w' H. injection H as _ <-. apply R_refl. Qed.

Lemma keeps_raise {A} e : respects R (@raise A e).
Proof. intros w r w' H. injection H as _ <-. apply R_refl. Qed.

Lemma keeps_get_world : respects R get_world.
Proof. intros w r w' H. injection H as _ <-. apply R_refl. Qed.

Lemma keeps_bind {A B} (m : M A) (k : A → M B) :
  respects R m → (∀ a, respects R (k a)) → respects R (bind m k).
Proof.
  intros Hm Hk w r w' H. unfold bind in H.
  destruct (m w) as [[a|e] w1] eqn:E.
  - apply (R_trans _ w1); [by eapply Hm | by eapply Hk].
  - injection H as _ <-. by eapply Hm.
Qed.

Lemma keeps_try_except {A} (m : M A) h :
  respects R m → (∀ e, respects R (h e)) → respects R (try_except m h).
Proof.
  intros Hm Hh w r w' H. unfold try_except in H.
  destruct (m w) as [[a|e] w1] eqn:E.
  - injection H as _ <-. by eapply Hm.
  - apply (R_trans _ w1); [by eapply Hm | by eapply Hh].
Qed.

Lemma keeps_for_each {A S} (xs : list A) (body : A → S → M S) acc :
  (∀ x a, respects R (body x a)) → respects R (for_each xs body acc).
Proof.
  intros Hb. revert acc. induction xs as [|x xs IH]; intros acc; simpl.
  - apply keeps_ret.
  - apply keeps_bind; [apply Hb | intros a; apply IH].
Qed.

Lemma keeps_modify g : (∀ w, R w (g w)) → respects R (modify g).
Proof. intros Hg w r w' H. injection H as _ <-. apply Hg. Qed.

(** Methods that only read. *)
Lemma keeps_reader {A} (m : M A) : (∀ w, snd (m w) = w) → respects R m.
Proof.
  intros Hm w r w' H. specialize (Hm w). rewrite H in Hm. simpl in Hm. subst.
  apply R_refl.
Qed.

Hypothesis R_log : ∀ l w, R w (set_log l w).
Hypothesis R_now : ∀ t w, R w (set_now t w).
Hypothesis R_random : ∀ r w, R w (set_random r w).
Hypothesis R_available : ∀ b w, R w (set_docker_available b w).
(** The three ways the runtime's containers change. *)
Hypothesis R_exited : ∀ cid w,
  R w (set_containers (mark_exited cid (w_containers w)) w).
Hypothesis R_dropped : ∀ cid w,
  R w (set_containers (drop_container cid (w_containers w)) w).
Hypothesis R_created : ∀ c w,
  c_id c = w_next_id w →
  R w (set_next_id (w_next_id w + 1) (set_containers (c :: w_containers w) w)).

Ltac keeps_go :=
  repeat first
    [ assumption
    | solve [eauto 2 with keeps]
    | apply keeps_ret | apply keeps_raise | apply keeps_get_world
    | apply keeps_bind; [|intros ?]
    | apply keeps_try_except; [|intros ?]
    | apply keeps_for_each; intros ? ?
    | apply keeps_modify; intros ?; cbv beta;
      first [ apply R_log | apply R_now | apply R_random | apply R_available
            | apply R_exited | apply R_dropped ]
    | match goal with
      | |- respects _ (if ?b then _ else _) => destruct b
      | |- respects _ (match ?x with _ => _ end) => destruct x
      end
    ].

Lemma keeps_log r : respects R (log r).
Proof. unfold log. keeps_go. Qed.

Lemma keeps_utcnow : respects R utcnow.
Proof. by apply keeps_reader. Qed.

Lemma keeps_sleep s : respects R (sleep s).
Proof. unfold sleep. keeps_go. Qed.

Lemma keeps_time_time_int : respects R time_time_int.
Proof. by apply keeps_reader. Qed.

Lemma keeps_timedelta_minutes n : respects R (timedelta_minutes n).
Proof. unfold timedelta_minutes. keeps_go. Qed.

Lemma keeps_datetime_add t d : respects R (datetime_add t d).
Proof. unfold datetime_add. keeps_go. Qed.

Lemma keeps_fromisoformat s : respects R (fromisoformat s).
Proof. unfold fromisoformat. keeps_go. Qed.

Lemma keeps_raw_draw : respects R raw_draw.
Proof.
  intros w r w' H. unfold raw_draw in H.
  destruct (w_random w); injection H as _ <-; [apply R_refl | apply R_random].
Qed.

Lemma keeps_require_reachable : respects R require_reachable.
Proof. apply keeps_reader. intros w. unfold require_reachable. by destruct (w_reachable w). Qed.

Hint Resolve keeps_log keeps_utcnow keeps_sleep keeps_time_time_int
  keeps_timedelta_minutes keeps_datetime_add keeps_fromisoformat
  keeps_raw_draw keeps_require_reachable : keeps.

Lemma keeps_randint a b : respects R (randint a b).
Proof. unfold randint. keeps_go. Qed.

Lemma keeps_token_hex n : respects R (token_hex n).
Proof. unfold token_hex. keeps_go. Qed.

Lemma keeps_containers_list all flt : respects R (containers_list all flt).
Proof. unfold containers_list. keeps_go. Qed.

Lemma keeps_containers_get cid : respects R (containers_get cid).
Proof. unfold containers_get. keeps_go. Qed.

Lemma keeps_container_reload c : respects R (container_reload c).
Proof. apply keeps_containers_get. Qed.

Lemma keeps_container_kill c : respects R (container_kill c).
Proof. unfold container_kill. keeps_go. Qed.

Lemma keeps_container_stop c : respects R (container_stop c).
Proof. unfold container_stop. keeps_go. Qed.

Lemma keeps_container_remove c : respects R (container_remove c).
Proof. unfold container_remove. keeps_go. Qed.

Lemma keeps_containers_run image name ports labels :
  respects R (containers_run image name ports labels).
Proof.
  intros w r w' H. unfold containers_run, bind at 1, require_reachable in H.
  destruct (w_reachable w); [|injection H as _ <-; apply R_refl].
  unfold bind at 1, get_world in H.
  destruct (w_images w !! image); [|injection H as _ <-; apply R_refl].
  destruct (name_in_use w name); [injection H as _ <-; apply R_refl|].
  destruct (port_in_use w ports.2); injection H as _ <-; by apply R_created.
Qed.

Lemma keeps__try_connect_docker : respects R _try_connect_docker.
Proof. unfold _try_connect_docker. keeps_go. Qed.

Lemma keeps__is_port_available p : respects R (_is_port_available p).
Proof. unfold _is_port_available. keeps_go. Qed.

Lemma keeps__get_host_ip : respects R _get_host_ip.
Proof. unfold _get_host_ip. keeps_go. Qed.

Hint Resolve keeps_randint keeps_token_hex keeps_containers_list
  keeps_containers_get keeps_container_reload keeps_container_kill
  keeps_container_stop keeps_container_remove keeps_containers_run
  keeps__try_connect_docker keeps__is_port_available keeps__get_host_ip : keeps.

Lemma keeps_random_probe n : respects R (random_probe n).
Proof. induction n; simpl; keeps_go. Qed.

Lemma keeps_sequential_scan ports : respects R (sequential_scan ports).
Proof. induction ports; simpl; keeps_go. Qed.

Hint Resolve keeps_random_probe keeps_sequential_scan : keeps.

Lemma keeps__find_free_port : respects R _find_free_port.
Proof. unfold _find_free_port. keeps_go. Qed.

Lemma keeps_kill_one force c acc : respects R (kill_one force c acc).
Proof. unfold kill_one. keeps_go. Qed.

Hint Resolve keeps__find_free_port keeps_kill_one : keeps.

Lemma keeps_kill_user_containers user_id force :
  respects R (kill_user_containers user_id force).
Proof. unfold kill_user_containers. keeps_go. Qed.

Lemma keeps_get_user_active_lab user_id : respects R (get_user_active_lab user_id).
Proof. unfold get_user_active_lab. keeps_go. Qed.

Lemma keeps_kill_if_running_then_remove c : respects R (kill_if_running_then_remove c).
Proof. unfold kill_if_running_then_remove. keeps_go. Qed.

Hint Resolve keeps_kill_user_containers keeps_get_user_active_lab
  keeps_kill_if_running_then_remove : keeps.

Lemma keeps_expire_one now c acc : respects R (expire_one now c acc).
Proof. unfold expire_one. keeps_go. Qed.

Lemma keeps_stale_one now m c acc : respects R (stale_one now m c acc).
Proof. unfold stale_one. keeps_go. Qed.

Hint Resolve keeps_expire_one keeps_stale_one : keeps.

Lemma keeps_cleanup_expired_containers : respects R cleanup_expired_containers.
Proof. unfold cleanup_expired_containers. keeps_go. Qed.

Lemma keeps_cleanup_stale_containers m : respects R (cleanup_stale_containers m).
Proof. unfold cleanup_stale_containers. keeps_go. Qed.

Hint Resolve keeps_cleanup_expired_containers keeps_cleanup_stale_containers : keeps.

Lemma keeps_run_cleanup_once : respects R run_cleanup_once.
Proof. unfold run_cleanup_once. keeps_go. Qed.

Hint Resolve keeps_run_cleanup_once : keeps.

Lemma keeps_run_cleanup n : respects R (run_cleanup n).
Proof. induction n; simpl; keeps_go. Qed.

Lemma keeps__simulate_spawn user_id image_name lab_id :
  respects R (_simulate_spawn user_id image_name lab_id).
Proof. unfold _simulate_spawn. keeps_go. Qed.

Lemma keeps_spawn_launch user_id image_name lab_id cport timeout :
  respects R (spawn_launch user_id image_name lab_id cport timeout).
Proof. unfold spawn_launch. keeps_go. Qed.

Lemma keeps_spawn_settle user_id image_name lab_id cport timeout la :
  respects R (spawn_settle user_id image_name lab_id cport timeout la).
Proof. unfold spawn_settle. keeps_go. Qed.

Hint Resolve keeps_spawn_launch keeps_spawn_settle : keeps.

Lemma keeps_spawn_try user_id image_name lab_id cport timeout :
  respects R (spawn_try user_id image_name lab_id cport timeout).
Proof. unfold spawn_try. keeps_go. Qed.

Lemma keeps_spawn_enter user_id image_name : respects R (spawn_enter user_id image_name).
Proof. unfold spawn_enter. keeps_go. Qed.

Lemma keeps_spawn_handle_other e : respects R (spawn_handle_other e).
Proof. unfold spawn_handle_other. keeps_go. Qed.

Lemma keeps_extend_lab_timeout user_id extra :
  respects R (extend_lab_timeout user_id extra).
Proof. unfold extend_lab_timeout. keeps_go. Qed.

Lemma keeps_spawn_lab_container fuel : ∀ user_id image_name lab_id cport timeout w r w',
  spawn_lab_container fuel user_id image_name lab_id cport timeout w = Some (r, w') →
  R w w'.
Proof.
  induction fuel as [|fuel IH]; intros user_id image_name lab_id cport timeout w r w' H;
    simpl in H; [done|].
  destruct (spawn_enter user_id image_name w) as [[[]|e] w1] eqn:He;
    apply keeps_spawn_enter in He; apply (R_trans _ _ _ He); clear He.
  - destruct (spawn_try user_id image_name lab_id cport timeout w1)
      as [[res|e] w2] eqn:Ht; apply keeps_spawn_try in Ht;
      apply (R_trans _ _ _ Ht); clear Ht.
    + injection H as _ <-. apply R_refl.
    + assert (Hother : Some (spawn_handle_other e w2) = Some (r, w') → R w2 w').
      { intros Hs. injection Hs as Hs. by apply keeps_spawn_handle_other in Hs. }
      destruct e; try by apply Hother.
      simpl in H. destruct (String.eqb image_name FALLBACK_IMAGE).
      * injection H as _ <-. apply R_log.
      * apply (R_trans _ _ _ (R_log (LogFallback image_name :: w_log w2) w2)).
        destruct (spawn_lab_container fuel user_id FALLBACK_IMAGE lab_id cport timeout _)
          as [[[res|e] w3]|] eqn:Hr; [| |done]; apply IH in Hr;
          apply (R_trans _ _ _ Hr); injection H as _ <-; [apply R_refl | apply R_log].
  - simpl in H. injection H as H. apply keeps__simulate_spawn in H.
    apply (R_trans _ _ _ (R_log (LogSimulation :: w_log w1) w1)). exact H.
  - injection H as _ <-. apply R_refl.
Qed.
End Respects.

(** Side conditions of the frame lemmas for an observation. *)
Ltac frame_side :=
  solve [ intros; reflexivity | intros; unfold eq_on in *; congruence ].

(** [frame lem in E as Hf]: from the run [E : m w = (r, w')] and the frame
    lemma [lem] of [m], get [Hf : R w w']. *)
Tactic Notation "frame" constr(lem) "in" hyp(E) "as" ident(Hf) :=
  pose proof E as Hf; eapply lem in Hf; [ | frame_side .. ].

(** Every field but the log and the containers; every field but the
    random source; every field but the log. *)
Definition sans_log_containers (w : World) : World := upd [] [] w.
Definition sans_random (w : World) : World := set_random [] w.
Definition sans_log (w : World) : World := set_log [] w.

Lemma try_except_returns {A} (m : M A) h w :
  (∀ e w1, ∃ a w2, h e w1 = (Ok a, w2)) → ∃ a w', try_except m h w = (Ok a, w').
Proof.
  intros Hh. unfold try_except. destruct (m w) as [[a|e] w1]; [by eauto | apply Hh].
Qed.

(** [kill_user_containers] never raises. *)
Lemma kill_user_containers_returns user_id force w :
  ∃ kr w', kill_user_containers user_id force w = (Ok kr, w').
Proof.
  unfold kill_user_containers, bind at 1. rewrite log_run.
  unfold bind at 1, get_world. cbv beta iota.
  destruct (negb _); [by eauto|].
  apply try_except_returns. intros e w1. unfold bind. rewrite log_run. by eauto.
Qed.

Lemma matches_user_filter user_id c :
  matches true (user_filter user_id None) c = tagged user_id c.
Proof.
  unfold matches, tagged, user_filter; simpl.
  destruct (c_labels c !! LABEL_USER_ID) as [v|]; simpl.
  - rewrite andb_true_r. apply bool_decide_ext. split; congruence.
  - done.
Qed.

Lemma fold_left_kill_step (L : list Container) killed (errors : list string) :
  fold_left (fun a c => (fst a ++ [c_id c], snd a)) L (killed, errors)
  = (killed ++ map c_id L, errors).
Proof.
  revert killed. induction L as [|c L IH]; intros killed; simpl.
  - by rewrite app_nil_r.
  - by rewrite IH, <- app_assoc.
Qed.

(** On a cooperating runtime, Kill removes every container that carries
    the owner's label, and only those. *)
Lemma kill_user_containers_healthy user_id force w :
  w_docker_available w = true → healthy w → NoDup (ids w) →
  ∃ kr l, kill_user_containers user_id force w
          = (Ok kr, upd l (List.filter (fun c => negb (tagged user_id c)) (w_containers w)) w)
          ∧ kr_success kr = true
          ∧ kr_containers kr = map c_id (List.filter (tagged user_id) (w_containers w)).
Proof.
  intros Hav Hh Hnd.
  set (w0 := set_log (LogKilling user_id :: w_log w) w).
  destruct (for_each_sweep (kill_one force) (fun _ => true)
              (fun c a => (fst a ++ [c_id c], snd a))
              (kill_one_healthy force)
              (List.filter (matches true (user_filter user_id None)) (w_containers w))
              w0 ([], [])) as [l Hl].
  { done. }
  { done. }
  { intros c Hc. apply list_elem_of_In in Hc. apply filter_In in Hc as [Hc _].
    by apply list_elem_of_In. }
  { by apply map_filter_NoDup. }
  rewrite fold_left_kill_step in Hl.
  unfold kill_user_containers.
  rewrite (bind_ok _ _ _ _ _ (log_run _ w)). fold w0.
  unfold bind at 1, get_world.
  change (w_docker_available w0) with (w_docker_available w). rewrite Hav.
  cbn [negb].
  erewrite try_ok.
  2:{ erewrite bind_ok by (apply containers_list_ok, Hh).
      change (w_containers w0) with (w_containers w).
      erewrite bind_ok by exact Hl. cbv beta iota.
      erewrite bind_ok by apply log_run. reflexivity. }
  change (w_containers w0) with (w_containers w).
  assert (Hrem :
    remaining (fun _ => true)
      (List.filter (matches true (user_filter user_id None)) (w_containers w))
      (w_containers w)
    = List.filter (fun c => negb (tagged user_id c)) (w_containers w)).
  { rewrite remaining_filter by done. apply filter_ext. intros c.
    by rewrite matches_user_filter, andb_true_r. }
  rewrite Hrem.
  eexists _, _. split; [|split].
  - reflexivity.
  - done.
  - simpl. f_equal. apply filter_ext. intros c. apply matches_user_filter.
Qed.

(** *** Spawn, step by step *)

Lemma raw_draw_run w : ∃ x r, raw_draw w = (Ok x, set_random r w).
Proof.
  unfold raw_draw. destruct w as [? ? ? ? ? ? ? ? ? ? ? ? ? [|x r]]; simpl; by eauto.
Qed.

Lemma token_hex_run n w : ∃ s r, token_hex n w = (Ok s, set_random r w).
Proof.
  unfold token_hex. destruct (raw_draw_run w) as (x & r & Hx).
  rewrite (bind_ok _ _ _ _ _ Hx). by eauto.
Qed.

Lemma randint_run a b w :
  ∃ x r, randint a b w = (Ok (a + x mod (b - a + 1)), set_random r w).
Proof.
  unfold randint. destruct (raw_draw_run w) as (x & r & Hx).
  rewrite (bind_ok _ _ _ _ _ Hx). by eauto.
Qed.

Lemma timedelta_minutes_inv n w r w' :
  timedelta_minutes n w = (r, w') →
  w' = w ∧ match r with
           | Ok d => d = minutes n
           | Raise e => ∃ m, e = OverflowError m
           end.
Proof.
  unfold timedelta_minutes. destruct (timedelta_in_range (minutes n));
    intros H; injection H as <- <-; by eauto.
Qed.

Lemma datetime_add_inv t d w r w' :
  datetime_add t d w = (r, w') →
  w' = w ∧ match r with
           | Ok t' => t' = t + d ∧ datetime_in_range (t + d) = true
           | Raise e => ∃ m, e = OverflowError m
           end.
Proof.
  unfold datetime_add. destruct (datetime_in_range (t + d)) eqn:E;
    intros H; injection H as <- <-; by eauto.
Qed.

(** The container [containers.run] is asked to create. *)
Definition new_container (w : World) (user_id : Z) (image_name : string)
    (lab_id : option Z) (container_port timeout_minutes : Z)
    (name : string) (host_port : Z) : Container :=
  {| c_id := w_next_id w; c_name := name; c_image := image_name;
     c_labels := spawn_labels user_id lab_id (w_now w)
                   (w_now w + minutes timeout_minutes);
     c_status := "created"; c_ports := Some (container_port, host_port) |}.

Lemma containers_run_inv image name ports labels w r w' :
  containers_run image name ports labels w = (r, w') →
  match r with
  | Ok c =>
      ∃ settled, w_images w !! image = Some settled
        ∧ w_reachable w = true
        ∧ name_in_use w name = false
        ∧ port_in_use w (snd ports) = false
        ∧ c = {| c_id := w_next_id w; c_name := name; c_image := image;
                 c_labels := labels; c_status := "created"; c_ports := Some ports |}
        ∧ w' = set_next_id (w_next_id w + 1)
                 (set_containers (with_status settled c :: w_containers w) w)
  | Raise (ImageNotFound _) => w' = w ∧ w_images w !! image = None
  | Raise _ => True
  end.
Proof.
  unfold containers_run, bind at 1, require_reachable.
  destruct (w_reachable w); [|by intros H; injection H as <- <-].
  unfold bind at 1, get_world.
  destruct (w_images w !! image) as [settled|]; [|by intros H; injection H as <- <-].
  destruct (name_in_use w name) eqn:Hname; [by intros H; injection H as <- <-|].
  destruct (port_in_use w ports.2) eqn:Hport; intros H; injection H as <- <-; [done|].
  by exists settled.
Qed.

(** Take one step of a run recorded in hypothesis [H]. *)
Ltac step H :=
  match type of H with
  | bind ?m ?k ?w = _ =>
      let E := fresh "E" in
      destruct (m w) as [[?|?] ?] eqn:E;
      [ rewrite (bind_ok _ _ _ _ _ E) in H
      | rewrite (bind_raise _ _ _ _ _ E) in H;
        first [discriminate H | injection H as <- <- | idtac] ]
  end.

Ltac step_as H a w' :=
  match type of H with
  | bind ?m ?k ?w = _ =>
      let E := fresh "E" in
      destruct (m w) as [[a|a] w'] eqn:E;
      [ rewrite (bind_ok _ _ _ _ _ E) in H
      | rewrite (bind_raise _ _ _ _ _ E) in H;
        first [discriminate H | injection H as <- <- | idtac] ]
  end.

(** How steps 1 to 5 can end.  When they return, the image is known to
    the runtime and the new container sits in front of what Kill left;
    when the image is missing, nothing was created. *)
Lemma spawn_launch_inv user_id image_name lab_id cport timeout w r w1 :
  spawn_launch user_id image_name lab_id cport timeout w = (r, w1) →
  ∃ kr wk, kill_user_containers user_id true w = (Ok kr, wk) ∧
    match r with
    | Ok la =>
        ∃ settled, w_images w !! image_name = Some settled
          ∧ w_reachable w = true
          ∧ la_container la
            = new_container w user_id image_name lab_id cport timeout
                (la_container_name la) (la_host_port la)
          ∧ w_containers w1 = with_status settled (la_container la) :: w_containers wk
          ∧ w_next_id w1 = w_next_id w + 1
    | Raise (ImageNotFound _) =>
        w_containers w1 = w_containers wk ∧ w_next_id w1 = w_next_id w
    | Raise _ => True
    end.
Proof.
  intros H.
  destruct (kill_user_containers_returns user_id true w) as (kr & wk & Hk).
  exists kr, wk. split; [done|].
  unfold spawn_launch in H. rewrite (bind_ok _ _ _ _ _ Hk) in H.
  frame (keeps_kill_user_containers (eq_on sans_log_containers)) in Hk as Hfk.
  assert (Hid : w_next_id wk = w_next_id w) by exact (f_equal w_next_id Hfk).
  assert (Hnow : w_now wk = w_now w) by exact (f_equal w_now Hfk).
  assert (Himg : w_images wk = w_images w) by exact (f_equal w_images Hfk).
  assert (Hre : w_reachable wk = w_reachable w) by exact (f_equal w_reachable Hfk).
  clear Hk Hfk.
  step H; frame (keeps__find_free_port (eq_on sans_random)) in E as Hfp.
  2:{ destruct e; try done. split.
      - exact (f_equal w_containers Hfp).
      - rewrite <- Hid. exact (f_equal w_next_id Hfp). }
  rename w0 into wp.
  assert (Hcs : w_containers wp = w_containers wk) by exact (f_equal w_containers Hfp).
  assert (Hid' : w_next_id wp = w_next_id w)
    by (rewrite <- Hid; exact (f_equal w_next_id Hfp)).
  assert (Hnow' : w_now wp = w_now w)
    by (rewrite <- Hnow; exact (f_equal w_now Hfp)).
  assert (Himg' : w_images wp = w_images w)
    by (rewrite <- Himg; exact (f_equal w_images Hfp)).
  assert (Hre' : w_reachable wp = w_reachable w)
    by (rewrite <- Hre; exact (f_equal w_reachable Hfp)).
  clear E Hfp Hid Hnow Himg Hre.
  rewrite (bind_ok _ _ _ _ _ (log_run _ _)) in H.
  unfold bind at 1, utcnow at 1 in H. unfold bind at 1, utcnow at 1 in H.
  simpl w_now in H.
  step H; apply timedelta_minutes_inv in E as [-> E]; [subst | by destruct E as [m ->]].
  step H; apply datetime_add_inv in E as [-> E]; [destruct E as [-> _] | by destruct E as [m ->]].
  match type of H with
  | bind (token_hex 4) _ ?w0 = _ =>
      destruct (token_hex_run 4 w0) as (sfx & rnd & Ht);
      rewrite (bind_ok _ _ _ _ _ Ht) in H; clear Ht
  end.
  step H; apply containers_run_inv in E.
  2:{ destruct e; try done. destruct E as [-> _]. simpl. by rewrite Hcs, Hid'. }
  destruct E as (settled & Hi & Hr & _ & _ & -> & ->).
  rewrite (bind_ok _ _ _ _ _ (log_run _ _)) in H. injection H as <- <-.
  simpl in Hi, Hr. rewrite Himg' in Hi. rewrite Hre' in Hr.
  exists settled. unfold new_container. simpl. by rewrite Hid', Hnow', Hcs.
Qed.

Lemma containers_get_inv cid w r w' :
  containers_get cid w = (r, w') →
  w' = w ∧ match r with
           | Ok c => find_container cid w = Some c ∧ w_reachable w = true
           | Raise e => ∃ m, e = ConnectionError m ∨ e = NotFound m
           end.
Proof.
  unfold containers_get, bind at 1, require_reachable.
  destruct (w_reachable w); [|intros H; injection H as <- <-; by eauto].
  unfold bind at 1, get_world.
  destruct (find_container cid w); intros H; injection H as <- <-; by eauto.
Qed.

Lemma containers_get_ok cid w c :
  w_reachable w = true → find_container cid w = Some c →
  containers_get cid w = (Ok c, w).
Proof.
  intros Hr Hf. unfold containers_get.
  rewrite (bind_ok _ _ _ _ _ (require_reachable_ok _ Hr)).
  unfold bind, get_world. by rewrite Hf.
Qed.

(** How steps 6 and 7 can end: they never touch the containers, they
    cost the settle delay, and they raise [RuntimeError] exactly on a
    container that is not running. *)
Lemma spawn_settle_inv user_id image_name lab_id cport timeout la w r w' :
  spawn_settle user_id image_name lab_id cport timeout la w = (r, w') →
  w_containers w' = w_containers w ∧ w_next_id w' = w_next_id w
  ∧ w_now w' = w_now w + seconds 2
  ∧ match r with
    | Ok res =>
        ∃ c info, find_container (c_id (la_container la)) w = Some c
          ∧ is_running c = true
          ∧ res = SpawnSuccess info
          ∧ si_simulated info = false
          ∧ si_container_id info = RealId (c_id c)
          ∧ si_port info = la_host_port la
          ∧ si_expires_at info = w_now w + seconds 2 + minutes timeout
    | Raise (RuntimeError m) =>
        ∃ c, find_container (c_id (la_container la)) w = Some c
          ∧ is_running c = false
          ∧ m = "Container failed to start: " +:+ c_status c
    | Raise (ImageNotFound _) => False
    | Raise _ => True
    end.
Proof.
  intros H. unfold spawn_settle in H.
  unfold bind at 1, _get_host_ip, bind at 1, get_world, ret at 1 in H.
  unfold bind at 1, sleep, modify in H.
  set (w1 := set_now (w_now w + seconds 2) w) in H.
  step_as H c w2; apply containers_get_inv in E as [-> E].
  2:{ by destruct E as [m [-> | ->]]. }
  destruct E as [Hfind _]. change (find_container (c_id (la_container la)) w = Some c) in Hfind.
  destruct (is_running c) eqn:Hrun; cbn [negb] in H.
  2:{ injection H as <- <-. repeat split; try done. by exists c. }
  unfold bind at 1, utcnow at 1 in H.
  step H; apply timedelta_minutes_inv in E as [-> E]; [subst | by destruct E as [m ->]].
  step H; apply datetime_add_inv in E as [-> E]; [destruct E as [-> _] | by destruct E as [m ->]].
  unfold bind at 1, utcnow at 1 in H.
  rewrite (bind_ok _ _ _ _ _ (log_run _ _)) in H. injection H as <- <-.
  repeat split; try done. eexists c, _. repeat split; done.
Qed.

(** The running-state check on a container that does not run. *)
Lemma spawn_settle_not_running user_id image_name lab_id cport timeout la w c :
  w_reachable w = true →
  find_container (c_id (la_container la)) w = Some c →
  is_running c = false →
  spawn_settle user_id image_name lab_id cport timeout la w
  = (Raise (RuntimeError ("Container failed to start: " +:+ c_status c)),
     set_now (w_now w + seconds 2) w).
Proof.
  intros Hr Hf Hrun. unfold spawn_settle.
  unfold bind at 1, _get_host_ip, bind at 1, get_world, ret at 1.
  unfold bind at 1, sleep, modify.
  set (w1 := set_now (w_now w + seconds 2) w).
  rewrite (bind_ok _ _ _ _ _ (containers_get_ok _ w1 c Hr Hf)).
  by rewrite Hrun.
Qed.

Lemma spawn_handle_other_fails e w :
  ∃ code err msg w', spawn_handle_other e w = (Ok (SpawnFailure code err msg), w').
Proof.
  unfold spawn_handle_other.
  destruct (is_api_error e); [|destruct e];
    rewrite (bind_ok _ _ _ _ _ (log_run _ _)); by eauto 10.
Qed.

Lemma set_docker_available_id w :
  w_docker_available w = true → set_docker_available true w = w.
Proof. destruct w; simpl. by intros ->. Qed.

(** With a runtime that answers, Spawn always gets to the [try:] block. *)
Lemma spawn_enter_reachable user_id image_name w :
  w_reachable w = true →
  ∃ l, spawn_enter user_id image_name w
       = (Ok true, set_log l (set_docker_available true w)).
Proof.
  intros Hr. unfold spawn_enter. rewrite (bind_ok _ _ _ _ _ (log_run _ _)).
  unfold bind at 1, get_world.
  set (w0 := set_log _ w).
  change (w_docker_available w0) with (w_docker_available w).
  destruct (w_docker_available w) eqn:Hav; cbn [negb].
  - rewrite (set_docker_available_id w Hav). by eauto.
  - unfold _try_connect_docker, bind at 1, get_world, ping_ok.
    change (w_reachable w0) with (w_reachable w).
    rewrite Hr. unfold bind at 1, modify. rewrite (bind_ok _ _ _ _ _ (log_run _ _)).
    unfold ret. eexists. reflexivity.
Qed.

(** What a Spawn that succeeded on a real runtime has done to the world
    [w] it started in. *)
Definition spawned (user_id : Z) (lab_id : option Z) (timeout_minutes : Z)
    (w : World) (info : SpawnInfo) (w' : World) : Prop :=
  ∃ c, w_containers w'
       = c :: List.filter (fun c => negb (tagged user_id c)) (w_containers w)
     ∧ c_id c = w_next_id w ∧ is_running c = true
     ∧ c_labels c = spawn_labels user_id lab_id (w_now w)
                      (w_now w + minutes timeout_minutes)
     ∧ si_container_id info = RealId (c_id c) ∧ si_simulated info = false
     ∧ w_next_id w' = w_next_id w + 1 ∧ w_now w' = w_now w + seconds 2
     ∧ static w' = static w ∧ w_docker_available w' = true.

Lemma filter_idemp {A} (p : A → bool) (l : list A) :
  List.filter p (List.filter p l) = List.filter p l.
Proof.
  rewrite filter_filter_andb. apply filter_ext. intros a. by destruct (p a).
Qed.

Lemma spawn_success_healthy fuel :
  ∀ user_id image_name lab_id cport timeout w info w',
    healthy w → well_formed w →
    spawn_lab_container fuel user_id image_name lab_id cport timeout w
    = Some (Ok (SpawnSuccess info), w') →
    spawned user_id lab_id timeout w info w'.
Proof.
  induction fuel as [|fuel IH];
    intros user_id image_name lab_id cport timeout w info w' Hh Hwf H; [done|].
  simpl in H.
  destruct (spawn_enter_reachable user_id image_name w (proj1 Hh)) as [l0 He].
  rewrite He in H. clear He.
  set (w0 := set_log l0 (set_docker_available true w)) in H.
  assert (Hh0 : healthy w0) by exact Hh.
  assert (Hnd0 : NoDup (ids w0)) by exact (proj1 Hwf).
  destruct (kill_user_containers_healthy user_id true w0 eq_refl Hh0 Hnd0)
    as (kr & lk & Hkill & _ & _).
  change (w_containers w0) with (w_containers w) in Hkill.
  destruct (spawn_try user_id image_name lab_id cport timeout w0) as [[res|e] w2] eqn:Ht.
  - injection H as -> ->. unfold spawn_try in Ht.
    frame (keeps_spawn_try (eq_on static)) in Ht as Hst.
    frame (keeps_spawn_try (eq_on w_docker_available)) in Ht as Hav.
    step_as Ht la w1.
    frame (keeps_spawn_launch (eq_on w_now)) in E as Hnow1.
    apply spawn_launch_inv in E as (kr' & wk & Hk & settled & Hi & Hr & Hla & Hcs & Hid).
    rewrite Hkill in Hk. injection Hk as _ <-.
    apply spawn_settle_inv in Ht as (Hcs2 & Hid2 & Hnow2 & c & info' & Hf & Hrun & Hres & Hsim & Hcid & _).
    injection Hres as <-.
    unfold find_container in Hf. rewrite Hcs in Hf. simpl in Hf.
    rewrite Z.eqb_refl in Hf. injection Hf as <-.
    exists (with_status settled (la_container la)).
    rewrite Hcs2, Hcs, Hid2, Hid, Hnow2, Hnow1. rewrite Hla in Hcid, Hrun |- *.
    repeat split; done.
  - destruct (spawn_handle_other_fails e w2) as (code & err & msg & wo & Hother).
    destruct e; try (rewrite Hother in H; discriminate).
    clear Hother. simpl in H.
    destruct (String.eqb image_name FALLBACK_IMAGE); [discriminate|].
    match type of H with
    | match spawn_lab_container _ _ _ _ _ _ ?wf with _ => _ end = _ =>
        set (w3 := wf) in H;
        destruct (spawn_lab_container fuel user_id FALLBACK_IMAGE lab_id cport timeout w3)
          as [[[res|e] w4]|] eqn:Hrec; [|discriminate|discriminate]
    end.
    injection H as -> ->.
    frame (keeps_spawn_try (eq_on static)) in Ht as Hst.
    unfold spawn_try in Ht.
    destruct (spawn_launch user_id image_name lab_id cport timeout w0)
      as [[la|e'] w1] eqn:E.
    { rewrite (bind_ok _ _ _ _ _ E) in Ht.
      apply spawn_settle_inv in Ht as (_ & _ & _ & []). }
    rewrite (bind_raise _ _ _ _ _ E) in Ht. injection Ht as -> ->.
    frame (keeps_spawn_launch (eq_on w_now)) in E as Hnow.
    apply spawn_launch_inv in E as (kr' & wk & Hk & Hcs & Hid).
    rewrite Hkill in Hk. injection Hk as _ <-. simpl in Hcs, Hid, Hnow.
    apply IH in Hrec as (c & Hc).
    + exists c. unfold w3 in Hc. simpl in Hc. rewrite Hcs, Hid, Hnow in Hc.
      rewrite filter_idemp in Hc.
      destruct Hc as (? & ? & ? & ? & ? & ? & ? & ? & Hst' & ?).
      repeat split; try done. by rewrite Hst'.
    + by apply (healthy_static w).
    + unfold w3. destruct Hwf as [Hnd Hlt]. split; unfold ids in *; simpl.
      * rewrite Hcs. by apply map_filter_NoDup.
      * rewrite Hcs, Hid. apply Forall_forall. intros i Hi.
        rewrite Forall_forall in Hlt. apply Hlt.
        apply list_elem_of_fmap in Hi as (c & -> & Hc). apply list_elem_of_fmap.
        exists c. split; [done|]. apply list_elem_of_In in Hc.
        apply filter_In in Hc as [Hc _]. by apply list_elem_of_In.
Qed.

(** ** Well-formedness is the runtime's own invariant *)

Definition wf_step (w w' : World) : Prop := well_formed w → well_formed w'.

Lemma ids_mark_exited cid cs : map c_id (mark_exited cid cs) = map c_id cs.
Proof.
  unfold mark_exited. induction cs as [|c cs IH]; simpl; [done|].
  rewrite IH. by destruct (c_id c =? cid).
Qed.

Lemma wf_step_filter p w :
  wf_step w (set_containers (List.filter p (w_containers w)) w).
Proof.
  intros [Hnd Hlt]. split; unfold ids in *; simpl.
  - by apply map_filter_NoDup.
  - apply Forall_forall. intros i Hi. rewrite Forall_forall in Hlt. apply Hlt.
    apply list_elem_of_fmap in Hi as (c & -> & Hc). apply list_elem_of_fmap.
    exists c. split; [done|]. apply list_elem_of_In in Hc.
    apply filter_In in Hc as [Hc _]. by apply list_elem_of_In.
Qed.

Lemma wf_step_created c w :
  c_id c = w_next_id w →
  wf_step w (set_next_id (w_next_id w + 1) (set_containers (c :: w_containers w) w)).
Proof.
  intros Hid [Hnd Hlt]. split; unfold ids in *; simpl.
  - apply NoDup_cons. split; [|done].
    intros Hin. rewrite Forall_forall in Hlt. apply Hlt in Hin. lia.
  - apply Forall_cons. split; [lia|].
    eapply Forall_impl; [exact Hlt|]. intros i Hi. simpl in Hi. lia.
Qed.

Ltac wf_side :=
  solve [ intros; intros ?; assumption
        | intros ? ? ? H1 H2 ?; apply H2, H1; assumption
        | intros ? ? [? ?]; split; unfold ids in *; simpl;
          rewrite ?ids_mark_exited; assumption
        | intros; apply wf_step_filter
        | intros; by apply wf_step_created ].

(** Every Spawn leaves the runtime well formed, however it ends. *)
Lemma spawn_lab_container_well_formed fuel user_id image_name lab_id cport timeout w r w' :
  spawn_lab_container fuel user_id image_name lab_id cport timeout w = Some (r, w') →
  well_formed w → well_formed w'.
Proof.
  intros H. eapply (keeps_spawn_lab_container wf_step) in H; [exact H | wf_side ..].
Qed.

Lemma spawn_lab_container_static fuel user_id image_name lab_id cport timeout w r w' :
  spawn_lab_container fuel user_id image_name lab_id cport timeout w = Some (r, w') →
  static w' = static w.
Proof.
  intros H. eapply (keeps_spawn_lab_container (eq_on static)) in H; [exact H | frame_side ..].
Qed.

(** ** C1: one running instance per owner *)

(** The arguments of one Spawn call, the owner apart. *)
Record SpawnRequest := {
  rq_image_name : string;
  rq_lab_id : option Z;
  rq_container_port : Z;
  rq_timeout_minutes : Z;
}.

(** Spawn calls for one owner, one after the other; the result of each
    call with the world it leaves. *)
Fixpoint spawn_sequence (fuel : nat) (user_id : Z) (reqs : list SpawnRequest)
    (w : World) : option (list (Result SpawnResult * World)) :=
  match reqs with
  | [] => Some []
  | rq :: reqs' =>
      match spawn_lab_container fuel user_id (rq_image_name rq) (rq_lab_id rq)
              (rq_container_port rq) (rq_timeout_minutes rq) w with
      | None => None
      | Some (r, w') =>
          match spawn_sequence fuel user_id reqs' w' with
          | None => None
          | Some outs => Some ((r, w') :: outs)
          end
      end
  end.

(** The owner's instances in running state. *)
Definition running_instances (user_id : Z) (w : World) : list Container :=
  List.filter (fun c => tagged user_id c && is_running c) (w_containers w).

(** At the boundary of a Spawn call that succeeded: at most one running
    instance of the owner, and no container of the owner but the one the
    call reports. *)
Definition one_instance_at (user_id : Z) (out : Result SpawnResult * World) : Prop :=
  ∀ info, fst out = Ok (SpawnSuccess info) →
    (length (running_instances user_id (snd out)) ≤ 1)%nat
    ∧ ∀ c, c ∈ w_containers (snd out) → tagged user_id c = true →
           si_container_id info = RealId (c_id c).

Lemma filter_none {A} (p : A → bool) (l : list A) :
  (∀ a, p a = false) → List.filter p l = [].
Proof. intros Hp. induction l as [|a l IH]; simpl; [done|]. by rewrite Hp. Qed.

Lemma spawned_one_instance user_id lab_id timeout w info w' :
  spawned user_id lab_id timeout w info w' →
  one_instance_at user_id (Ok (SpawnSuccess info), w').
Proof.
  intros (c & Hcs & _ & _ & _ & Hid & _) info' Heq. simpl in Heq.
  injection Heq as <-. simpl.
  assert (Hnone : ∀ d, d ∈ List.filter (fun c => negb (tagged user_id c)) (w_containers w) →
                       tagged user_id d = false).
  { intros d Hd. apply list_elem_of_In, filter_In in Hd as [_ Hd].
    by apply negb_true_iff. }
  split.
  - unfold running_instances. rewrite Hcs. simpl.
    assert (Hrest : List.filter (fun c => tagged user_id c && is_running c)
              (List.filter (fun c => negb (tagged user_id c)) (w_containers w)) = []).
    { rewrite filter_filter_andb. apply filter_none. intros d.
      by destruct (tagged user_id d). }
    rewrite Hrest. destruct (tagged user_id c && is_running c); simpl; lia.
  - intros d Hd Htag. rewrite Hcs in Hd. apply elem_of_cons in Hd as [->|Hd]; [done|].
    apply Hnone in Hd. congruence.
Qed.

(** C1, as amended: on a runtime that answers and refuses no kill or
    remove, with unique container ids, every sequence of serialized Spawn
    calls for one owner has, at the boundary of each call that succeeded,
    at most one instance of that owner in running state, and every
    container the owner had before the call has been removed: the only
    container carrying the owner's label is the one the call created. *)
Theorem spawn_sequence_one_instance fuel user_id reqs :
  ∀ w outs,
    healthy w → well_formed w →
    spawn_sequence fuel user_id reqs w = Some outs →
    Forall (one_instance_at user_id) outs.
Proof.
  induction reqs as [|rq reqs IH]; intros w outs Hh Hwf H; simpl in H.
  - injection H as <-. constructor.
  - destruct (spawn_lab_container fuel user_id (rq_image_name rq) (rq_lab_id rq)
                (rq_container_port rq) (rq_timeout_minutes rq) w)
      as [[r w']|] eqn:Hs; [|done].
    destruct (spawn_sequence fuel user_id reqs w') as [outs'|] eqn:Hrest; [|done].
    injection H as <-. constructor.
    + intros info Hr. simpl in Hr. subst r.
      eapply spawned_one_instance; [|done].
      by eapply spawn_success_healthy.
    + eapply IH; [| |exact Hrest].
      * eapply healthy_static; [|exact Hh]. by eapply spawn_lab_container_static.
      * by eapply spawn_lab_container_well_formed.
Qed.

(** *** Sample worlds *)

(** 2024-01-01T12:00:00, in microseconds since 0001-01-01. *)
Definition NOON : datetime := (738885 * 86400 + 12 * 3600) * MICROS_PER_SECOND.

Definition sample_images : gmap string string :=
  <["nginx:alpine" := "running"]>
    (<["vulnerables/web-dvwa" := "running"]>
       (<["vulnlab/broken:v1" := "exited"]> ∅)).

Definition sample_request : SpawnRequest :=
  {| rq_image_name := "vulnerables/web-dvwa"; rq_lab_id := Some 7;
     rq_container_port := 80; rq_timeout_minutes := DEFAULT_TIMEOUT_MINUTES |}.

(** An instance as Spawn labels it. *)
Definition sample_instance (cid user_id : Z) (status : string)
    (created_at expires_at : datetime) (host_port : Z) : Container :=
  {| c_id := cid; c_name := "lab_user" +:+ pretty user_id +:+ "_dev_0000002a";
     c_image := "nginx:alpine";
     c_labels := spawn_labels user_id None created_at expires_at;
     c_status := status; c_ports := Some (80, host_port) |}.

(** A runtime that cooperates, with two instances of two owners. *)
Definition w_sample : World :=
  {| w_docker_available := true; w_log := []; w_cleanup_thread := true;
     w_reachable := true;
     w_containers :=
       [ sample_instance 2 42 "running" (NOON - minutes 30) (NOON + minutes 90) 20002;
         sample_instance 1 7 "running" (NOON - minutes 10) (NOON + minutes 110) 20001 ];
     w_next_id := 3; w_images := sample_images;
     w_kill_fails := []; w_stop_fails := []; w_remove_fails := [];
     w_bound_ports := [20000]; w_host_ip := "192.168.1.10"; w_now := NOON;
     w_random := [0; 41; 1; 5; 6] |}.

(** An empty runtime that will refuse to kill the first container it is
    going to create.  The draws to come give the two Spawn calls below
    the ports 20000 and 20001 and the name suffixes 00000001 and
    00000002. *)
Definition w_refusing : World :=
  {| w_docker_available := true; w_log := []; w_cleanup_thread := true;
     w_reachable := true;
     w_containers := []; w_next_id := 1; w_images := sample_images;
     w_kill_fails := [1]; w_stop_fails := []; w_remove_fails := [];
     w_bound_ports := []; w_host_ip := "192.168.1.10"; w_now := NOON;
     w_random := [0; 1; 1; 2] |}.

Ltac by_compute := refine (bool_decide_unpack _ _); vm_compute; exact I.

Lemma w_sample_healthy : healthy w_sample.
Proof. by repeat split. Qed.

Lemma w_sample_well_formed : well_formed w_sample.
Proof. split; by_compute. Qed.

(** Two Spawn calls in a row for owner 42 on the sample runtime. *)
Definition sample_outcomes : list (Result SpawnResult * World) :=
  Eval vm_compute in
    default [] (spawn_sequence 2 42 [sample_request; sample_request] w_sample).

Lemma spawn_sequence_one_instance_witness :
  spawn_sequence 2 42 [sample_request; sample_request] w_sample = Some sample_outcomes
  ∧ Forall (one_instance_at 42) sample_outcomes.
Proof.
  split; [vm_compute; reflexivity|].
  apply (spawn_sequence_one_instance 2 42 [sample_request; sample_request] w_sample).
  - exact w_sample_healthy.
  - exact w_sample_well_formed.
  - vm_compute. reflexivity.
Defined.

(** C1 as stated fails when the runtime refuses a kill: two Spawn calls
    in a row on an empty runtime both succeed, under two different
    container names, and the owner is left with two running instances. *)
Lemma spawn_sequence_two_running :
  match spawn_sequence 2 42 [sample_request; sample_request] w_refusing with
  | Some [(Ok (SpawnSuccess info1), _); (Ok (SpawnSuccess info2), w)] =>
      si_container_name info1 = "lab_user42_7_00000001"
      ∧ si_container_name info2 = "lab_user42_7_00000002"
      ∧ map c_name (running_instances 42 w)
        = ["lab_user42_7_00000002"; "lab_user42_7_00000001"]
      ∧ length (running_instances 42 w) = 2%nat
      ∧ ¬ one_instance_at 42 (Ok (SpawnSuccess info2), w)
  | _ => False
  end.
Proof.
  vm_compute. do 4 (split; [reflexivity|]).
  intros H. destruct (H _ eq_refl) as [Hle _]. vm_compute in Hle. lia.
Qed.

(** ** C2: a container that does not come up *)

(** C2, as amended: when the [try:] block of a Spawn call has created a
    container (steps 1 to 5 returned) and the runtime reports it in a
    state other than running after the settle delay, the call fails with
    error code RUNTIME_ERROR and the message of the running-state check;
    the container is not removed: the runtime holds it, and every other
    container, exactly as before the check. *)
Theorem spawn_startup_failure_keeps_container
    fuel user_id image_name lab_id cport timeout w w0 la w1 c :
  spawn_enter user_id image_name w = (Ok true, w0) →
  spawn_launch user_id image_name lab_id cport timeout w0 = (Ok la, w1) →
  find_container (c_id (la_container la)) w1 = Some c →
  is_running c = false →
  ∃ w2, spawn_lab_container (S fuel) user_id image_name lab_id cport timeout w
        = Some (Ok (SpawnFailure "RUNTIME_ERROR"
                      ("Container failed to start: " +:+ c_status c)
                      "Server is busy. Please try again later."), w2)
      ∧ w_containers w2 = w_containers w1
      ∧ c ∈ w_containers w2
      ∧ c_id c = w_next_id w
      ∧ tagged user_id c = true.
Proof.
  intros He Hl Hf Hrun.
  frame (keeps_spawn_enter (eq_on w_next_id)) in He as Hid0.
  pose proof Hl as Hinv.
  apply spawn_launch_inv in Hinv as (kr & wk & _ & settled & _ & Hr & Hla & Hcs & _).
  frame (keeps_spawn_launch (eq_on w_reachable)) in Hl as Hr1.
  assert (Hr1' : w_reachable w1 = true) by (rewrite <- Hr; exact Hr1).
  pose proof (spawn_settle_not_running user_id image_name lab_id cport timeout
                la w1 c Hr1' Hf Hrun) as Hs.
  eexists. split; [|split; [|split; [|split]]].
  - simpl. rewrite He. unfold spawn_try. rewrite (bind_ok _ _ _ _ _ Hl), Hs.
    unfold spawn_handle_other. cbn [is_api_error].
    rewrite (bind_ok _ _ _ _ _ (log_run _ _)). reflexivity.
  - reflexivity.
  - simpl. by apply find_container_Some in Hf as [Hf _].
  - unfold find_container in Hf. rewrite Hcs in Hf. simpl in Hf.
    rewrite Z.eqb_refl in Hf. injection Hf as <-. simpl. rewrite Hla. simpl.
    exact Hid0.
  - unfold find_container in Hf. rewrite Hcs in Hf. simpl in Hf.
    rewrite Z.eqb_refl in Hf. injection Hf as <-. unfold tagged. simpl. rewrite Hla.
    simpl. apply bool_decide_eq_true_2. unfold spawn_labels.
    by rewrite lookup_insert_eq.
Qed.

(** A Spawn for owner 42 of an image whose container exits at once:
    the world at the [try:] block, what steps 1 to 5 return and leave,
    and the runtime's record of the new container. *)
Definition BROKEN_IMAGE : string := "vulnlab/broken:v1".

Definition w_entered : World :=
  Eval vm_compute in snd (spawn_enter 42 BROKEN_IMAGE w_sample).

Definition la_broken : Launched :=
  Eval vm_compute in
    match fst (spawn_launch 42 BROKEN_IMAGE (Some 7) 80 120 w_entered) with
    | Ok la => la
    | Raise _ => {| la_container := sample_instance 0 0 "" 0 0 0;
                    la_container_name := ""; la_host_port := 0 |}
    end.

Definition w_launched : World :=
  Eval vm_compute in snd (spawn_launch 42 BROKEN_IMAGE (Some 7) 80 120 w_entered).

Definition c_broken : Container :=
  Eval vm_compute in with_status "exited" (la_container la_broken).

Lemma spawn_startup_failure_keeps_container_witness :
  ∃ w2, spawn_lab_container 1 42 BROKEN_IMAGE (Some 7) 80 120 w_sample
        = Some (Ok (SpawnFailure "RUNTIME_ERROR"
                      ("Container failed to start: " +:+ c_status c_broken)
                      "Server is busy. Please try again later."), w2)
      ∧ w_containers w2 = w_containers w_launched
      ∧ c_broken ∈ w_containers w2
      ∧ c_id c_broken = w_next_id w_sample
      ∧ tagged 42 c_broken = true.
Proof.
  apply (spawn_startup_failure_keeps_container 0 42 BROKEN_IMAGE (Some 7) 80 120
           w_sample w_entered la_broken w_launched c_broken);
    vm_compute; reflexivity.
Defined.

(** C2 as stated fails: the image [vulnlab/broken:v1] starts a container
    that exits at once.  The call answers RUNTIME_ERROR, not
    STARTUP_FAILURE, and the container it created, number 3, is still in
    the runtime with the owner's label. *)
Lemma spawn_startup_failure_not_cleaned :
  match spawn_lab_container 2 42 BROKEN_IMAGE (Some 7) 80 120 w_sample with
  | Some (Ok (SpawnFailure code error _), w) =>
      code = "RUNTIME_ERROR" ∧ code ≠ "STARTUP_FAILURE"
      ∧ error = "Container failed to start: exited"
      ∧ ∃ c, find_container 3 w = Some c ∧ c_status c = "exited" ∧ tagged 42 c = true
  | _ => False
  end.
Proof. vm_compute. repeat split; [done|]. eexists. by repeat split. Qed.

(** ** C4: the fallback to the default image *)

Definition DEFAULT_IMAGE_MISSING : SpawnResult :=
  SpawnFailure "DEFAULT_IMAGE_MISSING" "Default image missing"
    "System configuration error. Please contact support.".

Lemma spawn_enter_true user_id image_name w w0 :
  spawn_enter user_id image_name w = (Ok true, w0) → w_docker_available w0 = true.
Proof.
  unfold spawn_enter. rewrite (bind_ok _ _ _ _ _ (log_run _ _)).
  unfold bind at 1, get_world. set (wl := set_log _ w).
  destruct (w_docker_available wl) eqn:Hav; cbn [negb].
  - intros H. injection H as <-. exact Hav.
  - unfold _try_connect_docker, bind at 1, get_world.
    destruct (ping_ok wl); [|discriminate].
    unfold bind at 1, modify. rewrite (bind_ok _ _ _ _ _ (log_run _ _)).
    intros H. by injection H as <-.
Qed.

Lemma spawn_enter_available user_id image_name w :
  w_docker_available w = true →
  spawn_enter user_id image_name w
  = (Ok true, set_log (LogSpawning user_id image_name :: w_log w) w).
Proof.
  intros Hav. unfold spawn_enter. rewrite (bind_ok _ _ _ _ _ (log_run _ _)).
  unfold bind at 1, get_world. set (wl := set_log _ w).
  change (w_docker_available wl) with (w_docker_available w). by rewrite Hav.
Qed.

(** A Spawn of the default image never calls itself: one unit of fuel
    is enough, and a missing image ends in DEFAULT_IMAGE_MISSING. *)
Lemma spawn_default_image fuel user_id lab_id cport timeout w :
  w_docker_available w = true →
  ∃ r w2,
    spawn_lab_container 1 user_id FALLBACK_IMAGE lab_id cport timeout w = Some (Ok r, w2)
    ∧ spawn_lab_container (S fuel) user_id FALLBACK_IMAGE lab_id cport timeout w
      = Some (Ok r, w2)
    ∧ ∀ msg w1,
        spawn_try user_id FALLBACK_IMAGE lab_id cport timeout
          (set_log (LogSpawning user_id FALLBACK_IMAGE :: w_log w) w)
        = (Raise (ImageNotFound msg), w1) →
        r = DEFAULT_IMAGE_MISSING.
Proof.
  intros Hav. simpl. rewrite (spawn_enter_available _ _ _ Hav).
  destruct (spawn_try user_id FALLBACK_IMAGE lab_id cport timeout _) as [[res|e] w1] eqn:Ht.
  - eexists _, _. repeat split. intros msg w1' Heq. discriminate.
  - destruct (spawn_handle_other_fails e w1) as (code & err & m & w3 & Ho).
    destruct e; try (rewrite Ho; eexists _, _; repeat split; intros ? ? Heq; discriminate).
    simpl. eexists _, _. repeat split.
Qed.

(** C4, as amended: when the [try:] block of a Spawn call ends in
    [ImageNotFound], what follows depends on the image that was asked for.
    For the default image itself the guard answers DEFAULT_IMAGE_MISSING
    and no fallback attempt is made: the call ends in the world its [try:]
    block left, with the warning logged.  For any other image the call
    makes exactly one fallback attempt, a Spawn of the default image with
    the same other arguments, and answers what that attempt answers.  The
    attempt itself never attempts a fallback: it completes with no call
    left to make (one unit of fuel), so whatever depth is allowed the
    outcome is the same; and when the default image is missing too the
    answer is DEFAULT_IMAGE_MISSING. *)
Theorem spawn_fallback_once fuel user_id image_name lab_id cport timeout w w0 w1 msg :
  spawn_enter user_id image_name w = (Ok true, w0) →
  spawn_try user_id image_name lab_id cport timeout w0 = (Raise (ImageNotFound msg), w1) →
  let wf := set_log (LogFallback image_name :: w_log w1) w1 in
  if String.eqb image_name FALLBACK_IMAGE
  then
    spawn_lab_container (S fuel) user_id image_name lab_id cport timeout w
    = Some (Ok DEFAULT_IMAGE_MISSING, wf)
  else
    ∃ r w2,
      spawn_lab_container 1 user_id FALLBACK_IMAGE lab_id cport timeout wf = Some (Ok r, w2)
      ∧ spawn_lab_container (S (S fuel)) user_id image_name lab_id cport timeout w
        = Some (Ok r, w2)
      ∧ ∀ msg' w',
          spawn_try user_id FALLBACK_IMAGE lab_id cport timeout
            (set_log (LogSpawning user_id FALLBACK_IMAGE :: w_log wf) wf)
          = (Raise (ImageNotFound msg'), w') →
          r = DEFAULT_IMAGE_MISSING.
Proof.
  intros He Ht wf.
  destruct (String.eqb image_name FALLBACK_IMAGE) eqn:Hne.
  { cbn [spawn_lab_container]. rewrite He, Ht, log_run. fold wf. by rewrite Hne. }
  assert (Hav : w_docker_available wf = true).
  { frame (keeps_spawn_try (eq_on w_docker_available)) in Ht as Hf.
    unfold wf. change (w_docker_available w1 = true). rewrite Hf.
    by eapply spawn_enter_true. }
  destruct (spawn_default_image fuel user_id lab_id cport timeout wf Hav)
    as (r & w2 & H1 & HS & Hmiss).
  exists r, w2. split; [exact H1|]. split; [|exact Hmiss].
  change (spawn_lab_container (S (S fuel)) user_id image_name lab_id cport timeout w)
    with (match spawn_enter user_id image_name w with
          | (Raise e, w) => Some (Raise e, w)
          | (Ok false, w) =>
              let (_, w) := log LogSimulation w in
              Some (_simulate_spawn user_id image_name lab_id w)
          | (Ok true, w) =>
              match spawn_try user_id image_name lab_id cport timeout w with
              | (Ok result, w) => Some (Ok result, w)
              | (Raise (ImageNotFound _), w) =>
                  let (_, w) := log (LogFallback image_name) w in
                  if String.eqb image_name FALLBACK_IMAGE then
                    Some (Ok DEFAULT_IMAGE_MISSING, w)
                  else
                    match spawn_lab_container (S fuel) user_id FALLBACK_IMAGE lab_id
                            cport timeout w with
                    | None => None
                    | Some (Ok result, w) => Some (Ok result, w)
                    | Some (Raise e, w) =>
                        let (_, w) := log (LogError ("Fallback failed: " +:+ exc_str e)) w in
                        Some (Ok (SpawnFailure "IMAGE_NOT_FOUND"
                                    ("Image " +:+ image_name +:+ " not found and fallback failed.")
                                    "Lab image not available. Please contact support."), w)
                    end
              | (Raise e, w) => Some (spawn_handle_other e w)
              end
          end).
  rewrite He, Ht. rewrite log_run. fold wf.
  rewrite Hne. by rewrite HS.
Qed.

(** The sample runtime with no image at all, and a Spawn on it for an
    image other than the default one: the world at the [try:] block, the
    world the block leaves when it raises, the world the fallback attempt
    starts in and the one its own [try:] block leaves. *)
Definition w_bare : World :=
  {| w_docker_available := true; w_log := []; w_cleanup_thread := true;
     w_reachable := true;
     w_containers := w_containers w_sample;
     w_next_id := 3; w_images := ∅;
     w_kill_fails := []; w_stop_fails := []; w_remove_fails := [];
     w_bound_ports := [20000]; w_host_ip := "192.168.1.10"; w_now := NOON;
     w_random := [0; 41; 1; 5; 6] |}.

Definition SQLI_IMAGE : string := "vulnlab/sqli-basic:v1".

Definition w_bare_entered : World :=
  Eval vm_compute in snd (spawn_enter 42 SQLI_IMAGE w_bare).

Definition w_bare_tried : World :=
  Eval vm_compute in snd (spawn_try 42 SQLI_IMAGE (Some 7) 80 120 w_bare_entered).

Definition w_bare_fallback : World :=
  Eval vm_compute in set_log (LogFallback SQLI_IMAGE :: w_log w_bare_tried) w_bare_tried.

Definition w_bare_fallback_tried : World :=
  Eval vm_compute in
    snd (spawn_try 42 FALLBACK_IMAGE (Some 7) 80 120
           (set_log (LogSpawning 42 FALLBACK_IMAGE :: w_log w_bare_fallback)
              w_bare_fallback)).

Lemma spawn_fallback_once_witness :
  ∃ w2,
    spawn_lab_container 1 42 FALLBACK_IMAGE (Some 7) 80 120 w_bare_fallback
    = Some (Ok DEFAULT_IMAGE_MISSING, w2)
    ∧ spawn_lab_container 2 42 SQLI_IMAGE (Some 7) 80 120 w_bare
      = Some (Ok DEFAULT_IMAGE_MISSING, w2).
Proof.
  pose proof (spawn_fallback_once 0 42 SQLI_IMAGE (Some 7) 80 120
                w_bare w_bare_entered w_bare_tried ("No such image: " +:+ SQLI_IMAGE))
    as H.
  assert (Hne : String.eqb SQLI_IMAGE FALLBACK_IMAGE = false) by reflexivity.
  cbv zeta in H. rewrite Hne in H.
  destruct H as (r & w2 & H1 & H2 & Hmiss).
  - vm_compute. reflexivity.
  - vm_compute. reflexivity.
  - assert (Hr : r = DEFAULT_IMAGE_MISSING).
    { apply (Hmiss ("No such image: " +:+ FALLBACK_IMAGE) w_bare_fallback_tried).
      vm_compute. reflexivity. }
    subst r. exists w2. split; [exact H1 | exact H2].
Defined.

(** The calls of [spawn_lab_container] that a log records: each entry
    into the method writes its first line. *)
Definition entries (w : World) : nat :=
  length (List.filter (fun r => match r with LogSpawning _ _ => true | _ => false end)
            (w_log w)).

(** C4 as stated fails for the default image: on a runtime where it is
    missing, a Spawn of [nginx:alpine] answers DEFAULT_IMAGE_MISSING from
    its one entry into the method, with no fallback attempt at all, where
    a Spawn of any other missing image enters twice. *)
Lemma spawn_default_image_no_fallback :
  w_images w_bare !! FALLBACK_IMAGE = None
  ∧ entries w_bare = 0%nat
  ∧ match spawn_lab_container 2 42 FALLBACK_IMAGE (Some 7) 80 120 w_bare with
    | Some (Ok r, w) => r = DEFAULT_IMAGE_MISSING ∧ entries w = 1%nat
    | _ => False
    end
  ∧ match spawn_lab_container 2 42 SQLI_IMAGE (Some 7) 80 120 w_bare with
    | Some (Ok r, w) => r = DEFAULT_IMAGE_MISSING ∧ entries w = 2%nat
    | _ => False
    end.
Proof. vm_compute. by repeat split. Qed.

(** ** Status and Extend *)

(** The dictionary Status builds for a container. *)
Definition lab_info_of (w : World) (container : Container) : LabInfo :=
  {| li_container_id := c_id container;
     li_container_name := c_name container;
     li_image := c_image container;
     li_ip := w_host_ip w;
     li_port := snd <$> c_ports container;
     li_lab_id := c_labels container !! LABEL_LAB_ID;
     li_created_at := c_labels container !! LABEL_CREATED_AT;
     li_expires_at := c_labels container !! LABEL_EXPIRES_AT;
     li_status := c_status container |}.

(** The owner's active instance: the first running container with the
    owner's label in the runtime's listing. *)
Definition active_instance (user_id : Z) (w : World) : option Container :=
  head (running_instances user_id w).

Lemma matches_running user_id c :
  matches false (user_filter user_id (Some "running")) c
  = tagged user_id c && is_running c.
Proof.
  unfold matches, tagged, user_filter, is_running; simpl.
  destruct (c_labels c !! LABEL_USER_ID) as [v|]; simpl; [|done].
  f_equal. apply bool_decide_ext. split; congruence.
Qed.

Lemma get_user_active_lab_connected user_id w :
  w_docker_available w = true → w_reachable w = true →
  get_user_active_lab user_id w = (Ok (lab_info_of w <$> active_instance user_id w), w).
Proof.
  intros Hav Hr. unfold get_user_active_lab, bind at 1, get_world. rewrite Hav.
  cbn [negb]. unfold active_instance, running_instances.
  rewrite <- (filter_ext _ _ (matches_running user_id)).
  erewrite try_ok; [reflexivity|].
  rewrite (bind_ok _ _ _ _ _ (containers_list_ok _ _ _ Hr)).
  by destruct (List.filter _ _).
Qed.

Lemma running_instance_found user_id w c :
  c ∈ running_instances user_id w → ∃ d, find_container (c_id c) w = Some d.
Proof.
  intros Hc. apply list_elem_of_In, filter_In in Hc as [Hc _].
  unfold find_container.
  destruct (List.find (fun d => c_id d =? c_id c) (w_containers w)) eqn:E; [by eauto|].
  eapply find_none in E; [|exact Hc]. by rewrite Z.eqb_refl in E.
Qed.

(** What Extend answers for an instance whose expires_at label reads
    [expires_at]; the creation time plays no part. *)
Definition extended (expires_at : datetime) (extra : Z) : ExtendResult :=
  if timedelta_in_range (minutes extra)
  then if datetime_in_range (expires_at + minutes extra)
       then ExtendSuccess (expires_at + minutes extra) extra
       else ExtendFailure "date value out of range"
  else ExtendFailure (timedelta_overflow_text (minutes extra)).

Lemma extend_lab_timeout_connected user_id extra w c expires_at :
  w_docker_available w = true → w_reachable w = true →
  active_instance user_id w = Some c →
  c_labels c !! LABEL_EXPIRES_AT = Some (LTime expires_at) →
  fst (extend_lab_timeout user_id extra w) = Ok (extended expires_at extra).
Proof.
  intros Hav Hr Hact Hlab. unfold extended.
  unfold extend_lab_timeout, bind at 1, get_world. rewrite Hav. cbn [negb].
  unfold try_except.
  rewrite (bind_ok _ _ _ _ _ (get_user_active_lab_connected _ _ Hav Hr)), Hact.
  change (lab_info_of w <$> Some c) with (Some (lab_info_of w c)). cbv iota.
  change (li_container_id (lab_info_of w c)) with (c_id c).
  change (li_expires_at (lab_info_of w c)) with (c_labels c !! LABEL_EXPIRES_AT).
  destruct (running_instance_found user_id w c) as [d Hd].
  { unfold active_instance in Hact. destruct (running_instances user_id w); [done|].
    injection Hact as ->. by left. }
  rewrite (bind_ok _ _ _ _ _ (containers_get_ok _ _ _ Hr Hd)).
  rewrite Hlab.
  unfold bind at 1, fromisoformat, ret at 1.
  unfold bind at 1, timedelta_minutes.
  destruct (timedelta_in_range (minutes extra)).
  - unfold ret at 1, bind at 1, datetime_add.
    destruct (datetime_in_range (expires_at + minutes extra)); done.
  - done.
Qed.

(** C3, as amended: for an owner whose active instance carries an
    expires_at label that parses, Extend answers that expiry plus
    [extra_minutes], whatever the instance's creation time and however
    large the sum, as long as [extra_minutes] is a timedelta and the sum a
    datetime that Python can represent; when one of them is not, Extend
    answers an error.  No maximum total lifetime is applied. *)
Theorem extend_adds_minutes user_id extra w c expires_at :
  w_docker_available w = true → w_reachable w = true →
  active_instance user_id w = Some c →
  c_labels c !! LABEL_EXPIRES_AT = Some (LTime expires_at) →
  ∃ r,
    fst (extend_lab_timeout user_id extra w) = Ok r
    ∧ if timedelta_in_range (minutes extra)
         && datetime_in_range (expires_at + minutes extra)
      then r = ExtendSuccess (expires_at + minutes extra) extra
      else ∃ error, r = ExtendFailure error.
Proof.
  intros Hav Hr Hact Hlab. exists (extended expires_at extra).
  split; [by apply (extend_lab_timeout_connected user_id extra w c)|].
  unfold extended. destruct (timedelta_in_range (minutes extra)); cbn [andb].
  - destruct (datetime_in_range (expires_at + minutes extra)); [done | by eexists].
  - by eexists.
Qed.

Lemma extend_adds_minutes_witness :
  fst (extend_lab_timeout 42 60 w_sample) = Ok (ExtendSuccess (NOON + minutes 150) 60).
Proof.
  destruct (extend_adds_minutes 42 60 w_sample
              (sample_instance 2 42 "running" (NOON - minutes 30) (NOON + minutes 90) 20002)
              (NOON + minutes 90)) as (r & Hrun & Hr);
    [vm_compute; reflexivity..|].
  vm_compute in Hr. rewrite Hrun, Hr. vm_compute. reflexivity.
Defined.

Lemma in_range_datetime t : 0 ≤ t ≤ DATETIME_MAX → datetime_in_range t = true.
Proof.
  intros H. unfold datetime_in_range. apply andb_true_iff. split; apply Z.leb_le; lia.
Qed.

Lemma in_range_timedelta d : 0 ≤ d ≤ DATETIME_MAX → timedelta_in_range d = true.
Proof.
  unfold timedelta_in_range, DATETIME_MAX, TIMEDELTA_MAX_DAYS, MICROS_PER_DAY,
    MICROS_PER_SECOND.
  intros H. apply andb_true_iff. split; apply Z.leb_le.
  - assert (0 ≤ d / (86400 * 1000000)) by (apply Z.div_pos; lia). lia.
  - assert (d / (86400 * 1000000) ≤ d) by (apply Z.div_le_upper_bound; lia). 
    assert (d / (86400 * 1000000) ≤ 3652059); [|lia].
    apply Z.div_le_upper_bound; lia.
Qed.

(** C3 as stated fails.  The instance of owner 42 was created at
    [NOON - 30 min] with expiry [NOON + 90 min].  Whatever maximum total
    lifetime is proposed, if it ends a minute or more before the last
    datetime Python can represent, some [extra_minutes] makes Extend
    answer an expiry beyond creation time plus that maximum. *)
Lemma extend_not_capped :
  ∃ c, active_instance 42 w_sample = Some c
     ∧ c_labels c !! LABEL_CREATED_AT = Some (LTime (NOON - minutes 30))
     ∧ ¬ ∃ max_lifetime : Z,
           (NOON - minutes 30) + max_lifetime + minutes 1 ≤ DATETIME_MAX
           ∧ ∀ extra new n,
               fst (extend_lab_timeout 42 extra w_sample) = Ok (ExtendSuccess new n) →
               new ≤ (NOON - minutes 30) + max_lifetime.
Proof.
  eexists. split; [vm_compute; reflexivity|]. split; [vm_compute; reflexivity|].
  intros (L & HL & Hcap).
  assert (Hext : ∀ extra,
            0 ≤ minutes extra → NOON + minutes 90 + minutes extra ≤ DATETIME_MAX →
            NOON + minutes 90 + minutes extra ≤ NOON - minutes 30 + L).
  { intros extra H0 Hmax. eapply (Hcap extra _ extra).
    rewrite (extend_lab_timeout_connected 42 extra w_sample
               (sample_instance 2 42 "running" (NOON - minutes 30) (NOON + minutes 90) 20002)
               (NOON + minutes 90));
      [|vm_compute; reflexivity..].
    unfold extended. rewrite in_range_timedelta, in_range_datetime; [done| |].
    - unfold NOON, minutes, MICROS_PER_MINUTE, MICROS_PER_SECOND in *. lia.
    - unfold NOON, minutes, MICROS_PER_MINUTE, MICROS_PER_SECOND in *. lia. }
  unfold DATETIME_MAX, NOON, minutes, MICROS_PER_DAY, MICROS_PER_MINUTE,
    MICROS_PER_SECOND in *.
  destruct (Z_lt_le_dec L (120 * (60 * 1000000))) as [Hlt|Hge].
  - specialize (Hext 0). lia.
  - specialize (Hext ((L - 120 * (60 * 1000000)) / (60 * 1000000) + 1)).
    pose proof (Z.div_mod (L - 120 * (60 * 1000000)) (60 * 1000000) ltac:(lia)) as Hdm.
    pose proof (Z.mod_pos_bound (L - 120 * (60 * 1000000)) (60 * 1000000) ltac:(lia)) as Hmb.
    assert (0 ≤ (L - 120 * (60 * 1000000)) / (60 * 1000000)) by (apply Z.div_pos; lia).
    lia.
Qed.

(** ** C6: the expiry sweep *)

Definition EXPIRY_FILTER : Filters :=
  {| f_label := LABEL_EXPIRES_AT; f_label_value := None; f_status := None |}.

Lemma expired_matches now c :
  expired now c = true → matches true EXPIRY_FILTER c = true.
Proof.
  unfold expired, matches, EXPIRY_FILTER; simpl.
  by destruct (c_labels c !! LABEL_EXPIRES_AT).
Qed.

Lemma fold_left_expire_step now (L : list Container) acc :
  fst (fold_left (fun a c => expire_step now c a) L acc)
  = fst acc ++ map c_id (List.filter (expired now) L).
Proof.
  revert acc. induction L as [|c L IH]; intros acc; simpl.
  - by rewrite app_nil_r.
  - rewrite IH. unfold expire_step, expired.
    destruct (c_labels c !! LABEL_EXPIRES_AT) as [[s|t]|]; simpl; [|destruct (now >? t)|];
      simpl; rewrite <- ?app_assoc; try done.
    by destruct (String.eqb s "").
Qed.

(** What the expiry sweep reports on a runtime that cooperates: a
    function of the clock and of the containers, labels included. *)
Definition expiry_report (now : datetime) (cs : list Container) : CleanupResult :=
  let (cleaned, errors) :=
    fold_left (fun a c => expire_step now c a)
      (List.filter (matches true EXPIRY_FILTER) cs) ([], []) in
  {| cr_success := true; cr_cleaned := length cleaned; cr_containers := cleaned;
     cr_errors := none_if_empty errors; cr_error := None |}.

Lemma cleanup_expired_containers_report w :
  w_docker_available w = true → healthy w → NoDup (ids w) →
  ∃ l, cleanup_expired_containers w
       = (Ok (expiry_report (w_now w) (w_containers w)),
          upd l (List.filter (fun c => negb (expired (w_now w) c)) (w_containers w)) w).
Proof.
  intros Hav Hh Hnd.
  set (now := w_now w).
  set (L := List.filter (matches true EXPIRY_FILTER) (w_containers w)).
  destruct (for_each_sweep (expire_one now) (expired now) (expire_step now)
              (expire_one_healthy now) L w ([], [])) as [l Hl]; try done.
  { intros c Hc. apply list_elem_of_In, filter_In in Hc as [Hc _].
    by apply list_elem_of_In. }
  { by apply map_filter_NoDup. }
  assert (Hrem : remaining (expired now) L (w_containers w)
                 = List.filter (fun c => negb (expired now c)) (w_containers w)).
  { unfold L. rewrite remaining_filter by done. apply filter_ext. intros c.
    destruct (expired now c) eqn:E; [|by rewrite andb_false_r].
    by rewrite (expired_matches now c E). }
  rewrite Hrem in Hl. exists l.
  unfold cleanup_expired_containers, bind at 1, get_world. rewrite Hav. cbn [negb].
  erewrite try_ok; [reflexivity|].
  rewrite (bind_ok _ _ _ _ _ (containers_list_ok _ _ _ (proj1 Hh))).
  unfold bind at 1, utcnow. fold now. fold EXPIRY_FILTER. fold L.
  rewrite (bind_ok _ _ _ _ _ Hl). unfold expiry_report. fold L.
  by destruct (fold_left _ L _).
Qed.

Lemma cleanup_expired_containers_healthy w :
  w_docker_available w = true → healthy w → NoDup (ids w) →
  ∃ r l, cleanup_expired_containers w
         = (Ok r, upd l (List.filter (fun c => negb (expired (w_now w) c))
                           (w_containers w)) w)
       ∧ cr_success r = true
       ∧ cr_cleaned r = length (cr_containers r)
       ∧ cr_containers r = map c_id (List.filter (expired (w_now w)) (w_containers w)).
Proof.
  intros Hav Hh Hnd.
  destruct (cleanup_expired_containers_report w Hav Hh Hnd) as [l Hl].
  exists (expiry_report (w_now w) (w_containers w)), l. split; [exact Hl|].
  unfold expiry_report.
  pose proof (fold_left_expire_step (w_now w)
                (List.filter (matches true EXPIRY_FILTER) (w_containers w)) ([], []))
    as Hfst.
  destruct (fold_left _ _ _) as [cleaned errors].
  split; [done|]. split; [done|].
  simpl in Hfst |- *. rewrite Hfst. f_equal. rewrite filter_filter_andb.
  apply filter_ext. intros c.
  destruct (expired (w_now w) c) eqn:E; [|by rewrite andb_false_r].
  by rewrite (expired_matches _ c E).
Qed.

(** C6, as amended: on a manager that has recorded the runtime as
    available, a runtime that answers and refuses no kill or remove, and
    unique container ids, one run of the expiry sweep removes exactly the
    instances whose expires_at label lies strictly before the sweep's
    reading of the clock, and reports their ids and their number; an
    instance that is running and not expired is still there, and a Status
    query for its owner right after the sweep reports an active instance
    that the sweep spared, the very one when it is the owner's only running
    instance. *)
Theorem expiry_sweep_removes_expired w :
  w_docker_available w = true → healthy w → NoDup (ids w) →
  ∃ r w',
    cleanup_expired_containers w = (Ok r, w')
    ∧ cr_success r = true
    ∧ cr_containers r = map c_id (List.filter (expired (w_now w)) (w_containers w))
    ∧ cr_cleaned r = length (List.filter (expired (w_now w)) (w_containers w))
    ∧ w_containers w'
      = List.filter (fun c => negb (expired (w_now w) c)) (w_containers w)
    ∧ ∀ user_id c,
        c ∈ w_containers w → tagged user_id c = true → is_running c = true →
        expired (w_now w) c = false →
        ∃ d, fst (get_user_active_lab user_id w') = Ok (Some (lab_info_of w' d))
           ∧ li_status (lab_info_of w' d) = "running"
           ∧ d ∈ running_instances user_id w
           ∧ expired (w_now w) d = false
           ∧ (running_instances user_id w = [c] → d = c).
Proof.
  intros Hav Hh Hnd.
  destruct (cleanup_expired_containers_healthy w Hav Hh Hnd)
    as (r & l & Hrun & Hsucc & Hcount & Hids).
  eexists r, _. split; [exact Hrun|]. split; [exact Hsucc|]. split; [exact Hids|].
  split; [by rewrite Hcount, Hids, length_map|]. split; [reflexivity|].
  intros user_id c Hc Htag Hrunning Hexp.
  set (w' := upd l _ w).
  assert (Hin : c ∈ running_instances user_id w').
  { unfold running_instances, w'. simpl. apply list_elem_of_In, filter_In. split.
    - apply filter_In. split; [by apply list_elem_of_In | by rewrite Hexp].
    - by rewrite Htag, Hrunning. }
  rewrite (get_user_active_lab_connected user_id w' Hav (proj1 Hh)).
  unfold active_instance.
  destruct (running_instances user_id w') as [|d rest] eqn:Hlist.
  { by apply elem_of_nil in Hin. }
  assert (Hd : d ∈ running_instances user_id w').
  { rewrite Hlist. by left. }
  unfold running_instances, w' in Hd. simpl in Hd.
  apply list_elem_of_In, filter_In in Hd as [Hd Hd2].
  apply filter_In in Hd as [Hd Hd3].
  exists d. split; [reflexivity|]. split; [|split; [|split]].
  - apply andb_true_iff in Hd2 as [_ Hd2]. unfold is_running in Hd2.
    by apply String.eqb_eq in Hd2.
  - apply list_elem_of_In, filter_In. by split.
  - by apply negb_true_iff.
  - intros Hone.
    assert (Hdin : d ∈ running_instances user_id w).
    { apply list_elem_of_In, filter_In. by split. }
    rewrite Hone in Hdin. by apply list_elem_of_singleton in Hdin.
Qed.

(** Three instances of three owners at noon: two past their expiry, one
    with half an hour to go. *)
Definition i_expired_1 : Container :=
  sample_instance 1 7 "running" (NOON - minutes 180) (NOON - minutes 60) 20001.
Definition i_expired_2 : Container :=
  sample_instance 2 8 "exited" (NOON - minutes 121) (NOON - minutes 1) 20002.
Definition i_fresh : Container :=
  sample_instance 3 9 "running" (NOON - minutes 90) (NOON + minutes 30) 20003.

Definition w_three : World :=
  {| w_docker_available := true; w_log := []; w_cleanup_thread := true;
     w_reachable := true;
     w_containers := [i_fresh; i_expired_2; i_expired_1];
     w_next_id := 4; w_images := sample_images;
     w_kill_fails := []; w_stop_fails := []; w_remove_fails := [];
     w_bound_ports := []; w_host_ip := "192.168.1.10"; w_now := NOON;
     w_random := [] |}.

Lemma expiry_sweep_removes_expired_witness :
  ∃ r w',
    cleanup_expired_containers w_three = (Ok r, w')
    ∧ cr_cleaned r = 2%nat
    ∧ cr_containers r = [2; 1]
    ∧ ∃ lab, fst (get_user_active_lab 9 w') = Ok (Some lab)
           ∧ li_container_id lab = 3 ∧ li_status lab = "running".
Proof.
  destruct (expiry_sweep_removes_expired w_three)
    as (r & w' & Hrun & _ & Hids & Hn & _ & Hstatus).
  - reflexivity.
  - by repeat split.
  - by_compute.
  - exists r, w'. split; [exact Hrun|]. split; [exact Hn|]. split; [exact Hids|].
    destruct (Hstatus 9 i_fresh) as (d & Hq & Hst & _ & _ & Hsame).
    + by left.
    + vm_compute. reflexivity.
    + vm_compute. reflexivity.
    + vm_compute. reflexivity.
    + rewrite (Hsame eq_refl) in Hq, Hst. eexists. split; [exact Hq|]. split; [reflexivity | exact Hst].
Defined.

(** The three instances as a manager built while Docker was down sees
    them, once Docker is up: the flag is unset and no loop runs. *)
Definition w_three_unconnected : World :=
  set_cleanup_thread false (set_docker_available false w_three).

(** Three instances, two of them expired, on a runtime that refuses to
    kill the first and to remove the second. *)
Definition w_three_refusing : World :=
  {| w_docker_available := true; w_log := []; w_cleanup_thread := true;
     w_reachable := true;
     w_containers := [i_fresh; i_expired_2; i_expired_1];
     w_next_id := 4; w_images := sample_images;
     w_kill_fails := [1]; w_stop_fails := []; w_remove_fails := [2];
     w_bound_ports := []; w_host_ip := "192.168.1.10"; w_now := NOON;
     w_random := [] |}.

(** C6 as stated fails off these conditions, and the sweep reports
    success all the same.  With the flag unset it does not look at the
    runtime: the two expired instances stay and it reports 0.  When the
    runtime refuses to kill the first and to remove the second, both stay
    as well, and it reports 0. *)
Lemma expiry_sweep_spares_expired :
  map c_id (List.filter (expired NOON) (w_containers w_three)) = [2; 1]
  ∧ match cleanup_expired_containers w_three_unconnected with
    | (Ok r, w') =>
        cr_success r = true ∧ cr_cleaned r = 0%nat
        ∧ w_containers w' = w_containers w_three
    | _ => False
    end
  ∧ match cleanup_expired_containers w_three_refusing with
    | (Ok r, w') =>
        cr_success r = true ∧ cr_cleaned r = 0%nat
        ∧ map c_id (w_containers w') = [3; 2; 1]
    | _ => False
    end.
Proof. vm_compute. by repeat split. Qed.

(** ** C5: Extend persists nothing *)

Lemma sans_log_eq w w' : sans_log w' = sans_log w → w' = set_log (w_log w') w.
Proof.
  destruct w, w'. unfold sans_log, set_log. simpl. intros H.
  injection H as ?. by subst.
Qed.

(** C5: for an owner with an active instance, Extend changes nothing but
    the manager's log.  The runtime holds the same containers with the
    same labels, so the owner's active instance is the same container and
    the expires_at label the expiry sweep reads on it is the one it read
    before; and on a runtime that cooperates, an expiry sweep run after
    the call, at whatever time, reports and removes exactly what it would
    have reported and removed had Extend not been called. *)
Theorem extend_persists_nothing user_id extra w c :
  w_docker_available w = true → healthy w → NoDup (ids w) →
  active_instance user_id w = Some c →
  ∃ r w',
    extend_lab_timeout user_id extra w = (r, w')
    ∧ sans_log w' = sans_log w
    ∧ w_containers w' = w_containers w
    ∧ active_instance user_id w' = Some c
    ∧ (find_container (c_id c) w' ≫= fun d => c_labels d !! LABEL_EXPIRES_AT)
      = (find_container (c_id c) w ≫= fun d => c_labels d !! LABEL_EXPIRES_AT)
    ∧ ∀ now,
        fst (cleanup_expired_containers (set_now now w'))
        = fst (cleanup_expired_containers (set_now now w))
        ∧ sans_log (snd (cleanup_expired_containers (set_now now w')))
          = sans_log (snd (cleanup_expired_containers (set_now now w))).
Proof.
  intros Hav Hh Hnd Hact.
  destruct (extend_lab_timeout user_id extra w) as [r w'] eqn:E.
  frame (keeps_extend_lab_timeout (eq_on sans_log)) in E as Hsame.
  exists r, w'. split; [done|]. split; [exact Hsame|].
  apply sans_log_eq in Hsame as Hw'. set (l' := w_log w') in Hw'. clearbody l'.
  subst w'. split; [done|]. split; [exact Hact|]. split; [done|].
  intros now.
  destruct (cleanup_expired_containers_report (set_now now w) Hav Hh Hnd) as [l1 H1].
  destruct (cleanup_expired_containers_report (set_now now (set_log l' w)) Hav Hh Hnd)
    as [l2 H2].
  rewrite H1, H2. split; reflexivity.
Qed.

Lemma extend_persists_nothing_witness :
  ∃ r w',
    extend_lab_timeout 42 60 w_sample = (r, w')
    ∧ r = Ok (ExtendSuccess (NOON + minutes 150) 60)
    ∧ w_containers w' = w_containers w_sample
    ∧ fst (cleanup_expired_containers (set_now (NOON + minutes 100) w'))
      = fst (cleanup_expired_containers (set_now (NOON + minutes 100) w_sample))
    ∧ cr_containers (expiry_report (NOON + minutes 100) (w_containers w')) = [2].
Proof.
  destruct (extend_persists_nothing 42 60 w_sample
              (sample_instance 2 42 "running" (NOON - minutes 30) (NOON + minutes 90) 20002))
    as (r & w' & Hrun & _ & Hcs & _ & _ & Hsweep).
  - reflexivity.
  - exact w_sample_healthy.
  - by_compute.
  - vm_compute. reflexivity.
  - exists r, w'. split; [exact Hrun|]. split.
    { replace r with (fst (extend_lab_timeout 42 60 w_sample)) by (by rewrite Hrun).
      vm_compute. reflexivity. }
    split; [exact Hcs|]. split; [exact (proj1 (Hsweep _))|].
    rewrite Hcs. vm_compute. reflexivity.
Defined.

(** ** C7: port allocation *)

Lemma elem_of_range_from n : ∀ a p, p ∈ range_from n a ↔ a ≤ p < a + Z.of_nat n.
Proof.
  induction n as [|n IH]; intros a p; simpl range_from.
  - rewrite elem_of_nil. lia.
  - rewrite elem_of_cons, IH. lia.
Qed.

Lemma elem_of_range a b p : p ∈ range a b ↔ a ≤ p < b.
Proof. unfold range. rewrite elem_of_range_from. lia. Qed.

(** The sequential scan returns the first free port of its list, and
    nothing when every port of the list is taken. *)
Lemma sequential_scan_spec ports w :
  ∃ r, sequential_scan ports w = (Ok r, w)
     ∧ match r with
       | Some p => p ∈ ports ∧ port_in_use w p = false
       | None => ∀ p, p ∈ ports → port_in_use w p = true
       end.
Proof.
  induction ports as [|q ports IH]; simpl.
  - exists None. split; [done|]. intros p Hp. by apply elem_of_nil in Hp.
  - unfold bind at 1, _is_port_available, bind at 1, get_world, ret at 1.
    destruct (port_in_use w q) eqn:Hq; cbn [negb].
    + destruct IH as (r & -> & Hr). exists r. split; [done|].
      destruct r as [p|].
      * destruct Hr. split; [by right | done].
      * intros p Hp. apply elem_of_cons in Hp as [->|Hp]; [done | by apply Hr].
    + exists (Some q). split; [done|]. split; [by left | done].
Qed.

(** The random probes return a free port of the inclusive range, or
    nothing; they change the random source only. *)
Lemma random_probe_spec n : ∀ w,
  ∃ r rnd, random_probe n w = (Ok r, set_random rnd w)
         ∧ match r with
           | Some p => PORT_RANGE_START ≤ p ≤ PORT_RANGE_END ∧ port_in_use w p = false
           | None => True
           end.
Proof.
  induction n as [|n IH]; intros w; simpl.
  - exists None, (w_random w). split; [|done]. by destruct w.
  - destruct (randint_run PORT_RANGE_START PORT_RANGE_END w) as (x & rnd & Hx).
    rewrite (bind_ok _ _ _ _ _ Hx).
    unfold bind at 1, _is_port_available, bind at 1, get_world, ret at 1.
    set (p := PORT_RANGE_START + x mod (PORT_RANGE_END - PORT_RANGE_START + 1)).
    change (port_in_use (set_random rnd w) p) with (port_in_use w p).
    destruct (port_in_use w p) eqn:Hp; cbn [negb].
    + destruct (IH (set_random rnd w)) as (r & rnd' & -> & Hr).
      exists r, rnd'. split; [done|]. by destruct r.
    + exists (Some p), rnd. split; [done|]. split; [|done].
      unfold p, PORT_RANGE_START, PORT_RANGE_END.
      pose proof (Z.mod_pos_bound x (30000 - 20000 + 1) ltac:(lia)). lia.
Qed.

(** What the allocation guarantees: a port it returns is free and in
    the inclusive range, and it returns one whenever a port from 20000 to
    29999 is free. *)
Lemma find_free_port_spec w :
  ∃ r rnd, _find_free_port w = (r, set_random rnd w)
    ∧ match r with
      | Ok p => PORT_RANGE_START ≤ p ≤ PORT_RANGE_END ∧ port_in_use w p = false
      | Raise e =>
          e = RuntimeError "No free port available in range 20000-30000"
          ∧ ∀ p, PORT_RANGE_START ≤ p < PORT_RANGE_END → port_in_use w p = true
      end.
Proof.
  unfold _find_free_port.
  destruct (random_probe_spec 100 w) as (r & rnd & Hr & Hp).
  rewrite (bind_ok _ _ _ _ _ Hr).
  destruct r as [p|].
  - exists (Ok p), rnd. by split.
  - destruct (sequential_scan_spec (range PORT_RANGE_START PORT_RANGE_END)
                (set_random rnd w)) as (s & Hs & Hsp).
    rewrite (bind_ok _ _ _ _ _ Hs). destruct s as [p|].
    + exists (Ok p), rnd. split; [done|]. destruct Hsp as [Hin Hfree].
      apply elem_of_range in Hin. split; [lia | exact Hfree].
    + exists (Raise (RuntimeError "No free port available in range 20000-30000")), rnd.
      split; [done|]. split; [done|]. intros p Hq. apply Hsp. by apply elem_of_range.
Qed.

(** Every port from 20000 to 29999 is bound by another process, port
    30000 is free, and the random source has run dry, so that every
    draw is 0 and every probe tries port 20000. *)
Definition w_last_port : World :=
  {| w_docker_available := true; w_log := []; w_cleanup_thread := true;
     w_reachable := true;
     w_containers := []; w_next_id := 1; w_images := sample_images;
     w_kill_fails := []; w_stop_fails := []; w_remove_fails := [];
     w_bound_ports := range 20000 30000; w_host_ip := "192.168.1.10";
     w_now := NOON; w_random := [] |}.

Lemma random_probe_dry n w :
  w_random w = [] → port_in_use w PORT_RANGE_START = true →
  random_probe n w = (Ok None, w).
Proof.
  intros Hdry Hused. induction n as [|n IH]; simpl; [done|].
  unfold bind at 1, randint, bind at 1, raw_draw. rewrite Hdry. unfold ret at 1.
  unfold bind at 1, _is_port_available, bind at 1, get_world, ret at 1.
  change (PORT_RANGE_START + 0 mod (PORT_RANGE_END - PORT_RANGE_START + 1))
    with PORT_RANGE_START.
  rewrite Hused. exact IH.
Qed.

Lemma find_free_port_exhausted w :
  w_random w = [] →
  (∀ p, PORT_RANGE_START ≤ p < PORT_RANGE_END → port_in_use w p = true) →
  _find_free_port w
  = (Raise (RuntimeError "No free port available in range 20000-30000"), w).
Proof.
  intros Hdry Hused. unfold _find_free_port.
  assert (Hfirst : PORT_RANGE_START ≤ PORT_RANGE_START < PORT_RANGE_END)
    by (unfold PORT_RANGE_START, PORT_RANGE_END; lia).
  rewrite (bind_ok _ _ _ _ _ (random_probe_dry 100 w Hdry (Hused _ Hfirst))).
  destruct (sequential_scan_spec (range PORT_RANGE_START PORT_RANGE_END) w)
    as (s & Hs & Hsp).
  rewrite (bind_ok _ _ _ _ _ Hs). destruct s as [p|]; [|done].
  destruct Hsp as [Hin Hfree]. apply elem_of_range in Hin.
  rewrite (Hused p Hin) in Hfree. discriminate.
Qed.

Lemma w_last_port_in_use p :
  port_in_use w_last_port p = bool_decide (p ∈ range 20000 30000).
Proof. unfold port_in_use. apply orb_false_r. Qed.

(** C7, the defect: the allocation reports exhaustion although port
    30000, which belongs to the inclusive range 20000-30000 that the
    random probes draw from and that the error message names, is free.
    The sequential scan stops at 29999. *)
Theorem find_free_port_misses_last_port :
  fst (_find_free_port w_last_port)
  = Raise (RuntimeError "No free port available in range 20000-30000")
  ∧ port_in_use w_last_port PORT_RANGE_END = false
  ∧ PORT_RANGE_START ≤ PORT_RANGE_END ≤ PORT_RANGE_END.
Proof.
  split; [|split].
  - refine (f_equal fst (find_free_port_exhausted w_last_port eq_refl _)).
    intros p Hp. rewrite w_last_port_in_use. apply bool_decide_eq_true_2.
    by apply elem_of_range.
  - rewrite w_last_port_in_use. apply bool_decide_eq_false_2. rewrite elem_of_range.
    unfold PORT_RANGE_END. lia.
  - unfold PORT_RANGE_START, PORT_RANGE_END. lia.
Qed.

(** ** C8: simulation mode *)

(** The manager holds the runtime to be unavailable and the runtime does
    not answer. *)
Definition simulation_mode (w : World) : Prop :=
  w_docker_available w = false ∧ w_reachable w = false.

Lemma spawn_enter_simulation user_id image_name w :
  simulation_mode w →
  spawn_enter user_id image_name w
  = (Ok false, set_log (LogSpawning user_id image_name :: w_log w) w).
Proof.
  intros [Hav Hr]. unfold spawn_enter. rewrite (bind_ok _ _ _ _ _ (log_run _ _)).
  unfold bind at 1, get_world. set (wl := set_log _ w).
  change (w_docker_available wl) with (w_docker_available w). rewrite Hav. cbn [negb].
  unfold _try_connect_docker, bind at 1, get_world, ping_ok.
  change (w_reachable wl) with (w_reachable w). by rewrite Hr.
Qed.

Lemma raw_draw_head w :
  raw_draw w = (Ok (hd 0 (w_random w)), set_random (tl (w_random w)) w).
Proof. unfold raw_draw. by destruct w as [? ? ? ? ? ? ? ? ? ? ? ? ? [|x r]]. Qed.

Lemma utcnow_run w : utcnow w = (Ok (w_now w), w).
Proof. reflexivity. Qed.

Lemma time_time_int_run w :
  time_time_int w = (Ok (Z.quot (w_now w - UNIX_EPOCH) MICROS_PER_SECOND), w).
Proof. reflexivity. Qed.

Lemma datetime_add_ok t d w :
  0 ≤ t + d ≤ DATETIME_MAX → datetime_add t d w = (Ok (t + d), w).
Proof. intros H. unfold datetime_add. by rewrite in_range_datetime. Qed.

(** The synthetic response. *)
Definition simulated_info (user_id : Z) (image_name : string) (lab_id : option Z)
    (w : World) : SpawnInfo :=
  {| si_simulated := true;
     si_container_id :=
       SimId user_id (Z.quot (w_now w - UNIX_EPOCH) MICROS_PER_SECOND);
     si_container_name := "simulated_lab_" +:+ pretty user_id;
     si_ip := "10.10.10.5";
     si_port := PORT_RANGE_START
                + hd 0 (w_random w) mod (PORT_RANGE_END - PORT_RANGE_START + 1);
     si_internal_port := 80;
     si_image := image_name;
     si_user_id := user_id;
     si_lab_id := lab_id;
     si_started_at := w_now w;
     si_expires_at := w_now w + minutes 120;
     si_timeout_minutes := 120 |}.

Lemma simulate_spawn_run user_id image_name lab_id w :
  0 ≤ w_now w → w_now w + minutes 120 ≤ DATETIME_MAX →
  ∃ rnd, _simulate_spawn user_id image_name lab_id w
         = (Ok (SpawnSuccess (simulated_info user_id image_name lab_id w)),
            set_random rnd w).
Proof.
  intros H0 Hmax. exists (tl (w_random w)). unfold _simulate_spawn, randint.
  unfold bind at 1. rewrite (bind_ok _ _ _ _ _ (raw_draw_head w)). unfold ret at 1.
  rewrite (bind_ok _ _ _ _ _ (time_time_int_run _)).
  rewrite (bind_ok _ _ _ _ _ (utcnow_run _)).
  rewrite (bind_ok _ _ _ _ _ (utcnow_run _)).
  unfold bind at 1.
  change (timedelta_minutes 120 (set_random (tl (w_random w)) w))
    with (@Ok Z (minutes 120), set_random (tl (w_random w)) w).
  cbv iota beta.
  assert (Hin : 0 ≤ w_now (set_random (tl (w_random w)) w) + minutes 120 ≤ DATETIME_MAX).
  { change (w_now (set_random (tl (w_random w)) w)) with (w_now w).
    unfold minutes, MICROS_PER_MINUTE, MICROS_PER_SECOND in *. lia. }
  rewrite (bind_ok _ _ _ _ _ (datetime_add_ok _ _ _ Hin)). reflexivity.
Qed.

(** C8, as amended: in simulation mode, with the clock reading a
    datetime at least two hours before the last one Python can represent,
    Spawn returns, without raising, a synthetic response flagged
    [simulated] whose port lies in the inclusive range 20000-30000, and
    registers nothing: the world after differs from the world before in
    the log and the random source only, and a Status query still finds no
    instance.  The response is not a function of the arguments: its port
    is the next draw of the random source. *)
Theorem spawn_simulated fuel user_id image_name lab_id cport timeout w :
  simulation_mode w →
  0 ≤ w_now w → w_now w + minutes 120 ≤ DATETIME_MAX →
  ∃ info w',
    spawn_lab_container (S fuel) user_id image_name lab_id cport timeout w
    = Some (Ok (SpawnSuccess info), w')
    ∧ si_simulated info = true
    ∧ PORT_RANGE_START ≤ si_port info ≤ PORT_RANGE_END
    ∧ si_port info
      = PORT_RANGE_START + hd 0 (w_random w) mod (PORT_RANGE_END - PORT_RANGE_START + 1)
    ∧ (si_ip info, si_internal_port info, si_image info, si_user_id info,
       si_lab_id info, si_timeout_minutes info)
      = ("10.10.10.5", 80, image_name, user_id, lab_id, 120)
    ∧ sans_log (sans_random w') = sans_log (sans_random w)
    ∧ fst (get_user_active_lab user_id w') = Ok None.
Proof.
  intros Hsim H0 Hmax. pose proof Hsim as [Hav Hr].
  cbn [spawn_lab_container]. rewrite (spawn_enter_simulation _ _ _ Hsim).
  rewrite log_run.
  match goal with
  | |- context [_simulate_spawn _ _ _ ?w0] =>
      destruct (simulate_spawn_run user_id image_name lab_id w0 H0 Hmax) as [rnd ->]
  end.
  change (simulated_info user_id image_name lab_id _)
    with (simulated_info user_id image_name lab_id w).
  eexists _, _. split; [reflexivity|].
  unfold simulated_info.
  cbn [si_simulated si_port si_started_at si_expires_at si_ip si_internal_port
       si_image si_user_id si_lab_id si_timeout_minutes].
  repeat split.
  - unfold PORT_RANGE_START, PORT_RANGE_END.
    pose proof (Z.mod_pos_bound (hd 0 (w_random w)) (30000 - 20000 + 1) ltac:(lia)).
    lia.
  - unfold PORT_RANGE_START, PORT_RANGE_END.
    pose proof (Z.mod_pos_bound (hd 0 (w_random w)) (30000 - 20000 + 1) ltac:(lia)).
    lia.
  - unfold get_user_active_lab, bind at 1, get_world.
    match goal with
    | |- context [negb (w_docker_available ?w0)] =>
        change (w_docker_available w0) with (w_docker_available w)
    end.
    by rewrite Hav.
Qed.

(** The manager was built while Docker was down, and Docker is still
    down. *)
Definition w_offline : World :=
  {| w_docker_available := false; w_log := []; w_cleanup_thread := false;
     w_reachable := false;
     w_containers := []; w_next_id := 1; w_images := sample_images;
     w_kill_fails := []; w_stop_fails := []; w_remove_fails := [];
     w_bound_ports := []; w_host_ip := "192.168.1.10"; w_now := NOON;
     w_random := [0; 1] |}.

(** The manager was built while Docker was up; Docker went down since. *)
Definition w_lost : World :=
  {| w_docker_available := true; w_log := []; w_cleanup_thread := true;
     w_reachable := false;
     w_containers := []; w_next_id := 1; w_images := sample_images;
     w_kill_fails := []; w_stop_fails := []; w_remove_fails := [];
     w_bound_ports := []; w_host_ip := "192.168.1.10"; w_now := NOON;
     w_random := [0; 1] |}.

Lemma spawn_simulated_witness :
  ∃ info w',
    spawn_lab_container 1 42 SQLI_IMAGE (Some 7) 80 120 w_offline
    = Some (Ok (SpawnSuccess info), w')
    ∧ si_simulated info = true
    ∧ si_port info = 20000
    ∧ sans_log (sans_random w') = sans_log (sans_random w_offline).
Proof.
  destruct (spawn_simulated 0 42 SQLI_IMAGE (Some 7) 80 120 w_offline)
    as (info & w' & Hrun & Hsim & _ & Hport & _ & Hsame & _).
  - split; reflexivity.
  - by_compute.
  - by_compute.
  - exists info, w'. split; [exact Hrun|]. split; [exact Hsim|].
    split; [exact Hport | exact Hsame].
Defined.

(** C8 as stated fails twice.  Two Spawn calls with the same arguments,
    one after the other in simulation mode, answer different ports; and
    when the runtime stops answering after the manager has recorded it as
    available, Spawn does not simulate: it answers UNKNOWN_ERROR. *)
Lemma spawn_simulated_not_deterministic :
  match spawn_lab_container 1 42 SQLI_IMAGE (Some 7) 80 120 w_offline with
  | Some (Ok (SpawnSuccess info1), w1) =>
      match spawn_lab_container 1 42 SQLI_IMAGE (Some 7) 80 120 w1 with
      | Some (Ok (SpawnSuccess info2), _) =>
          si_port info1 = 20000 ∧ si_port info2 = 20001
          ∧ SpawnSuccess info1 ≠ SpawnSuccess info2
      | _ => False
      end
  | _ => False
  end
  ∧ match spawn_lab_container 1 42 SQLI_IMAGE (Some 7) 80 120 w_lost with
    | Some (Ok (SpawnFailure code _ _), _) => code = "UNKNOWN_ERROR"
    | _ => False
    end.
Proof. vm_compute. repeat split; try done. Qed.

(** ** C9: Kill on any runtime that answers *)

Lemma container_kill_inv c w r w' :
  container_kill c w = (r, w') →
  (r = Ok tt ∧ w' = set_containers (mark_exited (c_id c) (w_containers w)) w)
  ∨ (∃ e, r = Raise e ∧ w' = w).
Proof.
  unfold container_kill, bind at 1, require_reachable.
  destruct (w_reachable w); [|intros H; injection H as <- <-; by eauto].
  unfold bind at 1, get_world. destruct (bool_decide _).
  { intros H; injection H as <- <-; by eauto. }
  destruct (find_container (c_id c) w) as [c'|]; [destruct (is_running c')|];
    intros H; injection H as <- <-; by eauto.
Qed.

Lemma container_stop_inv c w r w' :
  container_stop c w = (r, w') →
  (r = Ok tt ∧ w' = set_containers (mark_exited (c_id c) (w_containers w)) w)
  ∨ (∃ e, r = Raise e ∧ w' = w).
Proof.
  unfold container_stop, bind at 1, require_reachable.
  destruct (w_reachable w); [|intros H; injection H as <- <-; by eauto].
  unfold bind at 1, get_world. destruct (bool_decide _).
  { intros H; injection H as <- <-; by eauto. }
  destruct (find_container (c_id c) w) as [c'|];
    intros H; injection H as <- <-; by eauto.
Qed.

Lemma container_remove_inv c w r w' :
  container_remove c w = (r, w') →
  (r = Ok tt ∧ w' = set_containers (drop_container (c_id c) (w_containers w)) w
   ∧ c_id c ∈ ids w)
  ∨ (∃ e, r = Raise e ∧ w' = w).
Proof.
  unfold container_remove, bind at 1, require_reachable.
  destruct (w_reachable w); [|intros H; injection H as <- <-; by eauto].
  unfold bind at 1, get_world. destruct (bool_decide _).
  { intros H; injection H as <- <-; by eauto. }
  destruct (find_container (c_id c) w) as [c'|] eqn:Hf;
    intros H; injection H as <- <-; [|by eauto].
  left. repeat split. apply find_container_Some in Hf as [Hin <-].
  apply list_elem_of_fmap. by exists c'.
Qed.

(** One turn of Kill's loop, whatever the runtime does: either the
    container is removed and its id recorded, or an error is recorded and
    the container stays, stopped at most. *)
Lemma kill_one_cases force c acc w r w' :
  kill_one force c acc w = (r, w') →
  (r = Ok (fst acc ++ [c_id c], snd acc)
   ∧ w_containers w' = drop_container (c_id c) (w_containers w)
   ∧ c_id c ∈ ids w)
  ∨ (∃ e, r = Ok (fst acc, snd acc ++ [e])
        ∧ (w_containers w' = w_containers w
           ∨ w_containers w' = mark_exited (c_id c) (w_containers w))).
Proof.
  unfold kill_one, try_except.
  set (stop := if is_running c
               then (if force then container_kill c else container_stop c)
               else ret tt).
  assert (Hstop : ∀ r w1, stop w = (r, w1) →
            (r = Ok tt ∧ (w1 = w ∨ w1 = set_containers (mark_exited (c_id c) (w_containers w)) w))
            ∨ (∃ e, r = Raise e ∧ w1 = w)).
  { intros r0 w1. unfold stop. destruct (is_running c); [destruct force|].
    - intros H. apply container_kill_inv in H as [[-> ->]|(e & -> & ->)]; by eauto.
    - intros H. apply container_stop_inv in H as [[-> ->]|(e & -> & ->)]; by eauto.
    - intros H. injection H as <- <-. by eauto. }
  intros H.
  destruct (stop w) as [r1 w1] eqn:Es.
  destruct (Hstop _ _ eq_refl) as [[-> Hw1]|(e & -> & ->)].
  2:{ rewrite (bind_raise _ _ _ _ _ Es), (bind_ok _ _ _ _ _ (log_run _ _)) in H.
      injection H as <- <-. right. eexists. split; [reflexivity|]. by left. }
  rewrite (bind_ok _ _ _ _ _ Es) in H.
  destruct (container_remove c w1) as [r2 w2] eqn:Er.
  pose proof Er as Er'.
  apply container_remove_inv in Er' as [(-> & -> & Hin)|(e & -> & ->)].
  - rewrite (bind_ok _ _ _ _ _ Er), (bind_ok _ _ _ _ _ (log_run _ _)) in H.
    injection H as <- <-. left.
    split; [reflexivity|]. destruct Hw1 as [->| ->]; simpl.
    + by split.
    + split; [apply drop_mark_exited|]. unfold ids in *. simpl in Hin.
      by rewrite ids_mark_exited in Hin.
  - rewrite (bind_raise _ _ _ _ _ Er), (bind_ok _ _ _ _ _ (log_run _ _)) in H.
    injection H as <- <-. right. eexists. split; [reflexivity|].
    destruct Hw1 as [->| ->]; simpl; by eauto.
Qed.

Lemma length_drop_container cid cs :
  NoDup (map c_id cs) → cid ∈ map c_id cs →
  (length (drop_container cid cs) + 1 = length cs)%nat.
Proof.
  unfold drop_container. induction cs as [|d cs IH]; simpl.
  - intros _ H. by apply elem_of_nil in H.
  - intros Hnd Hin. apply NoDup_cons in Hnd as [Hd Hnd].
    destruct (c_id d =? cid) eqn:E; simpl.
    + apply Z.eqb_eq in E. subst cid.
      assert (Hall : List.filter (fun c => negb (c_id c =? c_id d)) cs = cs); [|rewrite Hall; lia].
      clear IH Hin Hnd. induction cs as [|x cs IH]; simpl; [done|].
      destruct (c_id x =? c_id d) eqn:Ex; simpl.
      * exfalso. apply Hd. apply Z.eqb_eq in Ex. rewrite <- Ex. by left.
      * f_equal. apply IH. intros Hin. apply Hd. by right.
    + apply elem_of_cons in Hin as [Heq|Hin].
      * apply Z.eqb_neq in E. congruence.
      * specialize (IH Hnd Hin). lia.
Qed.

Lemma elem_of_drop_container cid cs d :
  d ∈ drop_container cid cs ↔ d ∈ cs ∧ c_id d ≠ cid.
Proof.
  unfold drop_container. rewrite list_elem_of_In, filter_In, <- list_elem_of_In.
  rewrite negb_true_iff, Z.eqb_neq. done.
Qed.

Lemma elem_of_mark_exited cid cs d :
  d ∈ mark_exited cid cs →
  ∃ d0, d0 ∈ cs ∧ c_id d0 = c_id d ∧ c_labels d0 = c_labels d.
Proof.
  unfold mark_exited. intros Hd. apply list_elem_of_fmap in Hd as (d0 & -> & Hd0).
  exists d0. split; [done|]. by destruct (c_id d0 =? cid).
Qed.

Lemma elem_of_mark_exited_other cid cs d :
  d ∈ cs → c_id d ≠ cid → d ∈ mark_exited cid cs.
Proof.
  intros Hd Hne. unfold mark_exited. apply list_elem_of_fmap. exists d.
  split; [|done]. apply Z.eqb_neq in Hne. by rewrite Hne.
Qed.

(** What one turn of a loop over containers may do to the listing: ids
    stay unique, containers with another id are untouched, and what is
    left still carries the id and the labels it had. *)
Definition touches_only (cid : Z) (cs cs1 : list Container) : Prop :=
  NoDup (map c_id cs1)
  ∧ (∀ d, d ∈ cs → c_id d ≠ cid → d ∈ cs1)
  ∧ (∀ d', d' ∈ cs1 → ∃ d, d ∈ cs ∧ c_id d = c_id d' ∧ c_labels d = c_labels d').

Lemma touches_only_same cid cs : NoDup (map c_id cs) → touches_only cid cs cs.
Proof. intros Hnd. repeat split; [done | done | by eauto]. Qed.

Lemma touches_only_drop cid cs :
  NoDup (map c_id cs) → touches_only cid cs (drop_container cid cs).
Proof.
  intros Hnd. repeat split.
  - by apply map_filter_NoDup.
  - intros d Hd Hne. by apply elem_of_drop_container.
  - intros d' Hd'. apply elem_of_drop_container in Hd' as [Hd' _]. by eauto.
Qed.

Lemma touches_only_exited cid cs :
  NoDup (map c_id cs) → touches_only cid cs (mark_exited cid cs).
Proof.
  intros Hnd. repeat split.
  - by rewrite ids_mark_exited.
  - intros d Hd Hne. by apply elem_of_mark_exited_other.
  - intros d' Hd'. by apply elem_of_mark_exited in Hd'.
Qed.

Lemma kill_loop force L : ∀ w acc r w',
  NoDup (ids w) → NoDup (map c_id L) → (∀ c, c ∈ L → c_id c ∈ ids w) →
  for_each L (kill_one force) acc w = (r, w') →
  ∃ killed errs,
    r = Ok (fst acc ++ killed, snd acc ++ errs)
    ∧ NoDup (ids w')
    ∧ (length (w_containers w') + length killed = length (w_containers w))%nat
    ∧ (∀ d, d ∈ w_containers w → c_id d ∉ map c_id L → d ∈ w_containers w')
    ∧ (∀ d', d' ∈ w_containers w' →
             ∃ d, d ∈ w_containers w ∧ c_id d = c_id d' ∧ c_labels d = c_labels d')
    ∧ (errs = [] → ∀ c, c ∈ L → c_id c ∉ ids w')
    ∧ (errs ≠ [] → ∃ c, c ∈ L ∧ c_id c ∈ ids w').
Proof.
  induction L as [|c L IH]; intros w acc r w' Hnd HndL Hin H; simpl in H.
  - injection H as <- <-. exists [], []. rewrite !app_nil_r.
    repeat split; try done.
    + by destruct acc.
    + by eauto.
    + intros _ c Hc. by apply elem_of_nil in Hc.
  - apply NoDup_cons in HndL as [Hc HndL].
    destruct (kill_one force c acc w) as [r1 w1] eqn:E1.
    pose proof (kill_one_cases _ _ _ _ _ _ E1) as Hcases.
    assert (Hstep : ∃ acc1, r1 = Ok acc1
              ∧ touches_only (c_id c) (w_containers w) (w_containers w1)
              ∧ ((acc1 = (fst acc ++ [c_id c], snd acc)
                  ∧ (length (w_containers w1) + 1 = length (w_containers w))%nat
                  ∧ c_id c ∉ ids w1)
                 ∨ (∃ e, acc1 = (fst acc, snd acc ++ [e])
                       ∧ length (w_containers w1) = length (w_containers w)
                       ∧ c_id c ∈ ids w1))).
    { destruct Hcases as [(-> & Hcs & Hid)|(e & -> & Hcs)].
      - eexists. split; [done|]. rewrite Hcs. split; [by apply touches_only_drop|].
        left. split; [done|]. split; [by apply length_drop_container|].
        unfold ids. rewrite Hcs. intros Hx. apply list_elem_of_fmap in Hx as (d & Hd & Hx).
        apply elem_of_drop_container in Hx as [_ Hx]. congruence.
      - eexists. split; [done|].
        assert (Hidc : c_id c ∈ ids w) by (apply Hin; by left).
        assert (Hids1 : ids w1 = ids w).
        { unfold ids. destruct Hcs as [-> | ->]; [done | apply ids_mark_exited]. }
        split.
        { destruct Hcs as [-> | ->];
            [by apply touches_only_same | by apply touches_only_exited]. }
        right. exists e. split; [done|]. split; [|by rewrite Hids1].
        destruct Hcs as [-> | ->]; [done|]. unfold mark_exited. by rewrite length_map. }
    destruct Hstep as (acc1 & -> & (Hnd1 & Hkeep1 & Hfrom1) & Hres).
    rewrite (bind_ok _ _ _ _ _ E1) in H.
    apply IH in H as (killed & errs & -> & Hnd' & Hlen & Hkeep & Hfrom & Hall & Hsome);
      [|done|done|].
    2:{ intros c' Hc'. assert (Hne : c_id c' ≠ c_id c).
        { intros Heq. apply Hc. rewrite <- Heq. apply list_elem_of_fmap. by exists c'. }
        assert (Hc'w : c_id c' ∈ ids w) by (apply Hin; by right).
        apply list_elem_of_fmap in Hc'w as (d & Hd & Hdw).
        apply list_elem_of_fmap. exists d. split; [done|]. apply Hkeep1; [done|congruence]. }
    assert (Hids_sub : ∀ i, i ∈ ids w' → i ∈ ids w1).
    { intros i Hi. apply list_elem_of_fmap in Hi as (d' & -> & Hd').
      destruct (Hfrom d' Hd') as (d & Hd & Hid & _). rewrite <- Hid.
      apply list_elem_of_fmap. by exists d. }
    assert (Hids_keep : ∀ i, i ∈ ids w1 → i ∉ map c_id L → i ∈ ids w').
    { intros i Hi Hni. apply list_elem_of_fmap in Hi as (d & -> & Hd).
      apply list_elem_of_fmap. exists d. split; [done|]. by apply Hkeep. }
    destruct Hres as [(-> & Hlen1 & Hgone)|(e & -> & Hlen1 & Hstays)]; simpl fst; simpl snd.
    + exists (c_id c :: killed), errs. rewrite <- app_assoc. simpl.
      split; [done|]. split; [done|]. split; [lia|]. split; [|split; [|split]].
      * intros d Hd Hnot. apply Hkeep.
        -- apply Hkeep1; [done|]. intros Heq. apply Hnot. rewrite Heq. by left.
        -- intros Hx. apply Hnot. by right.
      * intros d' Hd'. destruct (Hfrom d' Hd') as (d1 & Hd1 & Hid1 & Hl1).
        destruct (Hfrom1 d1 Hd1) as (d & Hd & Hid0 & Hl0). exists d.
        split; [done|]. split; congruence.
      * intros Herrs c' Hc'. apply elem_of_cons in Hc' as [->|Hc'].
        -- intros Hx. by apply Hgone, Hids_sub.
        -- by apply Hall.
      * intros Herrs. destruct (Hsome Herrs) as (c' & Hc' & Hx). exists c'.
        split; [by right | done].
    + exists killed, (e :: errs). rewrite <- app_assoc. simpl.
      split; [done|]. split; [done|]. split; [lia|]. split; [|split; [|split]].
      * intros d Hd Hnot. apply Hkeep.
        -- apply Hkeep1; [done|]. intros Heq. apply Hnot. rewrite Heq. by left.
        -- intros Hx. apply Hnot. by right.
      * intros d' Hd'. destruct (Hfrom d' Hd') as (d1 & Hd1 & Hid1 & Hl1).
        destruct (Hfrom1 d1 Hd1) as (d & Hd & Hid0 & Hl0). exists d.
        split; [done|]. split; congruence.
      * discriminate.
      * intros _. exists c. split; [by left|]. by apply Hids_keep.
Qed.

(** The manager is connected: it holds the runtime to be available, and
    the runtime answers. *)
Definition connected (w : World) : Prop :=
  w_docker_available w = true ∧ w_reachable w = true.

Lemma kill_user_containers_connected user_id force w :
  connected w → NoDup (ids w) →
  ∃ kr w',
    kill_user_containers user_id force w = (Ok kr, w')
    ∧ connected w' ∧ NoDup (ids w')
    ∧ kr_killed_count kr = length (kr_containers kr)
    ∧ (length (w_containers w') + kr_killed_count kr = length (w_containers w))%nat
    ∧ (kr_success kr = true ↔ ∀ c, c ∈ w_containers w' → tagged user_id c = false)
    ∧ (∀ d, d ∈ w_containers w → tagged user_id d = false → d ∈ w_containers w')
    ∧ (List.filter (tagged user_id) (w_containers w) = [] →
       kr_killed_count kr = 0%nat ∧ kr_success kr = true
       ∧ w_containers w' = w_containers w).
Proof.
  intros [Hav Hr] Hnd.
  set (w0 := set_log (LogKilling user_id :: w_log w) w).
  set (L := List.filter (matches true (user_filter user_id None)) (w_containers w)).
  assert (HL : L = List.filter (tagged user_id) (w_containers w)).
  { apply filter_ext. intros c. apply matches_user_filter. }
  destruct (for_each L (kill_one force) ([], []) w0) as [r1 w1] eqn:Hloop.
  pose proof Hloop as Hinv.
  apply kill_loop in Hinv
    as (killed & errs & -> & Hnd1 & Hlen & Hkeep & Hfrom & Hall & Hsome); [|done| |].
  2:{ by apply map_filter_NoDup. }
  2:{ intros c Hc. apply list_elem_of_In, filter_In in Hc as [Hc _].
      apply list_elem_of_fmap. exists c. split; [done | by apply list_elem_of_In]. }
  simpl in Hloop.
  assert (Hrun : kill_user_containers user_id force w
                 = (Ok {| kr_success := bool_decide (length errs = 0%nat);
                          kr_killed_count := length killed;
                          kr_containers := killed;
                          kr_errors := none_if_empty errs;
                          kr_error := None;
                          kr_message :=
                            match killed with
                            | [] => "No active containers found"
                            | _ => "Killed " +:+ pretty (length killed) +:+ " container(s)"
                            end |},
                    set_log (LogCleanupComplete user_id (length killed) :: w_log w1) w1)).
  { unfold kill_user_containers.
    rewrite (bind_ok _ _ _ _ _ (log_run _ w)). fold w0.
    unfold bind at 1, get_world.
    change (w_docker_available w0) with (w_docker_available w). rewrite Hav.
    cbn [negb].
    erewrite try_ok; [reflexivity|].
    erewrite bind_ok by (apply containers_list_ok, Hr).
    change (w_containers w0) with (w_containers w). fold L.
    rewrite (bind_ok _ _ _ _ _ Hloop). cbv beta iota.
    rewrite (bind_ok _ _ _ _ _ (log_run _ _)). reflexivity. }
  frame (keeps_kill_user_containers (eq_on w_reachable)) in Hrun as Hre.
  frame (keeps_kill_user_containers (eq_on w_docker_available)) in Hrun as Hav'.
  eexists _, _. split; [exact Hrun|].
  change (w_containers w0) with (w_containers w) in *.
  change (ids w0) with (ids w) in *.
  assert (Htagged : ∀ c, c ∈ L ↔ c ∈ w_containers w ∧ tagged user_id c = true).
  { intros c. rewrite HL, list_elem_of_In, filter_In, <- list_elem_of_In. done. }
  cbn [kr_success kr_killed_count kr_containers w_containers set_log].
  split; [|split; [done|]; split; [done|]; split; [exact Hlen|]; split; [|split]].
  - split; [by rewrite Hav', Hav | by rewrite Hre, Hr].
  - destruct errs as [|e errs]; simpl; split; try done.
    + intros _ d' Hd'. destruct (tagged user_id d') eqn:Ht; [|done].
      destruct (Hfrom d' Hd') as (d & Hd & Hid & Hlab).
      exfalso. apply (Hall eq_refl d).
      * apply Htagged. split; [done|]. unfold tagged in *. by rewrite Hlab.
      * rewrite Hid. apply list_elem_of_fmap. by exists d'.
    + intros Hnone. destruct (Hsome ltac:(done)) as (c & Hc & Hin).
      apply Htagged in Hc as [Hc Ht].
      apply list_elem_of_fmap in Hin as (d' & Hid & Hd').
      destruct (Hfrom d' Hd') as (d & Hd & Hid' & Hlab).
      assert (d = c) as ->.
      { apply list_elem_of_lookup in Hd as [i Hi], Hc as [j Hj].
        assert (i = j) as ->; [|congruence].
        apply (NoDup_lookup (ids w) i j (c_id c) Hnd); unfold ids;
          rewrite list_lookup_fmap; [rewrite Hi | rewrite Hj]; simpl; congruence. }
      specialize (Hnone d' Hd'). unfold tagged in *. rewrite <- Hlab in Hnone. congruence.
  - intros d Hd Ht. apply Hkeep; [done|]. intros Hx.
    apply list_elem_of_fmap in Hx as (c & Hid & Hc). apply Htagged in Hc as [Hc Htc].
    assert (d = c) as ->; [|congruence].
    apply list_elem_of_lookup in Hd as [i Hi], Hc as [j Hj].
    assert (i = j) as ->; [|congruence].
    apply (NoDup_lookup (ids w) i j (c_id c) Hnd); unfold ids;
      rewrite list_lookup_fmap; [rewrite Hi | rewrite Hj]; simpl; congruence.
  - intros Hempty. rewrite <- HL in Hempty. rewrite Hempty in Hloop. simpl in Hloop.
    injection Hloop as <- <- <-. done.
Qed.

Lemma filter_none_in {A} (p : A → bool) (l : list A) :
  (∀ a, a ∈ l → p a = false) → List.filter p l = [].
Proof.
  induction l as [|a l IH]; simpl; intros Hp; [done|].
  rewrite (Hp a) by (by left). apply IH. intros b Hb. apply Hp. by right.
Qed.

(** C9, as amended: with the manager connected and container ids
    unique, Kill returns a result in which [killed_count] is the number of
    containers
    that left the runtime, and [success] is true exactly when no container
    with the owner's label is left, that is when every matched instance
    was removed; containers of other owners are untouched.  For an owner
    with no container it answers [killed_count = 0] and [success = true]
    and removes nothing; so a Kill that follows a Kill that succeeded
    answers [killed_count = 0] and [success = true]. *)
Theorem kill_counts_removals user_id force w :
  connected w → NoDup (ids w) →
  ∃ kr w',
    kill_user_containers user_id force w = (Ok kr, w')
    ∧ (List.filter (tagged user_id) (w_containers w) = [] →
       kr_killed_count kr = 0%nat ∧ kr_success kr = true
       ∧ w_containers w' = w_containers w)
    ∧ (kr_success kr = true ↔ ∀ c, c ∈ w_containers w' → tagged user_id c = false)
    ∧ kr_killed_count kr = length (kr_containers kr)
    ∧ (length (w_containers w') + kr_killed_count kr = length (w_containers w))%nat
    ∧ (∀ d, d ∈ w_containers w → tagged user_id d = false → d ∈ w_containers w')
    ∧ (kr_success kr = true →
       ∃ kr2 w2, kill_user_containers user_id force w' = (Ok kr2, w2)
               ∧ kr_killed_count kr2 = 0%nat ∧ kr_success kr2 = true).
Proof.
  intros Hc Hnd.
  destruct (kill_user_containers_connected user_id force w Hc Hnd)
    as (kr & w' & Hrun & Hc' & Hnd' & Hcount & Hlen & Hsucc & Hother & Hnone).
  exists kr, w'.
  split; [exact Hrun|]. split; [exact Hnone|]. split; [exact Hsucc|].
  split; [exact Hcount|]. split; [exact Hlen|]. split; [exact Hother|].
  intros Hok.
  destruct (kill_user_containers_connected user_id force w' Hc' Hnd')
    as (kr2 & w2 & Hrun2 & _ & _ & _ & _ & _ & _ & Hnone2).
  exists kr2, w2. split; [exact Hrun2|].
  destruct Hnone2 as (H0 & H1 & _); [|done].
  apply filter_none_in. by apply Hsucc.
Qed.

(** Owner 42 has two instances; the runtime refuses to remove the older
    one. *)
Definition w_stubborn : World :=
  {| w_docker_available := true; w_log := []; w_cleanup_thread := true;
     w_reachable := true;
     w_containers :=
       [ sample_instance 3 42 "running" (NOON - minutes 5) (NOON + minutes 115) 20003;
         sample_instance 2 42 "running" (NOON - minutes 30) (NOON + minutes 90) 20002;
         sample_instance 1 7 "running" (NOON - minutes 10) (NOON + minutes 110) 20001 ];
     w_next_id := 4; w_images := sample_images;
     w_kill_fails := []; w_stop_fails := []; w_remove_fails := [2];
     w_bound_ports := []; w_host_ip := "192.168.1.10"; w_now := NOON;
     w_random := [] |}.

Lemma kill_counts_removals_witness :
  ∃ kr w',
    kill_user_containers 42 true w_stubborn = (Ok kr, w')
    ∧ (kr_success kr = true ↔ ∀ c, c ∈ w_containers w' → tagged 42 c = false)
    ∧ (length (w_containers w') + kr_killed_count kr = 3)%nat.
Proof.
  destruct (kill_counts_removals 42 true w_stubborn)
    as (kr & w' & Hrun & _ & Hsucc & _ & Hlen & _).
  - split; reflexivity.
  - by_compute.
  - exists kr, w'. split; [exact Hrun|]. split; [exact Hsucc | exact Hlen].
Defined.

(** On that runtime Kill removes one container of two and says so. *)
Example kill_partial_failure :
  match kill_user_containers 42 true w_stubborn with
  | (Ok kr, w') =>
      kr_success kr = false ∧ kr_killed_count kr = 1%nat ∧ kr_containers kr = [3]
      ∧ map c_id (w_containers w') = [2; 1]
  | _ => False
  end.
Proof. vm_compute. by repeat split. Qed.

(** The manager was built while Docker was down; Docker is up now, with
    the two instances of the sample runtime. *)
Definition w_late : World :=
  set_cleanup_thread false (set_docker_available false w_sample).

(** C9 as stated fails when the manager is not connected.  With the
    flag unset Kill does not look at the runtime: it reports success with
    nothing killed while the owner's instance keeps running.  With the flag
    set and a runtime that does not answer, Kill for an owner who has no
    container reports a failure. *)
Lemma kill_reports_unconnected :
  match kill_user_containers 42 true w_late with
  | (Ok kr, w') =>
      kr_success kr = true ∧ kr_killed_count kr = 0%nat
      ∧ map c_id (running_instances 42 w') = [2]
  | _ => False
  end
  ∧ List.filter (tagged 42) (w_containers w_lost) = []
  ∧ match kill_user_containers 42 true w_lost with
    | (Ok kr, _) => kr_success kr = false ∧ kr_killed_count kr = 0%nat
    | _ => False
    end.
Proof. vm_compute. by repeat split. Qed.

(** ** C10: the stale sweep against the default timeout *)

Definition CREATED_FILTER : Filters :=
  {| f_label := LABEL_CREATED_AT; f_label_value := None; f_status := None |}.

Lemma stale_matches now m c :
  stale now m c = true → matches true CREATED_FILTER c = true.
Proof.
  unfold stale, matches, CREATED_FILTER; simpl.
  by destruct (c_labels c !! LABEL_CREATED_AT).
Qed.

(** On a runtime that cooperates the stale sweep removes exactly the
    instances older than the ceiling. *)
Lemma cleanup_stale_containers_healthy m w :
  w_docker_available w = true → healthy w → NoDup (ids w) →
  ∃ r l, cleanup_stale_containers m w
         = (Ok r, upd l (List.filter (fun c => negb (stale (w_now w) m c))
                           (w_containers w)) w)
       ∧ sr_success r = true.
Proof.
  intros Hav Hh Hnd.
  set (now := w_now w).
  set (L := List.filter (matches true CREATED_FILTER) (w_containers w)).
  destruct (for_each_sweep (stale_one now m) (stale now m)
              (fun c cleaned => if stale now m c then cleaned ++ [c_id c] else cleaned)
              (stale_one_healthy now m) L w []) as [l Hl]; try done.
  { intros c Hc. apply list_elem_of_In, filter_In in Hc as [Hc _].
    by apply list_elem_of_In. }
  { by apply map_filter_NoDup. }
  assert (Hrem : remaining (stale now m) L (w_containers w)
                 = List.filter (fun c => negb (stale now m c)) (w_containers w)).
  { unfold L. rewrite remaining_filter by done. apply filter_ext. intros c.
    destruct (stale now m c) eqn:E; [|by rewrite andb_false_r].
    by rewrite (stale_matches now m c E). }
  rewrite Hrem in Hl.
  unfold cleanup_stale_containers, bind at 1, get_world. rewrite Hav. cbn [negb].
  destruct (fold_left _ L []) as [|x removed].
  - exists {| sr_success := true; sr_cleaned := Some 0%nat; sr_error := None |}, l.
    split; [|done]. erewrite try_ok; [reflexivity|].
    rewrite (bind_ok _ _ _ _ _ (containers_list_ok _ _ _ (proj1 Hh))).
    unfold bind at 1, utcnow. fold now. fold CREATED_FILTER. fold L.
    rewrite (bind_ok _ _ _ _ _ Hl). reflexivity.
  - eexists _, _. split; [|shelve]. erewrite try_ok; [reflexivity|].
    rewrite (bind_ok _ _ _ _ _ (containers_list_ok _ _ _ (proj1 Hh))).
    unfold bind at 1, utcnow. fold now. fold CREATED_FILTER. fold L.
    rewrite (bind_ok _ _ _ _ _ Hl).
    rewrite (bind_ok _ _ _ _ _ (log_run _ _)). reflexivity.
    Unshelve. done.
Qed.

Lemma run_cleanup_once_healthy w :
  w_docker_available w = true → healthy w → NoDup (ids w) →
  ∃ l, run_cleanup_once w
       = (Ok tt,
          set_now (w_now w + seconds CLEANUP_PERIOD_SECONDS)
            (upd l (List.filter
                      (fun c => negb (stale (w_now w) STALE_MAX_AGE_MINUTES c))
                      (w_containers w)) w)).
Proof.
  intros Hav Hh Hnd.
  destruct (cleanup_stale_containers_healthy STALE_MAX_AGE_MINUTES w Hav Hh Hnd)
    as (r & l & Hrun & _).
  exists l. unfold run_cleanup_once, bind at 1.
  erewrite try_ok.
  2:{ unfold bind at 1, get_world. rewrite Hav.
      rewrite (bind_ok _ _ _ _ _ Hrun). reflexivity. }
  reflexivity.
Qed.

(** The containers left after [n] turns of the background loop, the
    first at time [now]. *)
Fixpoint swept (n : nat) (now : datetime) (cs : list Container) : list Container :=
  match n with
  | O => cs
  | S n' =>
      swept n' (now + seconds CLEANUP_PERIOD_SECONDS)
        (List.filter (fun c => negb (stale now STALE_MAX_AGE_MINUTES c)) cs)
  end.

Lemma run_cleanup_healthy n : ∀ w,
  w_docker_available w = true → healthy w → NoDup (ids w) →
  ∃ l, run_cleanup n w
       = (Ok tt,
          set_now (w_now w + Z.of_nat n * seconds CLEANUP_PERIOD_SECONDS)
            (upd l (swept n (w_now w) (w_containers w)) w)).
Proof.
  induction n as [|n IH]; intros w Hav Hh Hnd.
  - exists (w_log w). simpl. rewrite Z.add_0_r. by destruct w.
  - destruct (run_cleanup_once_healthy w Hav Hh Hnd) as [l1 H1].
    cbn [run_cleanup]. rewrite (bind_ok _ _ _ _ _ H1).
    match goal with
    | |- context [run_cleanup n ?w1] => destruct (IH w1) as [l Hl]
    end.
    + exact Hav.
    + exact Hh.
    + unfold ids. simpl. by apply map_filter_NoDup.
    + exists l. rewrite Hl. f_equal. cbn [swept].
      match goal with
      | |- set_now ?t1 (upd _ ?cs (set_now _ (upd _ _ _))) = _ =>
          change (set_now t1 (upd l cs w) = set_now (w_now w + Z.of_nat (S n)
                    * seconds CLEANUP_PERIOD_SECONDS) (upd l cs w))
      end.
      f_equal. cbn [w_now set_now]. lia.
Qed.

Lemma swept_elem n : ∀ now cs c,
  c ∈ swept n now cs →
  c ∈ cs ∧ ∀ k, (k < n)%nat →
    stale (now + Z.of_nat k * seconds CLEANUP_PERIOD_SECONDS) STALE_MAX_AGE_MINUTES c = false.
Proof.
  induction n as [|n IH]; intros now cs c Hc; simpl in Hc.
  - split; [done|]. lia.
  - apply IH in Hc as [Hc Hk].
    apply list_elem_of_In, filter_In in Hc as [Hc Hnow].
    split; [by apply list_elem_of_In|]. intros k Hlt. destruct k as [|k].
    + rewrite Z.add_0_r. by apply negb_true_iff.
    + specialize (Hk k ltac:(lia)).
      replace (now + Z.of_nat (S k) * seconds CLEANUP_PERIOD_SECONDS)
        with (now + seconds CLEANUP_PERIOD_SECONDS
              + Z.of_nat k * seconds CLEANUP_PERIOD_SECONDS) by lia.
      exact Hk.
Qed.

Lemma spawn_labels_created user_id lab_id created_at expires_at :
  spawn_labels user_id lab_id created_at expires_at !! LABEL_CREATED_AT
  = Some (LTime created_at).
Proof. reflexivity. Qed.

Lemma spawn_labels_expires user_id lab_id created_at expires_at :
  spawn_labels user_id lab_id created_at expires_at !! LABEL_EXPIRES_AT
  = Some (LTime expires_at).
Proof. reflexivity. Qed.

(** The process is left alone: nothing is called for [d] seconds, until
    the next turn of the background loop is due, and then for [n] periods
    of the loop.  The loop takes its turns only if [__init__] started its
    thread. *)
Definition left_alone (d : Z) (n : nat) : M unit :=
  sleep d ;;;
  w <-- get_world ;;
  if w_cleanup_thread w then run_cleanup n
  else sleep (Z.of_nat n * CLEANUP_PERIOD_SECONDS).

(** The number of turns of the background loop after which an instance
    created just before the loop's next turn is sure to be gone. *)
Definition TURNS : nat := 13.

(** What the constructor leaves in a process that had no manager yet:
    the thread runs exactly when Docker answered, and so is the flag
    set. *)
Lemma init_outcome w :
  w_cleanup_thread w = false →
  ∃ l, __init__ w
       = (Ok tt, set_log l (set_cleanup_thread (w_reachable w)
                              (set_docker_available (w_reachable w) w))).
Proof.
  intros Hth. unfold __init__, bind at 1, get_world, ping_ok.
  destruct (w_reachable w) eqn:Hr.
  - eexists. reflexivity.
  - exists (LogSimulationMode :: LogNotAvailable :: w_log w).
    unfold bind, log, modify. f_equal. destruct w. simpl in *. by subst.
Qed.

(** No call of the manager starts the thread or stops it. *)
Lemma spawn_lab_container_thread fuel user_id image_name lab_id cport timeout w r w' :
  spawn_lab_container fuel user_id image_name lab_id cport timeout w = Some (r, w') →
  w_cleanup_thread w' = w_cleanup_thread w.
Proof.
  intros H.
  eapply (keeps_spawn_lab_container (eq_on w_cleanup_thread)) in H; [exact H | frame_side ..].
Qed.

(** C10, as amended: the ceiling of the stale sweep, 60 minutes, is
    below Spawn's default timeout, 120 minutes.  So when the background
    loop runs, that is on a manager built while Docker answered, and the
    runtime cooperates, an instance that Spawn created with the default
    timeout and that is left to the loop alone, whose next turn comes [d]
    seconds after the Spawn, at most one period, has been removed by the
    stale sweep after 13 turns, at a time when the clock is still before
    the expiry its label records, by more than 49 minutes.  Time is the
    model's: the clock moves by the sleeps of the calls only. *)
Theorem stale_sweep_preempts_default_timeout
    fuel user_id image_name lab_id cport w info w1 d :
  healthy w → well_formed w → w_cleanup_thread w = true →
  spawn_lab_container fuel user_id image_name lab_id cport DEFAULT_TIMEOUT_MINUTES w
  = Some (Ok (SpawnSuccess info), w1) →
  0 ≤ d ≤ CLEANUP_PERIOD_SECONDS →
  STALE_MAX_AGE_MINUTES < DEFAULT_TIMEOUT_MINUTES
  ∧ ∃ c expires_at,
      c ∈ w_containers w1
      ∧ si_container_id info = RealId (c_id c)
      ∧ c_labels c !! LABEL_EXPIRES_AT = Some (LTime expires_at)
      ∧ w_now w + minutes DEFAULT_TIMEOUT_MINUTES ≤ expires_at
      ∧ ∃ w2, left_alone d TURNS w1 = (Ok tt, w2)
            ∧ (c_id c ∉ ids w2)
            ∧ w_now w2 + minutes 49 < expires_at.
Proof.
  intros Hh Hwf Hth Hspawn Hd. split; [done|].
  pose proof (spawn_lab_container_well_formed _ _ _ _ _ _ _ _ _ Hspawn Hwf) as [Hnd1 _].
  pose proof (spawn_lab_container_thread _ _ _ _ _ _ _ _ _ Hspawn) as Hth1.
  rewrite Hth in Hth1.
  pose proof (spawn_success_healthy _ _ _ _ _ _ _ _ _ Hh Hwf Hspawn)
    as (c & Hcs & _ & _ & Hlab & Hid & _ & _ & Hnow & Hst & Hav).
  assert (Hh1 : healthy w1) by (by apply (healthy_static w)).
  exists c, (w_now w + minutes DEFAULT_TIMEOUT_MINUTES).
  split; [rewrite Hcs; by left|]. split; [exact Hid|].
  split; [by rewrite Hlab, spawn_labels_expires|]. split; [done|].
  unfold left_alone, bind at 1, sleep, modify.
  set (ws := set_now (w_now w1 + seconds d) w1).
  unfold bind at 1, get_world.
  change (w_cleanup_thread ws) with (w_cleanup_thread w1). rewrite Hth1.
  destruct (run_cleanup_healthy TURNS ws Hav Hh1 Hnd1) as [l Hl].
  eexists. split; [exact Hl|]. split.
  - intros Hin.
    change (c_id c ∈ map c_id (swept TURNS (w_now ws) (w_containers w1))) in Hin.
    apply list_elem_of_fmap in Hin as (c' & Hid' & Hc').
    pose proof (swept_elem _ _ _ _ Hc') as [Hc'1 Hnot].
    assert (c' = c) as ->.
    { assert (Hcin : c ∈ w_containers w1) by (rewrite Hcs; by left).
      apply list_elem_of_lookup in Hc'1 as [i Hi], Hcin as [j Hj].
      assert (i = j) as ->; [|congruence].
      apply (NoDup_lookup (ids w1) i j (c_id c) Hnd1); unfold ids;
        rewrite list_lookup_fmap; [rewrite Hi | rewrite Hj]; simpl; congruence. }
    specialize (Hnot 12%nat ltac:(unfold TURNS; lia)).
    unfold stale in Hnot. rewrite Hlab, spawn_labels_created in Hnot.
    change (w_now ws) with (w_now w1 + seconds d) in Hnot. rewrite Hnow in Hnot.
    change (Z.of_nat 12) with 12 in Hnot.
    rewrite age_exceeds_true in Hnot; [discriminate| | |];
      unfold seconds, minutes, STALE_MAX_AGE_MINUTES, CLEANUP_PERIOD_SECONDS,
        MICROS_PER_MINUTE, MICROS_PER_SECOND in *; lia.
  - change (w_now (set_now ?t _)) with t.
    change (w_now ws) with (w_now w1 + seconds d). rewrite Hnow.
    change (Z.of_nat TURNS) with 13.
    unfold seconds, minutes, DEFAULT_TIMEOUT_MINUTES, CLEANUP_PERIOD_SECONDS,
      MICROS_PER_MINUTE, MICROS_PER_SECOND in *. lia.
Qed.

(** Owner 42 spawns the sample image with the default timeout on the
    sample runtime, at noon. *)
Definition info_dvwa : SpawnInfo :=
  Eval vm_compute in
    match spawn_lab_container 1 42 "vulnerables/web-dvwa" (Some 7) 80
            DEFAULT_TIMEOUT_MINUTES w_sample with
    | Some (Ok (SpawnSuccess info), _) => info
    | _ => simulated_info 42 "" None w_sample
    end.

Definition w_dvwa : World :=
  Eval vm_compute in
    match spawn_lab_container 1 42 "vulnerables/web-dvwa" (Some 7) 80
            DEFAULT_TIMEOUT_MINUTES w_sample with
    | Some (_, w1) => w1
    | None => w_sample
    end.

(** The process before its manager is built, Docker up; the manager the
    constructor builds there, whose loop runs; and the same Spawn on
    it. *)
Definition w_unbuilt : World :=
  set_cleanup_thread false (set_docker_available false w_sample).

Definition w_built : World :=
  Eval vm_compute in snd (__init__ w_unbuilt).

Definition info_built : SpawnInfo :=
  Eval vm_compute in
    match spawn_lab_container 1 42 "vulnerables/web-dvwa" (Some 7) 80
            DEFAULT_TIMEOUT_MINUTES w_built with
    | Some (Ok (SpawnSuccess info), _) => info
    | _ => simulated_info 42 "" None w_sample
    end.

Definition w_built_spawned : World :=
  Eval vm_compute in
    match spawn_lab_container 1 42 "vulnerables/web-dvwa" (Some 7) 80
            DEFAULT_TIMEOUT_MINUTES w_built with
    | Some (_, w1) => w1
    | None => w_built
    end.

Lemma stale_sweep_preempts_default_timeout_witness :
  __init__ w_unbuilt = (Ok tt, w_built)
  ∧ spawn_lab_container 1 42 "vulnerables/web-dvwa" (Some 7) 80 DEFAULT_TIMEOUT_MINUTES w_built
    = Some (Ok (SpawnSuccess info_built), w_built_spawned)
  ∧ ∃ c expires_at w2,
      c ∈ w_containers w_built_spawned
      ∧ si_container_id info_built = RealId (c_id c)
      ∧ c_labels c !! LABEL_EXPIRES_AT = Some (LTime expires_at)
      ∧ NOON + minutes 120 ≤ expires_at
      ∧ left_alone 300 TURNS w_built_spawned = (Ok tt, w2)
      ∧ (c_id c ∉ ids w2)
      ∧ w_now w2 + minutes 49 < expires_at.
Proof.
  split; [vm_compute; reflexivity|]. split; [vm_compute; reflexivity|].
  destruct (stale_sweep_preempts_default_timeout 1 42 "vulnerables/web-dvwa" (Some 7) 80
              w_built info_built w_built_spawned 300)
    as (_ & c & e & Hc & Hid & Hlab & Hle & w2 & Hrun & Hgone & Htime).
  - by repeat split.
  - split; by_compute.
  - reflexivity.
  - vm_compute. reflexivity.
  - unfold CLEANUP_PERIOD_SECONDS. lia.
  - exists c, e, w2. split; [exact Hc|]. split; [exact Hid|]. split; [exact Hlab|].
    split; [exact Hle|]. split; [exact Hrun|]. split; [exact Hgone | exact Htime].
Defined.

(** C10 as stated fails on a manager built while Docker was down: the
    constructor starts no loop, and nothing starts one later.  Docker
    comes up, Spawn reconnects and creates the instance with the default
    timeout; left alone for the 13 periods after which the loop would have
    removed it, and for 36 periods, past the expiry on its label, the
    instance is still running. *)
Definition w_built_offline : World :=
  Eval vm_compute in snd (__init__ (set_reachable false w_unbuilt)).

Definition w_docker_back : World := set_reachable true w_built_offline.

Lemma no_loop_no_sweep :
  w_docker_available w_built_offline = false
  ∧ w_cleanup_thread w_docker_back = false
  ∧ healthy w_docker_back ∧ well_formed w_docker_back
  ∧ match spawn_lab_container 2 42 "vulnerables/web-dvwa" (Some 7) 80
            DEFAULT_TIMEOUT_MINUTES w_docker_back with
    | Some (Ok (SpawnSuccess info), w1) =>
        si_simulated info = false
        ∧ w_docker_available w1 = true
        ∧ match left_alone 300 TURNS w1, left_alone 300 36 w1 with
          | (Ok tt, w2), (Ok tt, w3) =>
              ∃ c, c ∈ w_containers w2 ∧ c ∈ w_containers w3
                 ∧ si_container_id info = RealId (c_id c)
                 ∧ is_running c = true
                 ∧ c_labels c !! LABEL_EXPIRES_AT = Some (LTime (NOON + minutes 120))
                 ∧ NOON + minutes 120 < w_now w3
          | _, _ => False
          end
    | _ => False
    end.
Proof.
  split; [reflexivity|]. split; [reflexivity|]. split; [by repeat split|].
  split; [split; by_compute|].
  vm_compute. split; [reflexivity|]. split; [reflexivity|].
  eexists. split; [by left|]. split; [by left|]. by repeat split.
Qed.

(** * The rest of the manager

    The methods of [DockerLabManager] that the development above does not
    need, and the admin listing of [api_routes.py] that calls one of
    them. *)

(** ** get_all_active_labs *)

Record LabSummary := {
  ls_container_id : Z;
  ls_user_id : option LabelValue;
  ls_lab_id : option LabelValue;
  ls_created_at : option LabelValue;
  ls_expires_at : option LabelValue;
  ls_status : string;
}.

Definition get_all_active_labs : M (list LabSummary) :=
  w <-- get_world ;;
  if negb (w_docker_available w) then ret []
  else
    try_except
      (containers <-- containers_list false
         {| f_label := LABEL_USER_ID; f_label_value := None;
            f_status := Some "running" |} ;;
       for_each containers
         (fun container labs =>
            let labels := c_labels container in
            ret (labs ++ [{| ls_container_id := c_id container;
                             ls_user_id := labels !! LABEL_USER_ID;
                             ls_lab_id := labels !! LABEL_LAB_ID;
                             ls_created_at := labels !! LABEL_CREATED_AT;
                             ls_expires_at := labels !! LABEL_EXPIRES_AT;
                             ls_status := c_status container |}]))
         [])
      (fun e =>
         log (LogError ("Error getting all labs: " +:+ exc_str e)) ;;;
         ret []).

(** ** The route [GET /api/lab/all] of [api_routes.py]

    [get_lab_manager()] returns the manager (the import of
    [docker_lab_manager] succeeds: the module is there).  The answer is
    built from the listing first and from the property
    [is_docker_available] second; its ["success"] is always [True] and is
    left out. *)

Record AllLabsAnswer := {
  al_count : nat;
  al_labs : list LabSummary;
  al_docker_available : bool;
}.

Definition get_all_labs : M AllLabsAnswer :=
  labs <-- get_all_active_labs ;;
  available <-- is_docker_available ;;
  ret {| al_count := length labs; al_labs := labs; al_docker_available := available |}.

(** ** execute_command and get_container_logs

    What runs inside a container is not the manager's business: the
    runtime's [exec_run] and [logs] are parameters.  The bytes they hand
    back are kept abstract, as label values are: [Utf8 s] is a byte string
    that decodes to [s], [Malformed] one that [decode('utf-8')] rejects
    with [UnicodeDecodeError], a [ValueError]. *)

Inductive Bytes :=
| Utf8 (s : string)
| Malformed.

(** [if b:] for a byte string. *)
Definition bytes_truthy (b : Bytes) : bool :=
  match b with
  | Utf8 s => negb (String.eqb s "")
  | Malformed => true
  end.

Definition decode_utf8 (b : Bytes) : M string :=
  match b with
  | Utf8 s => ret s
  | Malformed => raise (ValueError "'utf-8' codec can't decode bytes")
  end.

(** [x.decode('utf-8') if x else ""], where [x] may be [None]. *)
Definition decode_or_empty (b : option Bytes) : M string :=
  match b with
  | Some b => if bytes_truthy b then decode_utf8 b else ret ""
  | None => ret ""
  end.

(** The [ExecResult] of [exec_run(.., demux=True)]. *)
Record ExecLog := {
  el_exit_code : Z;
  el_stdout : option Bytes;
  el_stderr : option Bytes;
}.

Inductive ExecAnswer :=
| ExecOutput (output : string) (exit_code : Z)     (* "success": True *)
| ExecFailure (error : string).                    (* "success": False *)

Definition NEWLINE : string := String (Ascii.ascii_of_nat 10) "".

Section Inside.
Variable exec_run : Container → list string → M ExecLog.
Variable container_logs : Container → Z → M Bytes.

Definition execute_command (user_id : Z) (command : string) : M ExecAnswer :=
  w <-- get_world ;;
  if negb (w_docker_available w) then
    ret (ExecOutput ("simulated_user@lab:~$ " +:+ command +:+ NEWLINE
                     +:+ "[SIMULATION] Command executed." +:+ NEWLINE) 0)
  else
    try_except
      (lab <-- get_user_active_lab user_id ;;
       match lab with
       | None => ret (ExecFailure "No active lab found")
       | Some lab =>
           container <-- containers_get (li_container_id lab) ;;
           exec_log <-- exec_run container ["/bin/sh"; "-c"; command] ;;
           stdout <-- decode_or_empty (el_stdout exec_log) ;;
           stderr <-- decode_or_empty (el_stderr exec_log) ;;
           ret (ExecOutput (stdout +:+ stderr) (el_exit_code exec_log))
       end)
      (fun e =>
         log (LogError ("Error executing command: " +:+ exc_str e)) ;;;
         ret (ExecFailure (exc_str e))).

Definition get_container_logs (container_id : Z) (tail : Z) : M (option string) :=
  w <-- get_world ;;
  if negb (w_docker_available w) then ret None
  else
    try_except
      (container <-- containers_get container_id ;;
       raw <-- container_logs container tail ;;
       text <-- decode_utf8 raw ;;
       ret (Some text))
      (fun e =>
         log (LogError ("Error getting logs: " +:+ exc_str e)) ;;;
         ret None).
End Inside.

(** ** Calls from outside

    The manager's methods as a caller sees them, one after the other.
    Spawn is given room for one nested call, which is all it ever
    makes.  [CallBackground] stands for turns of the background loop,
    which the process takes only when its thread runs; the properties
    stated over every sequence of calls hold of the sequences the process
    can make. *)

Inductive Call :=
| CallSpawn (user_id : Z) (image_name : string) (lab_id : option Z)
    (container_port timeout_minutes : Z)
| CallKill (user_id : Z) (force : bool)
| CallStatus (user_id : Z)
| CallAllLabs
| CallSweepExpired
| CallSweepStale (max_age_minutes : Z)
| CallExtend (user_id : Z) (additional_minutes : Z)
| CallBackground (turns : nat).

Definition is_spawn (c : Call) : bool :=
  match c with CallSpawn _ _ _ _ _ => true | _ => false end.

(** The world after the call. *)
Definition after (c : Call) (w : World) : World :=
  match c with
  | CallSpawn user_id image_name lab_id container_port timeout_minutes =>
      match spawn_lab_container 2 user_id image_name lab_id container_port
              timeout_minutes w with
      | Some (_, w') => w'
      | None => w
      end
  | CallKill user_id force => snd (kill_user_containers user_id force w)
  | CallStatus user_id => snd (get_user_active_lab user_id w)
  | CallAllLabs => snd (get_all_active_labs w)
  | CallSweepExpired => snd (cleanup_expired_containers w)
  | CallSweepStale max_age_minutes => snd (cleanup_stale_containers max_age_minutes w)
  | CallExtend user_id additional_minutes =>
      snd (extend_lab_timeout user_id additional_minutes w)
  | CallBackground turns => snd (run_cleanup turns w)
  end.

Definition after_all (cs : list Call) (w : World) : World :=
  fold_left (fun w c => after c w) cs w.

(** * Further properties of the manager *)

(** ** Port allocation *)

Lemma port_in_use_set_random rnd w p :
  port_in_use (set_random rnd w) p = port_in_use w p.
Proof. reflexivity. Qed.

(** The scan answers the first free port of its list. *)
Lemma sequential_scan_first ports : ∀ w p w',
  sequential_scan ports w = (Ok (Some p), w') →
  ∃ before after, ports = before ++ p :: after
    ∧ port_in_use w p = false
    ∧ ∀ q, q ∈ before → port_in_use w q = true.
Proof.
  induction ports as [|a ports IH]; intros w p w' H; simpl in H; [done|].
  unfold bind at 1, _is_port_available, bind at 1, get_world, ret at 1 in H.
  destruct (port_in_use w a) eqn:Ha; simpl in H.
  - destruct (IH w p w' H) as (before & after & -> & Hp & Hq).
    exists (a :: before), after. split; [done|]. split; [done|].
    intros q Hin. apply elem_of_cons in Hin as [->|Hin]; [done | by apply Hq].
  - injection H as <- <-. exists [], ports. split; [done|]. split; [done|].
    intros q Hin. by apply elem_of_nil in Hin.
Qed.

Lemma range_from_split n : ∀ a before p after,
  range_from n a = before ++ p :: after → ∀ q, a ≤ q < p → q ∈ before.
Proof.
  induction n as [|n IH]; intros a before p after H q Hq; simpl in H.
  - by destruct before.
  - destruct before as [|b before]; simpl in H; injection H as <- H; [lia|].
    destruct (decide (q = a)) as [->|Hne]; [by left|].
    right. apply (IH (a + 1) before p after H). lia.
Qed.


(** X2: when none of the 100 random probes finds a free port, the port
    returned is the lowest free port of 20000..29999. *)
Theorem find_free_port_lowest w w1 p w2 :
  random_probe 100 w = (Ok None, w1) →
  _find_free_port w = (Ok p, w2) →
  PORT_RANGE_START ≤ p < PORT_RANGE_END
  ∧ port_in_use w p = false
  ∧ ∀ q, PORT_RANGE_START ≤ q < p → port_in_use w q = true.
Proof.
  intros Hprobe Hrun. unfold _find_free_port in Hrun.
  rewrite (bind_ok _ _ _ _ _ Hprobe) in Hrun.
  destruct (random_probe_spec 100 w) as (r & rnd & Hp & _).
  rewrite Hprobe in Hp. injection Hp as _ ->.
  destruct (sequential_scan_spec (range PORT_RANGE_START PORT_RANGE_END) (set_random rnd w))
    as (s & Hs & _).
  rewrite (bind_ok _ _ _ _ _ Hs) in Hrun. destruct s as [p'|]; [|done].
  injection Hrun as -> <-.
  destruct (sequential_scan_first _ _ _ _ Hs) as (before & after & Hsplit & Hfree & Hlow).
  split; [|split].
  - apply elem_of_range. rewrite Hsplit. apply elem_of_app. right. by left.
  - exact Hfree.
  - intros q Hq. apply Hlow. unfold range in Hsplit.
    eapply range_from_split; [exact Hsplit | exact Hq].
Qed.

Definition w_crowded : World :=
  {| w_docker_available := true; w_log := []; w_cleanup_thread := true;
     w_reachable := true;
     w_containers := []; w_next_id := 1; w_images := sample_images;
     w_kill_fails := []; w_stop_fails := []; w_remove_fails := [];
     w_bound_ports := [20000; 20001; 20003]; w_host_ip := "192.168.1.10";
     w_now := NOON; w_random := [1; 10001; 3] |}.

Definition w_crowded_probed : World :=
  Eval vm_compute in snd (random_probe 100 w_crowded).

Lemma find_free_port_lowest_witness :
  _find_free_port w_crowded = (Ok 20002, w_crowded_probed)
  ∧ 20000 ≤ 20002 < 30000
  ∧ port_in_use w_crowded 20002 = false
  ∧ ∀ q, 20000 ≤ q < 20002 → port_in_use w_crowded q = true.
Proof.
  split; [vm_compute; reflexivity|].
  apply (find_free_port_lowest w_crowded w_crowded_probed 20002 w_crowded_probed);
    vm_compute; reflexivity.
Defined.

(** ** No exception leaves the manager *)

(** Whatever the world, the method returns. *)
Definition never_raises {A} (m : M A) : Prop :=
  ∀ w, ∃ a w', m w = (Ok a, w').

Lemma never_raises_guarded {A} (a0 : A) (m : M A) (h : Exception → M A) :
  (∀ e, never_raises (h e)) →
  never_raises (w <-- get_world ;;
                if negb (w_docker_available w) then ret a0 else try_except m h).
Proof.
  intros Hh w. unfold bind at 1, get_world.
  destruct (negb (w_docker_available w)); [by eexists _, _|].
  apply try_except_returns. intros e w1. apply Hh.
Qed.

Lemma never_raises_log_ret {A} r (a : A) : never_raises (log r ;;; ret a).
Proof. intros w. unfold bind. rewrite log_run. by eexists _, _. Qed.

Lemma run_cleanup_once_returns w : ∃ w', run_cleanup_once w = (Ok tt, w').
Proof.
  unfold run_cleanup_once, bind at 1.
  destruct (try_except_returns
              (w0 <-- get_world ;;
               if w_docker_available w0
               then (cleanup_stale_containers STALE_MAX_AGE_MINUTES ;;; ret tt)
               else ret tt)
              (fun e => log (LogError ("Error in background cleanup: " +:+ exc_str e))) w)
    as ([] & w1 & ->).
  { intros e w1. rewrite log_run. by eexists _, _. }
  by eexists.
Qed.

Lemma run_cleanup_returns n : ∀ w, ∃ w', run_cleanup n w = (Ok tt, w').
Proof.
  induction n as [|n IH]; intros w; simpl; [by eexists|].
  destruct (run_cleanup_once_returns w) as [w1 H1].
  rewrite (bind_ok _ _ _ _ _ H1). apply IH.
Qed.

(** X3: Kill, Status, the listing of all labs, both sweeps, Extend, the
    background loop, [execute_command] and [get_container_logs] never
    raise: in every world, whatever the runtime does or refuses, and
    whatever [exec_run] and [logs] do inside the container, they return
    their dictionary, list or [None]. *)
Theorem methods_never_raise :
  (∀ user_id force, never_raises (kill_user_containers user_id force))
  ∧ (∀ user_id, never_raises (get_user_active_lab user_id))
  ∧ never_raises get_all_active_labs
  ∧ never_raises cleanup_expired_containers
  ∧ (∀ max_age, never_raises (cleanup_stale_containers max_age))
  ∧ (∀ user_id extra, never_raises (extend_lab_timeout user_id extra))
  ∧ (∀ turns, never_raises (run_cleanup turns))
  ∧ (∀ exec_run user_id command, never_raises (execute_command exec_run user_id command))
  ∧ (∀ logs cid tail, never_raises (get_container_logs logs cid tail)).
Proof.
  repeat split.
  - intros user_id force w. apply kill_user_containers_returns.
  - intros user_id. apply never_raises_guarded. intros e. apply never_raises_log_ret.
  - apply never_raises_guarded. intros e. apply never_raises_log_ret.
  - apply never_raises_guarded. intros e. apply never_raises_log_ret.
  - intros max_age. apply never_raises_guarded. intros e. apply never_raises_log_ret.
  - intros user_id extra. apply never_raises_guarded. intros e. apply never_raises_log_ret.
  - intros turns w. destruct (run_cleanup_returns turns w) as [w' ->]. by eexists _, _.
  - intros exec_run user_id command. apply never_raises_guarded. intros e.
    apply never_raises_log_ret.
  - intros logs cid tail. apply never_raises_guarded. intros e. apply never_raises_log_ret.
Qed.

(** ** Spawn in parts

    The method cut where the proofs need it: what follows the kill of
    step 1 inside the [try:] block, and what follows the [try:] block. *)

(** Steps 2 to 5. *)
Definition spawn_steps_2_to_5 (user_id : Z) (image_name : string) (lab_id : option Z)
    (container_port timeout_minutes : Z) : M Launched :=
  host_port <-- _find_free_port ;;
  log (LogFoundPort host_port) ;;;
  created_at <-- utcnow ;;
  now <-- utcnow ;;
  td <-- timedelta_minutes timeout_minutes ;;
  label_expires_at <-- datetime_add now td ;;
  let labels := spawn_labels user_id lab_id created_at label_expires_at in
  random_suffix <-- token_hex 4 ;;
  let container_name :=
    "lab_user" +:+ pretty user_id +:+ "_" +:+ lab_id_text lab_id "dev"
    +:+ "_" +:+ random_suffix in
  container <-- containers_run image_name container_name (container_port, host_port) labels ;;
  log (LogStarted (c_id container)) ;;;
  ret {| la_container := container; la_container_name := container_name;
         la_host_port := host_port |}.

(** Steps 2 to 7. *)
Definition spawn_after_kill (user_id : Z) (image_name : string) (lab_id : option Z)
    (container_port timeout_minutes : Z) : M SpawnResult :=
  la <-- spawn_steps_2_to_5 user_id image_name lab_id container_port timeout_minutes ;;
  spawn_settle user_id image_name lab_id container_port timeout_minutes la.

(** The [except] clauses, for the outcome [out] of the [try:] block. *)
Definition spawn_finish (fuel : nat) (user_id : Z) (image_name : string)
    (lab_id : option Z) (container_port timeout_minutes : Z)
    (out : Result SpawnResult * World) : option (Result SpawnResult * World) :=
  match out with
  | (Ok result, w) => Some (Ok result, w)
  | (Raise (ImageNotFound _), w) =>
      let (_, w) := log (LogFallback image_name) w in
      if String.eqb image_name FALLBACK_IMAGE then
        Some (Ok (SpawnFailure "DEFAULT_IMAGE_MISSING" "Default image missing"
                    "System configuration error. Please contact support."), w)
      else
        match spawn_lab_container fuel user_id FALLBACK_IMAGE lab_id
                container_port timeout_minutes w with
        | None => None
        | Some (Ok result, w) => Some (Ok result, w)
        | Some (Raise e, w) =>
            let (_, w) := log (LogError ("Fallback failed: " +:+ exc_str e)) w in
            Some (Ok (SpawnFailure "IMAGE_NOT_FOUND"
                        ("Image " +:+ image_name +:+ " not found and fallback failed.")
                        "Lab image not available. Please contact support."), w)
        end
  | (Raise e, w) => Some (spawn_handle_other e w)
  end.

Lemma spawn_launch_eq user_id image_name lab_id cport timeout :
  spawn_launch user_id image_name lab_id cport timeout
  = (kill_user_containers user_id true ;;;
     spawn_steps_2_to_5 user_id image_name lab_id cport timeout).
Proof. reflexivity. Qed.

Lemma spawn_try_eq user_id image_name lab_id cport timeout w :
  spawn_try user_id image_name lab_id cport timeout w
  = (kill_user_containers user_id true ;;;
     spawn_after_kill user_id image_name lab_id cport timeout) w.
Proof.
  unfold spawn_try, spawn_after_kill. rewrite spawn_launch_eq. unfold bind.
  by destruct (kill_user_containers user_id true w) as [[kr|e] wk].
Qed.

Lemma spawn_lab_container_eq fuel user_id image_name lab_id cport timeout w :
  spawn_lab_container (S fuel) user_id image_name lab_id cport timeout w
  = match spawn_enter user_id image_name w with
    | (Raise e, w) => Some (Raise e, w)
    | (Ok false, w) =>
        let (_, w) := log LogSimulation w in
        Some (_simulate_spawn user_id image_name lab_id w)
    | (Ok true, w) =>
        spawn_finish fuel user_id image_name lab_id cport timeout
          (spawn_try user_id image_name lab_id cport timeout w)
    end.
Proof.
  cbn [spawn_lab_container]. destruct (spawn_enter user_id image_name w) as [[[]|e] w0];
    [|done..].
  unfold spawn_finish.
  by destruct (spawn_try user_id image_name lab_id cport timeout w0) as [[res|e] w1].
Qed.

(** What [spawn_enter] can answer. *)
Lemma spawn_enter_cases user_id image_name w :
  let wl := set_log (LogSpawning user_id image_name :: w_log w) w in
  spawn_enter user_id image_name w
  = if w_docker_available w then (Ok true, wl)
    else if w_reachable w
         then (Ok true, set_log (LogRecovered :: w_log wl) (set_docker_available true wl))
         else (Ok false, wl).
Proof.
  unfold spawn_enter. rewrite (bind_ok _ _ _ _ _ (log_run _ _)).
  unfold bind at 1, get_world.
  set (wl := set_log _ w). change (w_docker_available wl) with (w_docker_available w).
  destruct (w_docker_available w); [done|]. cbn [negb].
  unfold _try_connect_docker, bind at 1, get_world, ping_ok.
  change (w_reachable wl) with (w_reachable w).
  by destruct (w_reachable w).
Qed.

(** ** Spawn returns *)

(** The handlers of a Spawn of the default image make no call. *)
Lemma spawn_finish_default_image fuel user_id lab_id cport timeout out :
  spawn_finish fuel user_id FALLBACK_IMAGE lab_id cport timeout out
  = spawn_finish 0 user_id FALLBACK_IMAGE lab_id cport timeout out.
Proof. destruct out as [[res|e] w]; [done|]. by destruct e. Qed.

Lemma spawn_finish_default_image_returns user_id lab_id cport timeout out :
  ∃ r w', spawn_finish 0 user_id FALLBACK_IMAGE lab_id cport timeout out = Some (Ok r, w').
Proof.
  destruct out as [[res|e] w]; [by eexists _, _|].
  destruct (spawn_handle_other_fails e w) as (code & err & msg & w2 & Hother).
  destruct e; simpl; try (unfold spawn_finish; rewrite Hother; by eexists _, _).
  by eexists _, _.
Qed.

Lemma simulate_spawn_raises user_id image_name lab_id w e w' :
  _simulate_spawn user_id image_name lab_id w = (Raise e, w') →
  datetime_in_range (w_now w + minutes 120) = false.
Proof.
  intros H. unfold _simulate_spawn in H.
  destruct (randint_run PORT_RANGE_START PORT_RANGE_END w) as (x & rnd & Hr).
  rewrite (bind_ok _ _ _ _ _ Hr) in H.
  unfold bind at 1, time_time_int in H. unfold bind at 1, utcnow in H.
  unfold bind at 1, utcnow in H.
  unfold bind at 1, timedelta_minutes in H.
  change (timedelta_in_range (minutes 120)) with true in H. cbv iota in H.
  unfold ret at 1, bind at 1, datetime_add in H.
  change (w_now (set_random rnd w)) with (w_now w) in H.
  by destruct (datetime_in_range (w_now w + minutes 120)).
Qed.

(** A Spawn of the default image returns with no room for a nested
    call. *)
Lemma spawn_default_image_returns fuel user_id lab_id cport timeout w :
  ∃ out, spawn_lab_container 1 user_id FALLBACK_IMAGE lab_id cport timeout w = Some out
       ∧ spawn_lab_container (S fuel) user_id FALLBACK_IMAGE lab_id cport timeout w
         = Some out.
Proof.
  rewrite !spawn_lab_container_eq.
  destruct (spawn_enter user_id FALLBACK_IMAGE w) as [[[]|e] w0]; [|by eexists..].
  rewrite (spawn_finish_default_image fuel).
  destruct (spawn_finish_default_image_returns user_id lab_id cport timeout
              (spawn_try user_id FALLBACK_IMAGE lab_id cport timeout w0))
    as (r & w' & ->).
  by eexists.
Qed.

(** The handlers return, and never with an exception. *)
Lemma spawn_finish_returns fuel user_id image_name lab_id cport timeout out :
  ∃ r w',
    spawn_finish 1 user_id image_name lab_id cport timeout out = Some (Ok r, w')
    ∧ spawn_finish (S fuel) user_id image_name lab_id cport timeout out = Some (Ok r, w').
Proof.
  destruct out as [[res|e] w1]; [by eexists _, _|].
  destruct (spawn_handle_other_fails e w1) as (code & err & msg & w2 & Hother).
  destruct e; try (unfold spawn_finish; rewrite Hother; by eexists _, _).
  unfold spawn_finish. rewrite log_run.
  destruct (String.eqb image_name FALLBACK_IMAGE); [by eexists _, _|].
  match goal with
  | |- context [spawn_lab_container 1 user_id FALLBACK_IMAGE lab_id cport timeout ?w2] =>
      destruct (spawn_default_image_returns fuel user_id lab_id cport timeout w2)
        as ([[res|e] w3] & -> & ->)
  end.
  - by eexists _, _.
  - rewrite log_run. by eexists _, _.
Qed.

(** X4: Spawn returns in every world, with room for one nested call and
    no need for more: the nested call, made for the default image, makes
    none itself.  An exception leaves Spawn in one case only: the manager
    has not recorded the runtime as available, the runtime does not answer,
    and the clock is within two hours of the last datetime Python can
    represent, where the simulated expiry overflows. *)
Theorem spawn_returns fuel user_id image_name lab_id cport timeout w :
  ∃ r w',
    spawn_lab_container 2 user_id image_name lab_id cport timeout w = Some (r, w')
    ∧ spawn_lab_container (S (S fuel)) user_id image_name lab_id cport timeout w
      = Some (r, w')
    ∧ ∀ e, r = Raise e →
        w_docker_available w = false ∧ w_reachable w = false
        ∧ datetime_in_range (w_now w + minutes 120) = false.
Proof.
  rewrite (spawn_lab_container_eq (S fuel)), (spawn_lab_container_eq 1).
  rewrite spawn_enter_cases. cbv zeta.
  set (wl := set_log _ w).
  destruct (w_docker_available w) eqn:Hav; [|destruct (w_reachable w) eqn:Hr].
  - destruct (spawn_finish_returns fuel user_id image_name lab_id cport timeout
                (spawn_try user_id image_name lab_id cport timeout wl))
      as (r & w' & H1 & H2).
    exists (Ok r), w'. by repeat split.
  - match goal with
    | |- context [spawn_try _ _ _ _ _ ?w0] =>
        destruct (spawn_finish_returns fuel user_id image_name lab_id cport timeout
                    (spawn_try user_id image_name lab_id cport timeout w0))
          as (r & w' & H1 & H2)
    end.
    exists (Ok r), w'. by repeat split.
  - rewrite log_run.
    destruct (_simulate_spawn user_id image_name lab_id _) as [r w'] eqn:Hs.
    exists r, w'. split; [done|]. split; [done|].
    intros e ->. split; [done|]. split; [done|].
    by apply simulate_spawn_raises in Hs.
Qed.

(** ** What every call keeps

    The frame lemmas again, for the manager as a whole: a relation that
    the primitive steps respect is respected by every call and by every
    sequence of calls.  The one step that touches the availability flag
    sets it. *)

Section Parts.
Variable R : World → World → Prop.
Variable user_id : Z.
Hypothesis R_refl : ∀ w, R w w.
Hypothesis R_trans : ∀ w1 w2 w3, R w1 w2 → R w2 w3 → R w1 w3.
Hypothesis R_log : ∀ l w, R w (set_log l w).
Hypothesis R_now : ∀ t w, R w (set_now t w).
Hypothesis R_random : ∀ r w, R w (set_random r w).
Hypothesis R_connect : ∀ w, R w (set_docker_available true w).
Hypothesis R_created : ∀ c w,
  c_id c = w_next_id w →
  R w (set_next_id (w_next_id w + 1) (set_containers (c :: w_containers w) w)).
(** The kill of step 1, for this owner. *)
Hypothesis R_kill : respects R (kill_user_containers user_id true).

Lemma parts_try_connect : respects R _try_connect_docker.
Proof using R_refl R_trans R_log R_connect.
  intros w r w' H. unfold _try_connect_docker, bind at 1, get_world in H.
  destruct (ping_ok w).
  - unfold bind, modify in H. rewrite log_run in H. injection H as _ <-.
    eapply R_trans; [apply R_connect | apply R_log].
  - injection H as _ <-. apply R_refl.
Qed.

Lemma parts_is_docker_available : respects R is_docker_available.
Proof using R_refl R_trans R_log R_connect.
  intros w r w' H. unfold is_docker_available, bind at 1, get_world in H.
  destruct (negb (w_docker_available w)).
  - by apply parts_try_connect in H.
  - injection H as _ <-. apply R_refl.
Qed.

Lemma parts_spawn_enter image_name : respects R (spawn_enter user_id image_name).
Proof using R_refl R_trans R_log R_connect.
  intros w r w' H. rewrite spawn_enter_cases in H. cbv zeta in H.
  destruct (w_docker_available w); [|destruct (w_reachable w)]; injection H as _ <-.
  - apply R_log.
  - eapply R_trans; [apply R_log|]. eapply R_trans; [apply R_connect | apply R_log].
  - apply R_log.
Qed.

Lemma parts_steps_2_to_5 image_name lab_id cport timeout :
  respects R (spawn_steps_2_to_5 user_id image_name lab_id cport timeout).
Proof using R_refl R_trans R_log R_random R_created.
  unfold spawn_steps_2_to_5.
  apply keeps_bind; [done | by apply keeps__find_free_port | intros host_port].
  apply keeps_bind; [done | by apply keeps_log | intros _].
  apply keeps_bind; [done | by apply keeps_utcnow | intros created_at].
  apply keeps_bind; [done | by apply keeps_utcnow | intros now].
  apply keeps_bind; [done | by apply keeps_timedelta_minutes | intros td].
  apply keeps_bind; [done | by apply keeps_datetime_add | intros expires].
  apply keeps_bind; [done | by apply keeps_token_hex | intros suffix].
  apply keeps_bind; [done | by apply keeps_containers_run | intros container].
  apply keeps_bind; [done | by apply keeps_log | intros _].
  by apply keeps_ret.
Qed.

Lemma parts_spawn_settle image_name lab_id cport timeout la :
  respects R (spawn_settle user_id image_name lab_id cport timeout la).
Proof using R_refl R_trans R_log R_now.
  unfold spawn_settle.
  apply keeps_bind; [done | by apply keeps__get_host_ip | intros host_ip].
  apply keeps_bind; [done | by apply keeps_sleep | intros _].
  apply keeps_bind; [done | by apply keeps_container_reload | intros container].
  destruct (negb (is_running container)); [by apply keeps_raise|].
  apply keeps_bind; [done | by apply keeps_utcnow | intros now].
  apply keeps_bind; [done | by apply keeps_timedelta_minutes | intros td].
  apply keeps_bind; [done | by apply keeps_datetime_add | intros expires].
  apply keeps_bind; [done | by apply keeps_utcnow | intros started].
  apply keeps_bind; [done | by apply keeps_log | intros _].
  by apply keeps_ret.
Qed.

Lemma parts_spawn_after_kill image_name lab_id cport timeout :
  respects R (spawn_after_kill user_id image_name lab_id cport timeout).
Proof using R_refl R_trans R_log R_now R_random R_created.
  unfold spawn_after_kill.
  apply keeps_bind; [done | apply parts_steps_2_to_5 | intros la].
  apply parts_spawn_settle.
Qed.

Lemma parts_spawn_try image_name lab_id cport timeout :
  respects R (spawn_try user_id image_name lab_id cport timeout).
Proof using R_refl R_trans R_log R_now R_random R_created R_kill.
  intros w r w' H. rewrite spawn_try_eq in H. revert w r w' H.
  apply keeps_bind; [done | done | intros _]. apply parts_spawn_after_kill.
Qed.

Lemma parts_spawn_finish fuel image_name lab_id cport timeout :
  (∀ w r w', spawn_lab_container fuel user_id FALLBACK_IMAGE lab_id cport timeout w
             = Some (r, w') → R w w') →
  ∀ out r w',
    spawn_finish fuel user_id image_name lab_id cport timeout out = Some (r, w') →
    R (snd out) w'.
Proof using R_refl R_trans R_log.
  intros IH [[res|e] w1] r w' H; simpl.
  { injection H as _ <-. apply R_refl. }
  assert (Hother : Some (spawn_handle_other e w1) = Some (r, w') → R w1 w').
  { intros Hs. injection Hs as Hs.
    by apply (keeps_spawn_handle_other R R_refl R_trans R_log) in Hs. }
  destruct e; try by apply Hother.
  unfold spawn_finish in H. rewrite log_run in H.
  destruct (String.eqb image_name FALLBACK_IMAGE).
  { injection H as _ <-. apply R_log. }
  apply (R_trans _ _ _ (R_log (LogFallback image_name :: w_log w1) w1)).
  destruct (spawn_lab_container fuel user_id FALLBACK_IMAGE lab_id cport timeout _)
    as [[[res|e] w3]|] eqn:Hr; [| |done]; apply IH in Hr;
    apply (R_trans _ _ _ Hr); [injection H as _ <-; apply R_refl|].
  rewrite log_run in H. injection H as _ <-. apply R_log.
Qed.

Lemma parts_spawn_lab_container fuel :
  ∀ image_name lab_id cport timeout w r w',
    spawn_lab_container fuel user_id image_name lab_id cport timeout w = Some (r, w') →
    R w w'.
Proof.
  induction fuel as [|fuel IH]; intros image_name lab_id cport timeout w r w' H;
    [done|].
  rewrite spawn_lab_container_eq in H.
  destruct (spawn_enter user_id image_name w) as [[[]|e] w1] eqn:He;
    apply parts_spawn_enter in He; apply (R_trans _ _ _ He); clear He.
  - destruct (spawn_try user_id image_name lab_id cport timeout w1) as [r1 w2] eqn:Ht.
    apply parts_spawn_try in Ht. apply (R_trans _ _ _ Ht).
    eapply (parts_spawn_finish fuel) in H; [exact H|]. intros w0 r0 w0'. apply IH.
  - rewrite log_run in H. injection H as H.
    apply (keeps__simulate_spawn R R_refl R_trans R_random) in H.
    apply (R_trans _ _ _ (R_log (LogSimulation :: w_log w1) w1)). exact H.
  - injection H as _ <-. apply R_refl.
Qed.
End Parts.

Section Calls.
Variable R : World → World → Prop.
Hypothesis R_refl : ∀ w, R w w.
Hypothesis R_trans : ∀ w1 w2 w3, R w1 w2 → R w2 w3 → R w1 w3.
Hypothesis R_log : ∀ l w, R w (set_log l w).
Hypothesis R_now : ∀ t w, R w (set_now t w).
Hypothesis R_random : ∀ r w, R w (set_random r w).
Hypothesis R_connect : ∀ w, R w (set_docker_available true w).
Hypothesis R_exited : ∀ cid w,
  R w (set_containers (mark_exited cid (w_containers w)) w).
Hypothesis R_dropped : ∀ cid w,
  R w (set_containers (drop_container cid (w_containers w)) w).
Hypothesis R_created : ∀ c w,
  c_id c = w_next_id w →
  R w (set_next_id (w_next_id w + 1) (set_containers (c :: w_containers w) w)).

Lemma calls_get_all_active_labs : respects R get_all_active_labs.
Proof using R_refl R_trans R_log.
  unfold get_all_active_labs.
  apply keeps_bind; [done | by apply keeps_get_world | intros w].
  destruct (negb (w_docker_available w)); [by apply keeps_ret|].
  apply keeps_try_except; [done | |].
  - apply keeps_bind; [done | by apply keeps_containers_list | intros cs].
    apply keeps_for_each; [done..|]. intros c labs. by apply keeps_ret.
  - intros e. apply keeps_bind; [done | by apply keeps_log | intros _].
    by apply keeps_ret.
Qed.

Lemma calls_get_all_labs : respects R get_all_labs.
Proof using R_refl R_trans R_log R_connect.
  unfold get_all_labs.
  apply keeps_bind; [done | apply calls_get_all_active_labs | intros labs].
  apply keeps_bind; [done | by apply parts_is_docker_available | intros b].
  by apply keeps_ret.
Qed.

Lemma calls_spawn_lab_container fuel user_id image_name lab_id cport timeout w r w' :
  spawn_lab_container fuel user_id image_name lab_id cport timeout w = Some (r, w') →
  R w w'.
Proof.
  apply (parts_spawn_lab_container R user_id); try done.
  by apply keeps_kill_user_containers.
Qed.

Lemma calls_spawn_finish fuel user_id image_name lab_id cport timeout out r w' :
  spawn_finish fuel user_id image_name lab_id cport timeout out = Some (r, w') →
  R (snd out) w'.
Proof.
  apply (parts_spawn_finish R user_id); try done.
  intros w0 r0 w0'. apply calls_spawn_lab_container.
Qed.

(** Calls that are not Spawn create nothing. *)
Lemma calls_after_other c w : is_spawn c = false → R w (after c w).
Proof using R_refl R_trans R_log R_now R_exited R_dropped.
  intros Hc. destruct c; try discriminate Hc; unfold after.
  - destruct (kill_user_containers user_id force w) as [r w'] eqn:E.
    by apply (keeps_kill_user_containers R) in E.
  - destruct (get_user_active_lab user_id w) as [r w'] eqn:E.
    by apply (keeps_get_user_active_lab R) in E.
  - destruct (get_all_active_labs w) as [r w'] eqn:E.
    by apply calls_get_all_active_labs in E.
  - destruct (cleanup_expired_containers w) as [r w'] eqn:E.
    by apply (keeps_cleanup_expired_containers R) in E.
  - destruct (cleanup_stale_containers max_age_minutes w) as [r w'] eqn:E.
    by apply (keeps_cleanup_stale_containers R) in E.
  - destruct (extend_lab_timeout user_id additional_minutes w) as [r w'] eqn:E.
    by apply (keeps_extend_lab_timeout R) in E.
  - destruct (run_cleanup turns w) as [r w'] eqn:E.
    by apply (keeps_run_cleanup R) in E.
Qed.

Lemma calls_after c w : R w (after c w).
Proof.
  destruct (is_spawn c) eqn:Hc; [|by apply calls_after_other].
  destruct c; try discriminate Hc. unfold after.
  destruct (spawn_lab_container 2 user_id image_name lab_id container_port
              timeout_minutes w) as [[r w']|] eqn:E; [|apply R_refl].
  by apply calls_spawn_lab_container in E.
Qed.

Lemma calls_after_all cs : ∀ w, R w (after_all cs w).
Proof.
  induction cs as [|c cs IH]; intros w; simpl; [apply R_refl|].
  eapply R_trans; [apply calls_after | apply IH].
Qed.

Lemma calls_after_all_others cs : ∀ w,
  forallb (fun c => negb (is_spawn c)) cs = true → R w (after_all cs w).
Proof using R_refl R_trans R_log R_now R_exited R_dropped.
  induction cs as [|c cs IH]; intros w Hcs; simpl; [apply R_refl|].
  simpl in Hcs. apply andb_true_iff in Hcs as [Hc Hcs].
  eapply R_trans; [apply calls_after_other; by apply negb_true_iff | by apply IH].
Qed.
End Calls.

(** X5: once the manager has recorded the runtime as available it never
    goes back: after any sequence of calls the flag is still set, whether
    or not the runtime still answers.  So a manager that has seen Docker
    once never simulates again. *)
Theorem available_is_for_good calls w :
  w_docker_available w = true → w_docker_available (after_all calls w) = true.
Proof.
  revert w.
  apply (calls_after_all (fun w w' => w_docker_available w = true →
                                      w_docker_available w' = true)); try done.
  intros w1 w2 w3 H12 H23 H1. by apply H23, H12.
Qed.

Lemma available_is_for_good_witness :
  w_docker_available
    (after_all [CallSpawn 42 "vulnerables/web-dvwa" (Some 7) 80 120; CallStatus 42;
                CallKill 42 true; CallBackground 2] w_lost) = true.
Proof.
  apply (available_is_for_good
           [CallSpawn 42 "vulnerables/web-dvwa" (Some 7) 80 120; CallStatus 42;
            CallKill 42 true; CallBackground 2] w_lost).
  reflexivity.
Defined.

(** ** Containers are never rewritten *)

(** Everything the runtime holds of a container but its status. *)
Definition identity (c : Container) :=
  (c_id c, c_name c, c_image c, c_labels c, c_ports c).

(** [c'] is [c], as it was or stopped. *)
Definition same_or_exited (c c' : Container) : Prop :=
  c' = c ∨ c' = with_status "exited" c.

(** Every container after was there before, as it is or running then. *)
Definition nothing_new (w w' : World) : Prop :=
  ∀ c', c' ∈ w_containers w' → ∃ c, c ∈ w_containers w ∧ same_or_exited c c'.

Lemma same_or_exited_trans c1 c2 c3 :
  same_or_exited c1 c2 → same_or_exited c2 c3 → same_or_exited c1 c3.
Proof. unfold same_or_exited. intros [->| ->] [->| ->]; auto. Qed.

Lemma nothing_new_exited cid w :
  nothing_new w (set_containers (mark_exited cid (w_containers w)) w).
Proof.
  intros c' Hc'. simpl in Hc'. unfold mark_exited in Hc'.
  apply list_elem_of_fmap in Hc' as (c & -> & Hc). exists c. split; [done|].
  unfold same_or_exited. destruct (c_id c =? cid); auto.
Qed.

Lemma nothing_new_dropped cid w :
  nothing_new w (set_containers (drop_container cid (w_containers w)) w).
Proof.
  intros c' Hc'. simpl in Hc'. apply elem_of_drop_container in Hc' as [Hc' _].
  exists c'. split; [done | by left].
Qed.

(** X6: Kill, Status, the listing, both sweeps, Extend and the background
    loop create nothing and rewrite nothing.  After any sequence of them
    every container in the runtime was there before the sequence, with the
    same id, name, image, labels and ports, and with the status it had or
    the status "exited"; and the runtime has given out no id. *)
Theorem only_spawn_creates calls w :
  forallb (fun c => negb (is_spawn c)) calls = true →
  nothing_new w (after_all calls w)
  ∧ w_next_id (after_all calls w) = w_next_id w.
Proof.
  intros Hcalls. split.
  - revert w Hcalls. apply (calls_after_all_others nothing_new).
    + intros w c Hc. exists c. split; [done | by left].
    + intros w1 w2 w3 H12 H23 c3 Hc3.
      destruct (H23 c3 Hc3) as (c2 & Hc2 & H2). destruct (H12 c2 Hc2) as (c1 & Hc1 & H1).
      exists c1. split; [done | by eapply same_or_exited_trans].
    + intros l w c Hc. exists c. split; [done | by left].
    + intros t w c Hc. exists c. split; [done | by left].
    + apply nothing_new_exited.
    + apply nothing_new_dropped.
  - revert w Hcalls. apply (calls_after_all_others (eq_on w_next_id)); try done.
    unfold eq_on. congruence.
Qed.

Lemma only_spawn_creates_witness :
  nothing_new w_stubborn
    (after_all [CallKill 42 false; CallSweepExpired; CallExtend 7 30; CallBackground 1]
       w_stubborn)
  ∧ w_next_id (after_all [CallKill 42 false; CallSweepExpired; CallExtend 7 30;
                          CallBackground 1] w_stubborn) = 4.
Proof.
  apply (only_spawn_creates
           [CallKill 42 false; CallSweepExpired; CallExtend 7 30; CallBackground 1]
           w_stubborn).
  reflexivity.
Defined.

(** A container of [w'] that was not created since [w] is a container of
    [w] with the same identity. *)
Definition nothing_rewritten (w w' : World) : Prop :=
  w_next_id w ≤ w_next_id w'
  ∧ ∀ c', c' ∈ w_containers w' →
      (∃ c, c ∈ w_containers w ∧ identity c = identity c')
      ∨ w_next_id w ≤ c_id c'.

Lemma nothing_rewritten_refl w : nothing_rewritten w w.
Proof. split; [lia|]. intros c Hc. left. by exists c. Qed.

Lemma nothing_rewritten_same_containers w w' :
  w_containers w' = w_containers w → w_next_id w' = w_next_id w → nothing_rewritten w w'.
Proof. intros Hcs Hn. split; [lia|]. rewrite Hcs. intros c Hc. left. by exists c. Qed.

Lemma nothing_rewritten_trans w1 w2 w3 :
  nothing_rewritten w1 w2 → nothing_rewritten w2 w3 → nothing_rewritten w1 w3.
Proof.
  intros [Hn12 H12] [Hn23 H23]. split; [lia|]. intros c3 Hc3.
  destruct (H23 c3 Hc3) as [(c2 & Hc2 & Hid2)|Hnew]; [|right; lia].
  destruct (H12 c2 Hc2) as [(c1 & Hc1 & Hid1)|Hnew].
  - left. exists c1. split; [done | congruence].
  - right. unfold identity in Hid2. injection Hid2 as Hid2 _ _ _ _. lia.
Qed.

Lemma nothing_rewritten_exited cid w :
  nothing_rewritten w (set_containers (mark_exited cid (w_containers w)) w).
Proof.
  split; [simpl; lia|]. intros d Hd. left.
  destruct (nothing_new_exited cid w d Hd) as (c & Hc & [->| ->]); exists c; by split.
Qed.

Lemma nothing_rewritten_dropped cid w :
  nothing_rewritten w (set_containers (drop_container cid (w_containers w)) w).
Proof.
  split; [simpl; lia|]. intros d Hd. left.
  destruct (nothing_new_dropped cid w d Hd) as (c & Hc & [->| ->]); exists c; by split.
Qed.

Lemma nothing_rewritten_created c w :
  c_id c = w_next_id w →
  nothing_rewritten w
    (set_next_id (w_next_id w + 1) (set_containers (c :: w_containers w) w)).
Proof.
  intros Hid. split; [simpl; lia|]. intros d Hd. simpl in Hd.
  apply elem_of_cons in Hd as [->|Hd]; [right; lia | left; by exists d].
Qed.

Lemma nothing_rewritten_spawn fuel user_id image_name lab_id cport timeout w r w' :
  spawn_lab_container fuel user_id image_name lab_id cport timeout w = Some (r, w') →
  nothing_rewritten w w'.
Proof.
  apply (calls_spawn_lab_container nothing_rewritten).
  - apply nothing_rewritten_refl.
  - apply nothing_rewritten_trans.
  - intros l w0. by apply nothing_rewritten_same_containers.
  - intros t w0. by apply nothing_rewritten_same_containers.
  - intros rnd w0. by apply nothing_rewritten_same_containers.
  - intros w0. by apply nothing_rewritten_same_containers.
  - apply nothing_rewritten_exited.
  - apply nothing_rewritten_dropped.
  - apply nothing_rewritten_created.
Qed.

(** X7: labels are for life.  After any sequence of calls, Spawn
    included, a container of the runtime is either one that a Spawn of the
    sequence created (its id was not given out before) or a container that
    was there before, with the same name, image, labels and ports: no call
    changes the [created_at], [expires_at], [user_id] or [lab_id] label of
    a container. *)
Theorem labels_are_for_life calls w c' :
  c' ∈ w_containers (after_all calls w) →
  (∃ c, c ∈ w_containers w ∧ c_id c = c_id c' ∧ c_labels c = c_labels c'
        ∧ c_name c = c_name c' ∧ c_image c = c_image c' ∧ c_ports c = c_ports c')
  ∨ w_next_id w ≤ c_id c'.
Proof.
  intros Hc'.
  assert (H : nothing_rewritten w (after_all calls w)).
  { apply (calls_after_all nothing_rewritten).
    - apply nothing_rewritten_refl.
    - apply nothing_rewritten_trans.
    - intros l w0. by apply nothing_rewritten_same_containers.
    - intros t w0. by apply nothing_rewritten_same_containers.
    - intros r w0. by apply nothing_rewritten_same_containers.
    - intros w0. by apply nothing_rewritten_same_containers.
    - apply nothing_rewritten_exited.
    - apply nothing_rewritten_dropped.
    - apply nothing_rewritten_created. }
  destruct H as [_ H]. destruct (H c' Hc') as [(c & Hc & Hid)|Hnew]; [|by right].
  left. exists c. unfold identity in Hid. injection Hid as Hid Hname Himage Hlabels Hports.
  by repeat split.
Qed.

(** On the sample runtime owner 42 spawns: the instance of owner 7 is
    still there, label for label. *)
Definition i_seven : Container :=
  sample_instance 1 7 "running" (NOON - minutes 10) (NOON + minutes 110) 20001.

Lemma labels_are_for_life_witness :
  (∃ c, c ∈ w_containers w_sample ∧ c_id c = c_id i_seven
        ∧ c_labels c = c_labels i_seven ∧ c_name c = c_name i_seven
        ∧ c_image c = c_image i_seven ∧ c_ports c = c_ports i_seven)
  ∨ w_next_id w_sample ≤ c_id i_seven.
Proof.
  apply (labels_are_for_life [CallSpawn 42 "vulnerables/web-dvwa" (Some 7) 80 120]
           w_sample i_seven).
  vm_compute. right. left.
Defined.

(** ** One owner's calls and the other owners' containers *)

Lemma containers_list_unreachable all flt w :
  w_reachable w = false →
  containers_list all flt w
  = (Raise (ConnectionError "Error while fetching server API version"), w).
Proof. intros Hr. unfold containers_list, bind at 1, require_reachable. by rewrite Hr. Qed.

(** Kill for one owner, on any runtime with unique ids: the containers of
    the other owners stay as they are. *)
Lemma kill_user_containers_spares user_id force w r w' :
  NoDup (ids w) →
  kill_user_containers user_id force w = (r, w') →
  ∀ d, d ∈ w_containers w → tagged user_id d = false → d ∈ w_containers w'.
Proof.
  intros Hnd H.
  destruct (w_docker_available w) eqn:Hav; [destruct (w_reachable w) eqn:Hr|].
  - destruct (kill_user_containers_connected user_id force w (conj Hav Hr) Hnd)
      as (kr & w1 & Hrun & _ & _ & _ & _ & _ & Hother & _).
    rewrite Hrun in H. injection H as _ <-. exact Hother.
  - unfold kill_user_containers in H. rewrite (bind_ok _ _ _ _ _ (log_run _ _)) in H.
    unfold bind at 1, get_world in H.
    set (wl := set_log _ w) in H.
    change (w_docker_available wl) with (w_docker_available w) in H.
    rewrite Hav in H. cbn [negb] in H.
    erewrite try_raise in H.
    2:{ apply bind_raise. by apply containers_list_unreachable. }
    rewrite (bind_ok _ _ _ _ _ (log_run _ _)) in H. injection H as _ <-. done.
  - unfold kill_user_containers in H. rewrite (bind_ok _ _ _ _ _ (log_run _ _)) in H.
    unfold bind at 1, get_world in H.
    set (wl := set_log _ w) in H.
    change (w_docker_available wl) with (w_docker_available w) in H.
    rewrite Hav in H. injection H as _ <-. done.
Qed.

(** The call keeps the ids unique and below the next one, and leaves
    the containers of every owner but [user_id] as they are. *)
Definition spares_others (user_id : Z) (w w' : World) : Prop :=
  well_formed w →
  well_formed w'
  ∧ ∀ d, d ∈ w_containers w → tagged user_id d = false → d ∈ w_containers w'.

Lemma spares_others_same user_id w w' :
  w_containers w' = w_containers w → w_next_id w' = w_next_id w →
  spares_others user_id w w'.
Proof.
  intros Hcs Hn [Hnd Hlt]. unfold well_formed, ids. rewrite Hcs, Hn. done.
Qed.

Lemma spares_others_spawn fuel user_id image_name lab_id cport timeout w r w' :
  spawn_lab_container fuel user_id image_name lab_id cport timeout w = Some (r, w') →
  spares_others user_id w w'.
Proof.
  apply (parts_spawn_lab_container (spares_others user_id) user_id).
  - intros w0. by apply spares_others_same.
  - intros w1 w2 w3 H12 H23 Hwf. destruct (H12 Hwf) as [Hwf2 H2].
    destruct (H23 Hwf2) as [Hwf3 H3]. split; [done|]. intros d Hd Ht. apply H3; [by apply H2 | done].
  - intros l w0. by apply spares_others_same.
  - intros t w0. by apply spares_others_same.
  - intros rnd w0. by apply spares_others_same.
  - intros w0. by apply spares_others_same.
  - intros c w0 Hid Hwf. split; [by apply wf_step_created|].
    intros d Hd _. simpl. by right.
  - intros w0 r0 w0' Hk Hwf. split.
    + pose proof Hk as Hk'. eapply (keeps_kill_user_containers wf_step) in Hk'; [by apply Hk'|..];
        wf_side.
    + by apply (kill_user_containers_spares user_id true w0 r0 w0' (proj1 Hwf)).
Qed.

(** X8: whatever the runtime refuses and however the call ends, a Spawn
    for one owner leaves the containers of every other owner in the
    runtime exactly as they were, status included. *)
Theorem spawn_spares_other_owners fuel user_id image_name lab_id cport timeout w r w' d :
  well_formed w →
  spawn_lab_container fuel user_id image_name lab_id cport timeout w = Some (r, w') →
  d ∈ w_containers w → tagged user_id d = false →
  d ∈ w_containers w'.
Proof.
  intros Hwf H Hd Ht. apply spares_others_spawn in H. by apply (H Hwf).
Qed.

Definition w_stubborn_respawned : World :=
  Eval vm_compute in
    match spawn_lab_container 2 42 "vulnerables/web-dvwa" (Some 7) 80 120 w_stubborn with
    | Some (_, w') => w'
    | None => w_stubborn
    end.

Definition r_stubborn_respawned : Result SpawnResult :=
  Eval vm_compute in
    match spawn_lab_container 2 42 "vulnerables/web-dvwa" (Some 7) 80 120 w_stubborn with
    | Some (r, _) => r
    | None => Raise (RuntimeError "")
    end.

Lemma spawn_spares_other_owners_witness :
  sample_instance 1 7 "running" (NOON - minutes 10) (NOON + minutes 110) 20001
  ∈ w_containers w_stubborn_respawned.
Proof.
  apply (spawn_spares_other_owners 2 42 "vulnerables/web-dvwa" (Some 7) 80 120
           w_stubborn r_stubborn_respawned w_stubborn_respawned).
  - split; by_compute.
  - vm_compute. reflexivity.
  - vm_compute. right. right. left.
  - vm_compute. reflexivity.
Defined.

(** ** Spawn kills first *)

(** The containers of [user_id] with an id below [n] after are among
    those before. *)
Definition no_more_of (user_id n : Z) (w w' : World) : Prop :=
  n ≤ w_next_id w →
  n ≤ w_next_id w'
  ∧ ∀ c', c' ∈ w_containers w' → tagged user_id c' = true → c_id c' < n →
      ∃ c, c ∈ w_containers w ∧ tagged user_id c = true ∧ c_id c = c_id c'.

Lemma no_more_of_sub user_id n w w' :
  w_next_id w ≤ w_next_id w' →
  (∀ c', c' ∈ w_containers w' → c_id c' < w_next_id w →
     ∃ c, c ∈ w_containers w ∧ c_labels c = c_labels c' ∧ c_id c = c_id c') →
  no_more_of user_id n w w'.
Proof.
  intros Hn Hsub Hle. split; [lia|]. intros c' Hc' Ht Hlt.
  destruct (Hsub c' Hc') as (c & Hc & Hl & Hid); [lia|].
  exists c. split; [done|]. split; [|done]. unfold tagged in *. by rewrite Hl.
Qed.

Lemma no_more_of_refl user_id n w : no_more_of user_id n w w.
Proof. apply no_more_of_sub; [lia|]. intros c Hc _. by exists c. Qed.

Lemma no_more_of_same user_id n w w' :
  w_containers w' = w_containers w → w_next_id w' = w_next_id w →
  no_more_of user_id n w w'.
Proof.
  intros Hcs Hn. apply no_more_of_sub; [lia|]. rewrite Hcs. intros c Hc _. by exists c.
Qed.

Lemma no_more_of_trans user_id n w1 w2 w3 :
  no_more_of user_id n w1 w2 → no_more_of user_id n w2 w3 → no_more_of user_id n w1 w3.
Proof.
  intros H12 H23 Hle. destruct (H12 Hle) as [Hle2 H2]. destruct (H23 Hle2) as [Hle3 H3].
  split; [done|]. intros c3 Hc3 Ht3 Hlt.
  destruct (H3 c3 Hc3 Ht3 Hlt) as (c2 & Hc2 & Ht2 & Hid2).
  destruct (H2 c2 Hc2 Ht2) as (c1 & Hc1 & Ht1 & Hid1); [lia|].
  exists c1. split; [done|]. split; [done | congruence].
Qed.

Lemma no_more_of_exited user_id n cid w :
  no_more_of user_id n w (set_containers (mark_exited cid (w_containers w)) w).
Proof.
  apply no_more_of_sub; [simpl; lia|]. intros c' Hc' _. simpl in Hc'.
  destruct (elem_of_mark_exited cid _ c' Hc') as (c & Hc & Hid & Hl). by exists c.
Qed.

Lemma no_more_of_dropped user_id n cid w :
  no_more_of user_id n w (set_containers (drop_container cid (w_containers w)) w).
Proof.
  apply no_more_of_sub; [simpl; lia|]. intros c' Hc' _. simpl in Hc'.
  apply elem_of_drop_container in Hc' as [Hc' _]. by exists c'.
Qed.

Lemma no_more_of_created user_id n c w :
  c_id c = w_next_id w →
  no_more_of user_id n w
    (set_next_id (w_next_id w + 1) (set_containers (c :: w_containers w) w)).
Proof.
  intros Hid. apply no_more_of_sub; [simpl; lia|]. intros c' Hc' Hlt. simpl in Hc'.
  apply elem_of_cons in Hc' as [->|Hc']; [lia | by exists c'].
Qed.

(** X9: Spawn kills first, and for good.  On a runtime that cooperates,
    whatever the call answers, a success or a failure of any code, none of
    the containers the owner had before the call is left after it: every
    container that carries the owner's label after the call was created by
    the call.  A Spawn that fails has still removed the lab the owner
    had. *)
Theorem spawn_kills_first fuel user_id image_name lab_id cport timeout w r w' :
  healthy w → well_formed w →
  spawn_lab_container fuel user_id image_name lab_id cport timeout w = Some (r, w') →
  (∀ c', c' ∈ w_containers w' → tagged user_id c' = true → w_next_id w ≤ c_id c')
  ∧ (∀ d, d ∈ w_containers w → tagged user_id d = true → c_id d ∉ ids w').
Proof.
  intros Hh Hwf H.
  pose proof (nothing_rewritten_spawn _ _ _ _ _ _ _ _ _ H) as [_ Hsame].
  assert (Hnew : ∀ c', c' ∈ w_containers w' → tagged user_id c' = true →
                       w_next_id w ≤ c_id c').
  { destruct fuel as [|fuel]; [done|].
    rewrite spawn_lab_container_eq in H.
    destruct (spawn_enter_reachable user_id image_name w (proj1 Hh)) as [l He].
    rewrite He in H. set (w0 := set_log l (set_docker_available true w)) in H.
    assert (Hh0 : healthy w0) by done.
    destruct (kill_user_containers_healthy user_id true w0 eq_refl Hh0 (proj1 Hwf))
      as (kr & lk & Hk & _ & _).
    rewrite spawn_try_eq, (bind_ok _ _ _ _ _ Hk) in H.
    set (wk := upd lk _ w0) in H.
    destruct (spawn_after_kill user_id image_name lab_id cport timeout wk)
      as [r1 w1] eqn:Ha.
    assert (H1 : no_more_of user_id (w_next_id w) wk w1).
    { revert Ha. apply (parts_spawn_after_kill (no_more_of user_id (w_next_id w))).
      - apply no_more_of_refl.
      - apply no_more_of_trans.
      - intros l0 w2. by apply no_more_of_same.
      - intros t w2. by apply no_more_of_same.
      - intros rnd w2. by apply no_more_of_same.
      - apply no_more_of_created. }
    assert (H2 : no_more_of user_id (w_next_id w) w1 w').
    { revert H.
      apply (calls_spawn_finish (no_more_of user_id (w_next_id w))
               (no_more_of_refl _ _) (no_more_of_trans _ _)).
      - intros l0 w2. by apply no_more_of_same.
      - intros t w2. by apply no_more_of_same.
      - intros rnd w2. by apply no_more_of_same.
      - intros w2. by apply no_more_of_same.
      - apply no_more_of_exited.
      - apply no_more_of_dropped.
      - apply no_more_of_created. }
    destruct (no_more_of_trans _ _ _ _ _ H1 H2) as [_ Hold]; [simpl; lia|].
    intros c' Hc' Ht. destruct (Z_lt_le_dec (c_id c') (w_next_id w)) as [Hlt|]; [|done].
    destruct (Hold c' Hc' Ht Hlt) as (c & Hc & Htc & _).
    unfold wk in Hc. simpl in Hc. apply list_elem_of_In, filter_In in Hc as [_ Hc].
    by rewrite Htc in Hc. }
  split; [exact Hnew|].
  intros d Hd Ht Hin. apply list_elem_of_fmap in Hin as (c' & Hid & Hc').
  destruct Hwf as [Hnd Hlt].
  assert (Hdlt : c_id d < w_next_id w).
  { rewrite Forall_forall in Hlt. apply Hlt. apply list_elem_of_fmap. by exists d. }
  destruct (Hsame c' Hc') as [(c & Hc & Hidc)|Hge]; [|lia].
  unfold identity in Hidc. injection Hidc as Hidc _ _ Hl _.
  assert (c = d) as ->.
  { apply list_elem_of_lookup in Hc as [i Hi], Hd as [j Hj].
    assert (i = j) as ->; [|congruence].
    apply (NoDup_lookup (ids w) i j (c_id d) Hnd); unfold ids;
      rewrite list_lookup_fmap; [rewrite Hi | rewrite Hj]; simpl; congruence. }
  assert (Ht' : tagged user_id c' = true) by (unfold tagged in *; by rewrite <- Hl).
  specialize (Hnew c' Hc' Ht'). lia.
Qed.

(** Owner 42, whose lab runs, asks for an image whose container exits
    at once: the call fails and the lab is gone. *)
Definition w_broken_spawn : World :=
  Eval vm_compute in
    match spawn_lab_container 2 42 BROKEN_IMAGE (Some 7) 80 120 w_sample with
    | Some (_, w') => w'
    | None => w_sample
    end.

Lemma spawn_kills_first_witness :
  spawn_lab_container 2 42 BROKEN_IMAGE (Some 7) 80 120 w_sample
  = Some (Ok (SpawnFailure "RUNTIME_ERROR" "Container failed to start: exited"
                "Server is busy. Please try again later."), w_broken_spawn)
  ∧ (∀ c', c' ∈ w_containers w_broken_spawn → tagged 42 c' = true → 3 ≤ c_id c')
  ∧ (∀ d, d ∈ w_containers w_sample → tagged 42 d = true → c_id d ∉ ids w_broken_spawn).
Proof.
  split; [vm_compute; reflexivity|].
  apply (spawn_kills_first 2 42 BROKEN_IMAGE (Some 7) 80 120 w_sample
           (Ok (SpawnFailure "RUNTIME_ERROR" "Container failed to start: exited"
                  "Server is busy. Please try again later.")) w_broken_spawn).
  - exact w_sample_healthy.
  - exact w_sample_well_formed.
  - vm_compute. reflexivity.
Defined.

(** ** Spawn, then Status *)

(** The dictionary steps 6 and 7 return. *)
Lemma spawn_settle_answer user_id image_name lab_id cport timeout la w res w' :
  spawn_settle user_id image_name lab_id cport timeout la w = (Ok res, w') →
  ∃ c, find_container (c_id (la_container la)) w = Some c
     ∧ res = SpawnSuccess
               {| si_simulated := false;
                  si_container_id := RealId (c_id c);
                  si_container_name := la_container_name la;
                  si_ip := w_host_ip w;
                  si_port := la_host_port la;
                  si_internal_port := cport;
                  si_image := image_name;
                  si_user_id := user_id;
                  si_lab_id := lab_id;
                  si_started_at := w_now w + seconds 2;
                  si_expires_at := w_now w + seconds 2 + minutes timeout;
                  si_timeout_minutes := timeout |}.
Proof.
  intros H. unfold spawn_settle in H.
  unfold bind at 1, _get_host_ip, bind at 1, get_world, ret at 1 in H.
  unfold bind at 1, sleep, modify in H.
  set (w1 := set_now (w_now w + seconds 2) w) in H.
  step_as H c w2. apply containers_get_inv in E as [-> E].
  destruct E as [Hfind _].
  change (find_container (c_id (la_container la)) w = Some c) in Hfind.
  destruct (is_running c) eqn:Hrun; cbn [negb] in H; [|done].
  unfold bind at 1, utcnow at 1 in H.
  step H. apply timedelta_minutes_inv in E as [-> E]. subst.
  step H. apply datetime_add_inv in E as [-> E]. destruct E as [-> _].
  unfold bind at 1, utcnow at 1 in H.
  rewrite (bind_ok _ _ _ _ _ (log_run _ _)) in H. injection H as <- <-.
  by exists c.
Qed.

(** The answer of a Spawn describes the container [c], the newest of the
    runtime [w']: same id, name and ports, the image that runs, an expiry
    and a start that are those of the labels plus the settle delay. *)
Definition describes (user_id : Z) (lab_id : option Z) (info : SpawnInfo)
    (c : Container) (w' : World) : Prop :=
  head (w_containers w') = Some c
  ∧ si_container_id info = RealId (c_id c)
  ∧ c_name c = si_container_name info
  ∧ c_image c = si_image info
  ∧ c_ports c = Some (si_internal_port info, si_port info)
  ∧ c_labels c = spawn_labels user_id lab_id (si_started_at info - seconds 2)
                   (si_expires_at info - seconds 2)
  ∧ is_running c = true
  ∧ si_ip info = w_host_ip w'
  ∧ si_started_at info = w_now w'
  ∧ w_docker_available w' = true ∧ w_reachable w' = true.

Lemma spawn_try_describes user_id image_name lab_id cport timeout w info w' :
  w_docker_available w = true →
  spawn_try user_id image_name lab_id cport timeout w = (Ok (SpawnSuccess info), w') →
  ∃ c, describes user_id lab_id info c w'
     ∧ si_image info = image_name
     ∧ si_expires_at info = si_started_at info + minutes timeout.
Proof.
  intros Hav Ht.
  frame (keeps_spawn_try (eq_on static)) in Ht as Hst.
  frame (keeps_spawn_try (eq_on w_docker_available)) in Ht as Hav'.
  unfold spawn_try in Ht. step_as Ht la w1.
  frame (keeps_spawn_launch (eq_on w_now)) in E as Hnow1.
  frame (keeps_spawn_launch (eq_on static)) in E as Hst1.
  apply spawn_launch_inv in E as (kr & wk & _ & settled & _ & Hr & Hla & Hcs & _).
  pose proof Ht as Hinv.
  apply spawn_settle_inv in Hinv as (Hcs2 & _ & Hnow2 & c & info' & Hf & Hrun & _).
  apply spawn_settle_answer in Ht as (c' & Hf' & Hres).
  rewrite Hf in Hf'. injection Hf' as <-. injection Hres as ->.
  unfold find_container in Hf. rewrite Hcs in Hf. simpl in Hf.
  rewrite Z.eqb_refl in Hf. injection Hf as <-.
  exists (with_status settled (la_container la)).
  unfold describes. cbn [si_container_id si_container_name si_image si_internal_port
    si_port si_started_at si_expires_at si_ip].
  rewrite Hcs2, Hcs, Hnow2, Hnow1, Hav', Hav. rewrite Hla. unfold new_container. simpl.
  replace (w_now w + seconds 2 - seconds 2) with (w_now w) by lia.
  replace (w_now w + seconds 2 + minutes timeout - seconds 2)
    with (w_now w + minutes timeout) by lia.
  rewrite Hla in Hrun.
  assert (Hip : w_host_ip w1 = w_host_ip w').
  { symmetry. unfold eq_on, static in Hst, Hst1. congruence. }
  assert (Hre : w_reachable w' = true).
  { unfold eq_on, static in Hst. assert (w_reachable w' = w_reachable w) by congruence.
    congruence. }
  repeat split; done.
Qed.

Lemma spawn_describes fuel :
  ∀ user_id image_name lab_id cport timeout w info w',
    spawn_lab_container fuel user_id image_name lab_id cport timeout w
    = Some (Ok (SpawnSuccess info), w') →
    si_simulated info = false →
    ∃ c, describes user_id lab_id info c w'
       ∧ (si_image info = image_name ∨ si_image info = FALLBACK_IMAGE)
       ∧ si_expires_at info = si_started_at info + minutes timeout.
Proof.
  induction fuel as [|fuel IH]; intros user_id image_name lab_id cport timeout w info w' H Hsim;
    [done|].
  rewrite spawn_lab_container_eq in H.
  destruct (spawn_enter user_id image_name w) as [[[]|e] w0] eqn:He; [| |done].
  - apply spawn_enter_true in He.
    destruct (spawn_try user_id image_name lab_id cport timeout w0) as [[res|e] w1] eqn:Ht.
    + injection H as -> ->.
      destruct (spawn_try_describes _ _ _ _ _ _ _ _ He Ht) as (c & Hc & Hi & Hx).
      exists c. by auto.
    + destruct (spawn_handle_other_fails e w1) as (code & err & msg & wo & Hother).
      destruct e; try (unfold spawn_finish in H; rewrite Hother in H; discriminate).
      unfold spawn_finish in H. rewrite log_run in H.
      destruct (String.eqb image_name FALLBACK_IMAGE); [discriminate|].
      match type of H with
      | match spawn_lab_container _ _ _ _ _ _ ?wf with _ => _ end = _ =>
          destruct (spawn_lab_container fuel user_id FALLBACK_IMAGE lab_id cport timeout wf)
            as [[[res|e] w4]|] eqn:Hrec; [| |discriminate]
      end.
      * injection H as -> ->.
        destruct (IH _ _ _ _ _ _ _ _ Hrec Hsim) as (c & Hc & Hi & Hx).
        exists c. split; [done|]. split; [|done]. right. by destruct Hi.
      * rewrite log_run in H. discriminate.
  - rewrite log_run in H. injection H as H.
    unfold _simulate_spawn in H.
    repeat (step H; try discriminate). injection H as <- _. discriminate.
Qed.

(** X10: a Spawn that answers with a real instance can be checked with
    Status.  Right after the call, whatever the runtime refused during it,
    Status for the owner reports the container of the answer: same id,
    name, host port and address, running, with the [lab_id] of the request.
    The [created_at] and [expires_at] it reports are the container's
    labels, which parse as datetimes. *)
Theorem spawn_then_status fuel user_id image_name lab_id cport timeout w info w' :
  spawn_lab_container fuel user_id image_name lab_id cport timeout w
  = Some (Ok (SpawnSuccess info), w') →
  si_simulated info = false →
  ∃ lab c,
    get_user_active_lab user_id w' = (Ok (Some lab), w')
    ∧ head (w_containers w') = Some c
    ∧ RealId (li_container_id lab) = si_container_id info
    ∧ li_container_id lab = c_id c
    ∧ li_container_name lab = si_container_name info
    ∧ li_port lab = Some (si_port info)
    ∧ li_ip lab = si_ip info
    ∧ li_status lab = "running"
    ∧ li_lab_id lab = Some (LText (lab_id_text lab_id "unknown"))
    ∧ li_created_at lab = c_labels c !! LABEL_CREATED_AT
    ∧ li_expires_at lab = c_labels c !! LABEL_EXPIRES_AT
    ∧ ∃ created_at expires_at,
        li_created_at lab = Some (LTime created_at)
        ∧ li_expires_at lab = Some (LTime expires_at).
Proof.
  intros H Hsim.
  destruct (spawn_describes _ _ _ _ _ _ _ _ _ H Hsim)
    as (c & (Hhead & Hid & Hname & Himg & Hports & Hlabels & Hrun & Hip & Hnow & Hav & Hr)
        & _ & Hx).
  rewrite (get_user_active_lab_connected user_id w' Hav Hr).
  assert (Hact : active_instance user_id w' = Some c).
  { unfold active_instance, running_instances.
    destruct (w_containers w') as [|c0 cs]; [done|]. injection Hhead as ->. simpl.
    assert (Ht : tagged user_id c = true).
    { unfold tagged. rewrite Hlabels. apply bool_decide_eq_true_2.
      unfold spawn_labels. by rewrite lookup_insert_eq. }
    by rewrite Ht, Hrun. }
  rewrite Hact. exists (lab_info_of w' c), c. split; [done|]. split; [exact Hhead|].
  unfold lab_info_of. cbn [li_container_id li_container_name li_port li_ip li_status
    li_lab_id li_created_at li_expires_at].
  rewrite Hlabels, Hports.
  unfold is_running in Hrun. apply String.eqb_eq in Hrun.
  repeat split; try done. by eexists _, _.
Qed.

Lemma spawn_then_status_witness :
  ∃ lab,
    get_user_active_lab 42 w_dvwa = (Ok (Some lab), w_dvwa)
    ∧ RealId (li_container_id lab) = si_container_id info_dvwa
    ∧ li_port lab = Some (si_port info_dvwa)
    ∧ li_status lab = "running".
Proof.
  destruct (spawn_then_status 1 42 "vulnerables/web-dvwa" (Some 7) 80 120 w_sample
              info_dvwa w_dvwa)
    as (lab & c & Hrun & _ & Hid & _ & _ & Hport & _ & Hst & _).
  - vm_compute. reflexivity.
  - reflexivity.
  - exists lab. split; [exact Hrun|]. split; [exact Hid|]. split; [exact Hport | exact Hst].
Defined.

(** ** The listing of all labs *)

Definition lab_summary (c : Container) : LabSummary :=
  {| ls_container_id := c_id c;
     ls_user_id := c_labels c !! LABEL_USER_ID;
     ls_lab_id := c_labels c !! LABEL_LAB_ID;
     ls_created_at := c_labels c !! LABEL_CREATED_AT;
     ls_expires_at := c_labels c !! LABEL_EXPIRES_AT;
     ls_status := c_status c |}.

(** The container runs and carries a [user_id] label. *)
Definition listed (c : Container) : bool :=
  bool_decide (is_Some (c_labels c !! LABEL_USER_ID)) && is_running c.

Lemma matches_listed c :
  matches false {| f_label := LABEL_USER_ID; f_label_value := None;
                   f_status := Some "running" |} c
  = listed c.
Proof.
  unfold matches, listed, is_running; simpl.
  by destruct (c_labels c !! LABEL_USER_ID) as [v|].
Qed.

Lemma for_each_append {A B} (f : A → B) (xs : list A) : ∀ acc w,
  for_each xs (fun x acc => ret (acc ++ [f x])) acc w = (Ok (acc ++ map f xs), w).
Proof.
  induction xs as [|x xs IH]; intros acc w; simpl.
  - by rewrite app_nil_r.
  - unfold bind, ret at 1. rewrite IH. by rewrite <- app_assoc.
Qed.

Lemma get_all_active_labs_connected w :
  connected w →
  get_all_active_labs w = (Ok (map lab_summary (List.filter listed (w_containers w))), w).
Proof.
  intros [Hav Hr]. unfold get_all_active_labs, bind at 1, get_world. rewrite Hav.
  cbn [negb]. erewrite try_ok; [reflexivity|].
  rewrite (bind_ok _ _ _ _ _ (containers_list_ok _ _ _ Hr)).
  rewrite (filter_ext _ _ matches_listed).
  apply (for_each_append lab_summary).
Qed.

Lemma tagged_listed user_id c : tagged user_id c = true → is_running c = true → listed c = true.
Proof.
  unfold tagged, listed. intros Ht ->. apply bool_decide_eq_true_1 in Ht.
  rewrite andb_true_r. apply bool_decide_eq_true_2. by eauto.
Qed.

(** X11: with the manager connected, the listing of all labs has one
    entry for each running container that carries a [user_id] label,
    in the runtime's order, and it changes nothing, the log included.  It
    agrees with Status: the lab Status reports for an owner is in the
    listing, under that owner's id and with the same expiry label. *)
Theorem all_labs_lists_running w :
  connected w →
  ∃ labs,
    get_all_active_labs w = (Ok labs, w)
    ∧ labs = map lab_summary (List.filter listed (w_containers w))
    ∧ (∀ s, s ∈ labs → ls_status s = "running" ∧ is_Some (ls_user_id s))
    ∧ ∀ user_id lab,
        fst (get_user_active_lab user_id w) = Ok (Some lab) →
        ∃ s, s ∈ labs
           ∧ ls_container_id s = li_container_id lab
           ∧ ls_user_id s = Some (LText (pretty user_id))
           ∧ ls_lab_id s = li_lab_id lab
           ∧ ls_expires_at s = li_expires_at lab.
Proof.
  intros Hc. eexists. split; [by apply get_all_active_labs_connected|].
  split; [done|]. split.
  - intros s Hs. apply list_elem_of_fmap in Hs as (c & -> & Hin).
    apply list_elem_of_In, filter_In in Hin as [_ Hl].
    unfold listed in Hl. apply andb_true_iff in Hl as [Hu Hrun].
    apply bool_decide_eq_true_1 in Hu. unfold is_running in Hrun.
    apply String.eqb_eq in Hrun. done.
  - intros user_id lab Hlab. destruct Hc as [Hav Hr].
    rewrite (get_user_active_lab_connected user_id w Hav Hr) in Hlab. simpl in Hlab.
    destruct (active_instance user_id w) as [c|] eqn:Hact; [|done].
    injection Hlab as <-.
    assert (Hin : c ∈ running_instances user_id w).
    { unfold active_instance in Hact. destruct (running_instances user_id w); [done|].
      injection Hact as ->. by left. }
    apply list_elem_of_In, filter_In in Hin as [Hin Htr].
    apply andb_true_iff in Htr as [Ht Hrun].
    exists (lab_summary c). split.
    + apply list_elem_of_fmap. exists c. split; [done|].
      apply list_elem_of_In, filter_In. split; [done | by eapply tagged_listed].
    + unfold lab_summary, lab_info_of; simpl. repeat split; try done.
      unfold tagged in Ht. by apply bool_decide_eq_true_1 in Ht.
Qed.

Lemma all_labs_lists_running_witness :
  ∃ labs,
    get_all_active_labs w_stubborn = (Ok labs, w_stubborn)
    ∧ map ls_container_id labs = [3; 2; 1]
    ∧ ∃ s, s ∈ labs ∧ ls_container_id s = 3 ∧ ls_user_id s = Some (LText "42").
Proof.
  destruct (all_labs_lists_running w_stubborn) as (labs & Hrun & Hlabs & _ & Hstatus).
  - split; reflexivity.
  - exists labs. split; [exact Hrun|]. split; [rewrite Hlabs; vm_compute; reflexivity|].
    destruct (Hstatus 42 (lab_info_of w_stubborn
                (sample_instance 3 42 "running" (NOON - minutes 5) (NOON + minutes 115) 20003)))
      as (s & Hs & Hid & Hu & _).
    + vm_compute. reflexivity.
    + exists s. split; [exact Hs|]. split; [exact Hid | exact Hu].
Defined.

(** ** Kill, then Status *)

(** X12: after a Kill that reports success, with the manager connected,
    Status for the owner answers [None] and the listing of all labs has no
    entry under the owner's id; and a second Kill is not needed for
    that. *)
Theorem kill_then_status user_id force w kr w' :
  connected w → NoDup (ids w) →
  kill_user_containers user_id force w = (Ok kr, w') →
  kr_success kr = true →
  get_user_active_lab user_id w' = (Ok None, w')
  ∧ ∃ labs, get_all_active_labs w' = (Ok labs, w')
          ∧ ∀ s, s ∈ labs → ls_user_id s ≠ Some (LText (pretty user_id)).
Proof.
  intros Hc Hnd Hk Hok.
  destruct (kill_user_containers_connected user_id force w Hc Hnd)
    as (kr1 & w1 & Hrun & Hc' & _ & _ & _ & Hsucc & _).
  rewrite Hk in Hrun. injection Hrun as <- <-.
  pose proof (proj1 Hsucc Hok) as Hnone. destruct Hc' as [Hav Hr]. split.
  - rewrite (get_user_active_lab_connected user_id w' Hav Hr).
    unfold active_instance, running_instances.
    rewrite filter_none_in; [done|]. intros c Hin. by rewrite (Hnone c Hin).
  - eexists. split; [by apply get_all_active_labs_connected|].
    intros s Hs Hu. apply list_elem_of_fmap in Hs as (c & -> & Hin).
    apply list_elem_of_In, filter_In in Hin as [Hin _]. apply list_elem_of_In in Hin.
    specialize (Hnone c Hin). unfold tagged in Hnone.
    apply bool_decide_eq_false_1 in Hnone. by apply Hnone.
Qed.

Definition kr_sample_killed : KillResult :=
  Eval vm_compute in
    match fst (kill_user_containers 42 true w_sample) with
    | Ok kr => kr
    | Raise _ => {| kr_success := false; kr_killed_count := 0; kr_containers := [];
                    kr_errors := None; kr_error := None; kr_message := "" |}
    end.

Definition w_sample_killed : World :=
  Eval vm_compute in snd (kill_user_containers 42 true w_sample).

Lemma kill_then_status_witness :
  get_user_active_lab 42 w_sample_killed = (Ok None, w_sample_killed)
  ∧ ∃ labs, get_all_active_labs w_sample_killed = (Ok labs, w_sample_killed)
          ∧ ∀ s, s ∈ labs → ls_user_id s ≠ Some (LText (pretty 42)).
Proof.
  apply (kill_then_status 42 true w_sample kr_sample_killed w_sample_killed).
  - split; reflexivity.
  - by_compute.
  - vm_compute. reflexivity.
  - reflexivity.
Defined.

(** ** The stale sweep *)

Lemma fold_left_stale_step now m (L : list Container) : ∀ acc,
  fold_left (fun a c => if stale now m c then a ++ [c_id c] else a) L acc
  = acc ++ map c_id (List.filter (stale now m) L).
Proof.
  induction L as [|c L IH]; intros acc; simpl.
  - by rewrite app_nil_r.
  - rewrite IH. destruct (stale now m c); simpl; by rewrite <- ?app_assoc.
Qed.

Lemma filter_stale_listed now m cs :
  List.filter (stale now m) (List.filter (matches true CREATED_FILTER) cs)
  = List.filter (stale now m) cs.
Proof.
  rewrite filter_filter_andb. apply filter_ext. intros c.
  destruct (stale now m c) eqn:E; [|by rewrite andb_false_r].
  by rewrite (stale_matches now m c E).
Qed.

Lemma cleanup_stale_containers_report m w :
  w_docker_available w = true → healthy w → NoDup (ids w) →
  ∃ l, cleanup_stale_containers m w
       = (Ok {| sr_success := true;
                sr_cleaned :=
                  Some (length (List.filter (stale (w_now w) m) (w_containers w)));
                sr_error := None |},
          upd l (List.filter (fun c => negb (stale (w_now w) m c)) (w_containers w)) w).
Proof.
  intros Hav Hh Hnd.
  set (now := w_now w).
  set (L := List.filter (matches true CREATED_FILTER) (w_containers w)).
  destruct (for_each_sweep (stale_one now m) (stale now m)
              (fun c cleaned => if stale now m c then cleaned ++ [c_id c] else cleaned)
              (stale_one_healthy now m) L w []) as [l Hl]; try done.
  { intros c Hc. apply list_elem_of_In, filter_In in Hc as [Hc _].
    by apply list_elem_of_In. }
  { by apply map_filter_NoDup. }
  assert (Hrem : remaining (stale now m) L (w_containers w)
                 = List.filter (fun c => negb (stale now m c)) (w_containers w)).
  { unfold L. rewrite remaining_filter by done. apply filter_ext. intros c.
    destruct (stale now m c) eqn:E; [|by rewrite andb_false_r].
    by rewrite (stale_matches now m c E). }
  rewrite Hrem in Hl. rewrite fold_left_stale_step in Hl. simpl in Hl.
  unfold L in Hl at 2. rewrite filter_stale_listed in Hl.
  rewrite <- (length_map c_id (List.filter (stale now m) (w_containers w))).
  unfold cleanup_stale_containers, bind at 1, get_world. rewrite Hav. cbn [negb].
  destruct (map c_id (List.filter (stale now m) (w_containers w))) as [|x removed] eqn:Hm.
  - exists l. erewrite try_ok; [reflexivity|].
    rewrite (bind_ok _ _ _ _ _ (containers_list_ok _ _ _ (proj1 Hh))).
    unfold bind at 1, utcnow. fold now. fold CREATED_FILTER. fold L.
    rewrite (bind_ok _ _ _ _ _ Hl). reflexivity.
  - eexists. erewrite try_ok; [reflexivity|].
    rewrite (bind_ok _ _ _ _ _ (containers_list_ok _ _ _ (proj1 Hh))).
    unfold bind at 1, utcnow. fold now. fold CREATED_FILTER. fold L.
    rewrite (bind_ok _ _ _ _ _ Hl).
    rewrite (bind_ok _ _ _ _ _ (log_run _ _)). reflexivity.
Qed.

(** X13: on a runtime that cooperates, one run of the stale sweep with
    ceiling [max_age] removes exactly the containers whose age exceeds
    [max_age] by the sweep's own test, running or not, whatever their
    [expires_at] label says, and reports their number.  The test is the
    code's, in floating point: the microseconds between the [created_at]
    label and the sweep's reading of the clock, divided by [10**6] and
    then by 60, against the integer.  For a ceiling that is not negative
    and an age below [2^33] seconds (272 years) it is the exact
    comparison: the container goes when it was created more than [max_age]
    minutes before, and one aged [max_age] minutes to the microsecond
    stays.  A container without a [created_at] label, or with one that
    does not parse, stays. *)
Theorem stale_sweep_removes_stale max_age w :
  w_docker_available w = true → healthy w → NoDup (ids w) →
  ∃ r w',
    cleanup_stale_containers max_age w = (Ok r, w')
    ∧ sr_success r = true
    ∧ sr_cleaned r = Some (length (List.filter (stale (w_now w) max_age) (w_containers w)))
    ∧ w_containers w'
      = List.filter (fun c => negb (stale (w_now w) max_age c)) (w_containers w)
    ∧ (∀ c, c ∈ w_containers w →
         (c ∈ w_containers w' ↔
          ∀ created_at, c_labels c !! LABEL_CREATED_AT = Some (LTime created_at) →
            float_gt_int (float_div_int (total_seconds (w_now w - created_at)) 60) max_age
            = false))
    ∧ (0 ≤ max_age →
       ∀ c created_at,
         c ∈ w_containers w →
         c_labels c !! LABEL_CREATED_AT = Some (LTime created_at) →
         w_now w - created_at < seconds (2 ^ 33) →
         (c ∈ w_containers w' ↔ w_now w - created_at ≤ minutes max_age)).
Proof.
  intros Hav Hh Hnd.
  destruct (cleanup_stale_containers_report max_age w Hav Hh Hnd) as [l Hrun].
  eexists _, _. split; [exact Hrun|]. split; [done|]. split; [done|]. split; [done|].
  cbn [w_containers upd set_log set_containers]. split.
  - intros c Hc. rewrite list_elem_of_In, filter_In, <- list_elem_of_In.
    unfold stale, age_exceeds. split.
    + intros [_ Hns] t Ht. rewrite Ht in Hns. by apply negb_true_iff in Hns.
    + intros Hage. split; [done|].
      destruct (c_labels c !! LABEL_CREATED_AT) as [[s|t]|]; [done| |done].
      apply negb_true_iff. by apply Hage.
  - intros H0 c t Hc Ht Hbound. rewrite list_elem_of_In, filter_In, <- list_elem_of_In.
    unfold stale. rewrite Ht, age_exceeds_exact by done.
    rewrite negb_true_iff, Z.gtb_ltb, Z.ltb_ge. tauto.
Qed.

(** At noon, with a ceiling of 100 minutes: the instances created 180
    and 121 minutes ago go, the one created 90 minutes ago stays. *)
Lemma stale_sweep_removes_stale_witness :
  ∃ r w',
    cleanup_stale_containers 100 w_three = (Ok r, w')
    ∧ sr_cleaned r = Some 2%nat
    ∧ map c_id (w_containers w') = [3].
Proof.
  destruct (stale_sweep_removes_stale 100 w_three) as (r & w' & Hrun & _ & Hn & Hcs & _).
  - reflexivity.
  - by repeat split.
  - by_compute.
  - exists r, w'. split; [exact Hrun|]. split; [exact Hn|]. by rewrite Hcs.
Defined.

(** ** Sweeping twice *)

Lemma filter_filter_negb {A} (p : A → bool) (l : list A) :
  List.filter p (List.filter (fun a => negb (p a)) l) = [].
Proof.
  apply filter_none_in. intros a Ha.
  apply list_elem_of_In, filter_In in Ha as [_ Ha]. by apply negb_true_iff.
Qed.

Lemma filter_negb_idemp {A} (p : A → bool) (l : list A) :
  List.filter (fun a => negb (p a)) (List.filter (fun a => negb (p a)) l)
  = List.filter (fun a => negb (p a)) l.
Proof. apply filter_idemp. Qed.

(** X14: both sweeps are idempotent on a runtime that cooperates: run
    again at the same reading of the clock, the expiry sweep and the stale
    sweep find nothing to remove, report 0 and leave the containers as
    the first run left them. *)
Theorem sweeps_are_idempotent max_age w :
  w_docker_available w = true → healthy w → NoDup (ids w) →
  (∃ r1 w1 r2 w2,
     cleanup_expired_containers w = (Ok r1, w1)
     ∧ cleanup_expired_containers w1 = (Ok r2, w2)
     ∧ cr_cleaned r2 = 0%nat ∧ cr_containers r2 = []
     ∧ w_containers w2 = w_containers w1)
  ∧ (∃ r1 w1 r2 w2,
       cleanup_stale_containers max_age w = (Ok r1, w1)
       ∧ cleanup_stale_containers max_age w1 = (Ok r2, w2)
       ∧ sr_cleaned r2 = Some 0%nat
       ∧ w_containers w2 = w_containers w1).
Proof.
  intros Hav Hh Hnd. split.
  - destruct (cleanup_expired_containers_healthy w Hav Hh Hnd)
      as (r1 & l1 & Hrun1 & _ & _ & _).
    set (w1 := upd l1 _ w) in Hrun1.
    assert (Hnd1 : NoDup (ids w1)) by (unfold ids, w1; simpl; by apply map_filter_NoDup).
    destruct (cleanup_expired_containers_healthy w1 Hav Hh Hnd1)
      as (r2 & l2 & Hrun2 & _ & Hcount & Hids).
    eexists r1, w1, r2, _. split; [exact Hrun1|]. split; [exact Hrun2|].
    unfold w1 in Hids. simpl in Hids. rewrite filter_filter_negb in Hids.
    rewrite Hcount, Hids. split; [done|]. split; [done|].
    unfold w1. simpl. apply filter_negb_idemp.
  - destruct (cleanup_stale_containers_report max_age w Hav Hh Hnd) as [l1 Hrun1].
    set (w1 := upd l1 _ w) in Hrun1.
    assert (Hnd1 : NoDup (ids w1)) by (unfold ids, w1; simpl; by apply map_filter_NoDup).
    destruct (cleanup_stale_containers_report max_age w1 Hav Hh Hnd1) as [l2 Hrun2].
    eexists _, w1, _, _. split; [exact Hrun1|]. split; [exact Hrun2|].
    unfold w1. simpl. rewrite filter_filter_negb. split; [done|].
    apply filter_negb_idemp.
Qed.

Lemma sweeps_are_idempotent_witness :
  (∃ r1 w1 r2 w2,
     cleanup_expired_containers w_three = (Ok r1, w1)
     ∧ cleanup_expired_containers w1 = (Ok r2, w2)
     ∧ cr_cleaned r2 = 0%nat ∧ cr_containers r2 = []
     ∧ w_containers w2 = w_containers w1)
  ∧ (∃ r1 w1 r2 w2,
       cleanup_stale_containers 60 w_three = (Ok r1, w1)
       ∧ cleanup_stale_containers 60 w1 = (Ok r2, w2)
       ∧ sr_cleaned r2 = Some 0%nat
       ∧ w_containers w2 = w_containers w1).
Proof.
  apply (sweeps_are_idempotent 60 w_three).
  - reflexivity.
  - by repeat split.
  - by_compute.
Defined.

(** ** A manager that has not seen the runtime *)

(** The world moved in its log and its clock only. *)
Definition only_logged (w w' : World) : Prop :=
  ∃ l t, w' = set_now t (set_log l w).

Lemma only_logged_refl w : only_logged w w.
Proof. exists (w_log w), (w_now w). by destruct w. Qed.

Lemma only_logged_trans w1 w2 w3 :
  only_logged w1 w2 → only_logged w2 w3 → only_logged w1 w3.
Proof. intros (l1 & t1 & ->) (l2 & t2 & ->). by exists l2, t2. Qed.

Lemma only_logged_log l w : only_logged w (set_log l w).
Proof. exists l, (w_now w). by destruct w. Qed.

Lemma run_cleanup_offline n : ∀ w,
  w_docker_available w = false →
  run_cleanup n w = (Ok tt, set_now (w_now w + Z.of_nat n * seconds CLEANUP_PERIOD_SECONDS) w).
Proof.
  induction n as [|n IH]; intros w Hav.
  - simpl. rewrite Z.add_0_r. by destruct w.
  - cbn [run_cleanup]. unfold run_cleanup_once, bind at 1, bind at 1, try_except.
    unfold bind at 1, get_world. rewrite Hav. unfold ret at 1, sleep, modify.
    rewrite IH by done. f_equal. unfold set_now; simpl. f_equal. lia.
Qed.

(** What each call but Spawn does when the flag is not set. *)
Lemma after_offline c w :
  w_docker_available w = false → is_spawn c = false → only_logged w (after c w).
Proof.
  intros Hav Hc. destruct c; try discriminate Hc; unfold after.
  - unfold kill_user_containers. rewrite (bind_ok _ _ _ _ _ (log_run _ _)).
    unfold bind at 1, get_world. set (wl := set_log _ w).
    change (w_docker_available wl) with (w_docker_available w). rewrite Hav.
    apply only_logged_log.
  - unfold get_user_active_lab, bind at 1, get_world. rewrite Hav. apply only_logged_refl.
  - unfold get_all_active_labs, bind at 1, get_world. rewrite Hav. apply only_logged_refl.
  - unfold cleanup_expired_containers, bind at 1, get_world. rewrite Hav.
    apply only_logged_refl.
  - unfold cleanup_stale_containers, bind at 1, get_world. rewrite Hav.
    apply only_logged_refl.
  - unfold extend_lab_timeout, bind at 1, get_world. rewrite Hav. apply only_logged_refl.
  - rewrite run_cleanup_offline by done.
    exists (w_log w), (w_now w + Z.of_nat turns * seconds CLEANUP_PERIOD_SECONDS).
    simpl. by destruct w.
Qed.

(** X15: only Spawn looks for the runtime again.  While the manager has
    not recorded the runtime as available, Kill, Status, the listing, both
    sweeps, Extend and the background loop do not call it, even when it
    answers and holds containers: after any sequence of them the world
    differs in the log and the clock only, and the flag is still unset.
    Kill then reports success with nothing killed, and Status
    [None]. *)
Theorem offline_calls_do_nothing calls w :
  w_docker_available w = false →
  forallb (fun c => negb (is_spawn c)) calls = true →
  only_logged w (after_all calls w)
  ∧ w_containers (after_all calls w) = w_containers w
  ∧ w_docker_available (after_all calls w) = false
  ∧ (∀ user_id force,
       ∃ kr, fst (kill_user_containers user_id force (after_all calls w)) = Ok kr
           ∧ kr_success kr = true ∧ kr_killed_count kr = 0%nat)
  ∧ (∀ user_id, fst (get_user_active_lab user_id (after_all calls w)) = Ok None).
Proof.
  intros Hav Hcalls.
  assert (H : only_logged w (after_all calls w)).
  { revert w Hav Hcalls. induction calls as [|c calls IH]; intros w Hav Hcalls.
    - apply only_logged_refl.
    - simpl in Hcalls |- *. apply andb_true_iff in Hcalls as [Hc Hcalls].
      apply negb_true_iff in Hc.
      pose proof (after_offline c w Hav Hc) as H1.
      eapply only_logged_trans; [exact H1|]. apply IH; [|done].
      destruct H1 as (l & t & ->). exact Hav. }
  split; [exact H|]. destruct H as (l & t & ->).
  split; [done|]. split; [exact Hav|]. split.
  - intros user_id force. unfold kill_user_containers.
    rewrite (bind_ok _ _ _ _ _ (log_run _ _)). unfold bind at 1, get_world.
    match goal with
    | |- context [negb (w_docker_available ?w0)] =>
        change (w_docker_available w0) with (w_docker_available w)
    end.
    rewrite Hav. eexists. by repeat split.
  - intros user_id. unfold get_user_active_lab, bind at 1, get_world.
    match goal with
    | |- context [negb (w_docker_available ?w0)] =>
        change (w_docker_available w0) with (w_docker_available w)
    end.
    by rewrite Hav.
Qed.

Lemma offline_calls_do_nothing_witness :
  w_containers (after_all [CallKill 42 true; CallSweepStale 0; CallSweepExpired] w_late)
  = w_containers w_sample
  ∧ w_docker_available
      (after_all [CallKill 42 true; CallSweepStale 0; CallSweepExpired] w_late) = false.
Proof.
  destruct (offline_calls_do_nothing
              [CallKill 42 true; CallSweepStale 0; CallSweepExpired] w_late)
    as (_ & Hcs & Hav & _).
  - reflexivity.
  - reflexivity.
  - split; [exact Hcs | exact Hav].
Defined.

(** ** Simulated answers *)

(** The handlers never let an exception through. *)
Lemma spawn_finish_ok fuel user_id image_name lab_id cport timeout out r w' :
  spawn_finish fuel user_id image_name lab_id cport timeout out = Some (r, w') →
  ∃ res, r = Ok res.
Proof.
  destruct out as [[res|e] w1]; [intros H; injection H as <- _; by eexists|].
  destruct (spawn_handle_other_fails e w1) as (code & err & msg & w2 & Hother).
  destruct e;
    try (unfold spawn_finish; rewrite Hother; intros H; injection H as <- _; by eexists).
  unfold spawn_finish. rewrite log_run.
  destruct (String.eqb image_name FALLBACK_IMAGE).
  { intros H; injection H as <- _; by eexists. }
  destruct (spawn_lab_container fuel user_id FALLBACK_IMAGE lab_id cport timeout _)
    as [[[res|e] w3]|]; [| |done].
  - intros H; injection H as <- _; by eexists.
  - rewrite log_run. intros H; injection H as <- _; by eexists.
Qed.

(** An exception leaves Spawn only when the flag was not set. *)
Lemma spawn_raises_offline fuel user_id image_name lab_id cport timeout w e w' :
  spawn_lab_container fuel user_id image_name lab_id cport timeout w = Some (Raise e, w') →
  w_docker_available w = false.
Proof.
  destruct fuel as [|fuel]; [done|]. rewrite spawn_lab_container_eq, spawn_enter_cases.
  cbv zeta. destruct (w_docker_available w); [|done].
  intros H. apply spawn_finish_ok in H as [res H]. discriminate.
Qed.

Lemma spawn_simulated_only fuel :
  ∀ user_id image_name lab_id cport timeout w info w',
    spawn_lab_container fuel user_id image_name lab_id cport timeout w
    = Some (Ok (SpawnSuccess info), w') →
    si_simulated info = true →
    simulation_mode w ∧ w_containers w' = w_containers w
    ∧ w_docker_available w' = false.
Proof.
  induction fuel as [|fuel IH]; intros user_id image_name lab_id cport timeout w info w' H Hsim;
    [done|].
  rewrite spawn_lab_container_eq in H.
  destruct (spawn_enter user_id image_name w) as [[[]|e] w0] eqn:He; [| |done].
  - exfalso. apply spawn_enter_true in He.
    destruct (spawn_try user_id image_name lab_id cport timeout w0) as [[res|e] w1] eqn:Ht.
    + injection H as -> ->.
      unfold spawn_try in Ht. step_as Ht la w2.
      apply spawn_settle_answer in Ht as (c' & _ & Hres). injection Hres as ->.
      discriminate Hsim.
    + frame (keeps_spawn_try (eq_on w_docker_available)) in Ht as Hav1.
      destruct (spawn_handle_other_fails e w1) as (code & err & msg & wo & Hother).
      destruct e; try (unfold spawn_finish in H; rewrite Hother in H; discriminate).
      unfold spawn_finish in H. rewrite log_run in H.
      destruct (String.eqb image_name FALLBACK_IMAGE); [discriminate|].
      match type of H with
      | match spawn_lab_container _ _ _ _ _ _ ?wf with _ => _ end = _ =>
          destruct (spawn_lab_container fuel user_id FALLBACK_IMAGE lab_id cport timeout wf)
            as [[[res|e] w4]|] eqn:Hrec; [| |discriminate]
      end.
      * injection H as -> ->.
        destruct (IH _ _ _ _ _ _ _ _ Hrec Hsim) as ([Hav _] & _).
        simpl in Hav. unfold eq_on in Hav1. congruence.
      * rewrite log_run in H. discriminate.
  - rewrite spawn_enter_cases in He. cbv zeta in He.
    destruct (w_docker_available w) eqn:Hav; [discriminate|].
    destruct (w_reachable w) eqn:Hr; [discriminate|]. injection He as <-.
    rewrite log_run in H. injection H as H.
    frame (keeps__simulate_spawn (eq_on w_containers)) in H as Hcs.
    frame (keeps__simulate_spawn (eq_on w_docker_available)) in H as Hav'.
    split; [by split|]. split; [exact Hcs|]. unfold eq_on in Hav'. by rewrite Hav'.
Qed.

(** A failure answer comes from the [try:] block: the flag is set. *)
Lemma spawn_failure_connected fuel user_id image_name lab_id cport timeout w
    code err msg w' :
  spawn_lab_container fuel user_id image_name lab_id cport timeout w
  = Some (Ok (SpawnFailure code err msg), w') →
  w_docker_available w' = true.
Proof.
  intros H. destruct fuel as [|fuel]; [done|]. rewrite spawn_lab_container_eq in H.
  destruct (spawn_enter user_id image_name w) as [[[]|e] w0] eqn:He; [| |done].
  - apply spawn_enter_true in He.
    destruct (spawn_try user_id image_name lab_id cport timeout w0) as [r1 w1] eqn:Ht.
    frame (keeps_spawn_try (eq_on w_docker_available)) in Ht as Hav1.
    apply (calls_spawn_finish
             (fun w w' => w_docker_available w = true → w_docker_available w' = true))
      in H; try done.
    + intros w2 w3 w4 H23 H34 H2. by apply H34, H23.
    + simpl. unfold eq_on in Hav1. congruence.
  - rewrite log_run in H. injection H as H. unfold _simulate_spawn in H.
    repeat (step H; try discriminate).
Qed.

(** An exception leaves Spawn from the simulation only. *)
Lemma spawn_raise_simulation fuel user_id image_name lab_id cport timeout w e w' :
  spawn_lab_container fuel user_id image_name lab_id cport timeout w = Some (Raise e, w') →
  simulation_mode w ∧ w_containers w' = w_containers w
  ∧ w_docker_available w' = false.
Proof.
  intros H. pose proof (spawn_raises_offline _ _ _ _ _ _ _ _ _ H) as Hav.
  destruct fuel as [|fuel]; [done|].
  rewrite spawn_lab_container_eq, spawn_enter_cases in H. cbv zeta in H.
  rewrite Hav in H. destruct (w_reachable w) eqn:Hr.
  - apply spawn_finish_ok in H as [res H]. discriminate.
  - rewrite log_run in H. injection H as H.
    frame (keeps__simulate_spawn (eq_on w_containers)) in H as Hcs.
    frame (keeps__simulate_spawn (eq_on w_docker_available)) in H as Hav'.
    split; [by split|]. split; [exact Hcs|]. unfold eq_on in Hav'. by rewrite Hav'.
Qed.

(** X16: what an outcome of Spawn says of the manager and the runtime.
    A success flagged [simulated] means that the manager had not recorded
    the runtime as available and that the runtime did not answer; nothing
    was created and the manager is still in simulation mode.  A success
    that is not flagged means that the runtime answered when the call
    began, and the flag is set afterwards.  A failure carries no flag and
    says nothing of the runtime: it comes from a manager whose flag is
    set, whether the runtime answers or not.  An exception leaves Spawn
    in simulation mode only, with nothing created. *)
Theorem simulated_means_unreachable fuel user_id image_name lab_id cport timeout w r w' :
  spawn_lab_container fuel user_id image_name lab_id cport timeout w = Some (r, w') →
  match r with
  | Ok (SpawnSuccess info) =>
      if si_simulated info
      then simulation_mode w ∧ w_containers w' = w_containers w
           ∧ w_docker_available w' = false
      else w_docker_available w' = true ∧ w_reachable w = true
  | Ok (SpawnFailure _ _ _) => w_docker_available w' = true
  | Raise _ =>
      simulation_mode w ∧ w_containers w' = w_containers w
      ∧ w_docker_available w' = false
  end.
Proof.
  intros H. destruct r as [[info|code err msg]|e].
  - destruct (si_simulated info) eqn:Hsim.
    + by eapply spawn_simulated_only.
    + destruct (spawn_describes _ _ _ _ _ _ _ _ _ H Hsim)
        as (c & (_ & _ & _ & _ & _ & _ & _ & _ & _ & Hav & Hr) & _).
      split; [exact Hav|].
      apply spawn_lab_container_static in H. unfold static in H. congruence.
  - by eapply spawn_failure_connected.
  - by eapply spawn_raise_simulation.
Qed.

Definition info_offline : SpawnInfo :=
  Eval vm_compute in
    match spawn_lab_container 1 42 SQLI_IMAGE (Some 7) 80 120 w_offline with
    | Some (Ok (SpawnSuccess info), _) => info
    | _ => simulated_info 42 "" None w_offline
    end.

Definition w_offline_spawned : World :=
  Eval vm_compute in
    match spawn_lab_container 1 42 SQLI_IMAGE (Some 7) 80 120 w_offline with
    | Some (_, w') => w'
    | None => w_offline
    end.

Lemma simulated_means_unreachable_witness :
  si_simulated info_offline = true
  ∧ simulation_mode w_offline
  ∧ w_containers w_offline_spawned = w_containers w_offline
  ∧ w_docker_available w_offline_spawned = false.
Proof.
  split; [reflexivity|].
  apply (simulated_means_unreachable 1 42 SQLI_IMAGE (Some 7) 80 120 w_offline
           (Ok (SpawnSuccess info_offline)) w_offline_spawned).
  vm_compute. reflexivity.
Defined.

(** ** The admin listing re-connects too late *)

(** X17: the route [GET /api/lab/all] asks for the listing before it
    reads the property [is_docker_available], which is what re-connects.
    So the first request after the runtime has come up answers
    [docker_available = true] with an empty list and a count of 0,
    however many labs run; the request after that lists them. *)
Theorem admin_listing_lags w :
  w_docker_available w = false → w_reachable w = true →
  ∃ w1,
    get_all_labs w
    = (Ok {| al_count := 0; al_labs := []; al_docker_available := true |}, w1)
    ∧ w_containers w1 = w_containers w
    ∧ get_all_labs w1
      = (Ok {| al_count := length (List.filter listed (w_containers w));
               al_labs := map lab_summary (List.filter listed (w_containers w));
               al_docker_available := true |}, w1).
Proof.
  intros Hav Hr. unfold get_all_labs at 1.
  unfold bind at 1, get_all_active_labs at 1, bind at 1, get_world. rewrite Hav.
  cbn [negb]. unfold ret at 1.
  unfold bind at 1, is_docker_available, bind at 1, get_world. rewrite Hav. cbn [negb].
  unfold _try_connect_docker, bind at 1, get_world, ping_ok. rewrite Hr.
  unfold bind at 1, modify. rewrite (bind_ok _ _ _ _ _ (log_run _ _)).
  eexists. split; [reflexivity|]. split; [reflexivity|].
  set (w1 := set_log _ _).
  assert (Hc : connected w1) by (split; [reflexivity | exact Hr]).
  unfold get_all_labs. rewrite (bind_ok _ _ _ _ _ (get_all_active_labs_connected w1 Hc)).
  unfold bind at 1, is_docker_available, bind at 1, get_world.
  change (w_docker_available w1) with true. cbn [negb].
  unfold ret. by rewrite length_map.
Qed.

Lemma admin_listing_lags_witness :
  ∃ w1,
    get_all_labs w_late
    = (Ok {| al_count := 0; al_labs := []; al_docker_available := true |}, w1)
    ∧ ∃ answer, get_all_labs w1 = (Ok answer, w1) ∧ al_count answer = 2%nat.
Proof.
  destruct (admin_listing_lags w_late) as (w1 & Hfirst & _ & Hsecond).
  - reflexivity.
  - reflexivity.
  - exists w1. split; [exact Hfirst|]. eexists. split; [exact Hsecond|]. reflexivity.
Defined.

(** ** Without a running lab *)

Lemma get_user_active_lab_none user_id w :
  connected w → active_instance user_id w = None →
  get_user_active_lab user_id w = (Ok None, w).
Proof.
  intros [Hav Hr] Hnone. rewrite (get_user_active_lab_connected user_id w Hav Hr).
  by rewrite Hnone.
Qed.

(** X18: for an owner with no running container, one that has exited
    included, Extend and [execute_command] both answer "No active lab
    found"; they change nothing, write no log line, and the runtime's
    [exec_run] is not called. *)
Theorem no_active_lab_no_effect user_id w :
  connected w → active_instance user_id w = None →
  (∀ extra,
     extend_lab_timeout user_id extra w = (Ok (ExtendFailure "No active lab found"), w))
  ∧ (∀ exec_run command,
       execute_command exec_run user_id command w
       = (Ok (ExecFailure "No active lab found"), w)).
Proof.
  intros Hc Hnone. pose proof (get_user_active_lab_none user_id w Hc Hnone) as Hlab.
  destruct Hc as [Hav Hr]. split.
  - intros extra. unfold extend_lab_timeout, bind at 1, get_world. rewrite Hav.
    cbn [negb]. erewrite try_ok; [reflexivity|]. by rewrite (bind_ok _ _ _ _ _ Hlab).
  - intros exec_run command. unfold execute_command, bind at 1, get_world. rewrite Hav.
    cbn [negb]. erewrite try_ok; [reflexivity|]. by rewrite (bind_ok _ _ _ _ _ Hlab).
Qed.

(** Owner 8's only container has exited. *)
Lemma no_active_lab_no_effect_witness :
  (∀ extra,
     extend_lab_timeout 8 extra w_three = (Ok (ExtendFailure "No active lab found"), w_three))
  ∧ (∀ exec_run command,
       execute_command exec_run 8 command w_three
       = (Ok (ExecFailure "No active lab found"), w_three)).
Proof.
  apply (no_active_lab_no_effect 8 w_three).
  - split; reflexivity.
  - vm_compute. reflexivity.
Defined.

(** ** A command in the lab *)

(** The text of a byte string that decodes, empty for [None] and for
    [b""]. *)
Definition text_of (b : option Bytes) : string :=
  match b with
  | Some (Utf8 s) => s
  | _ => ""
  end.

Lemma decode_or_empty_text b w :
  b ≠ Some Malformed → decode_or_empty b w = (Ok (text_of b), w).
Proof.
  intros Hb. destruct b as [[s|]|]; simpl; [|done|done].
  unfold bytes_truthy. destruct (String.eqb s "") eqn:E; simpl; [|done].
  apply String.eqb_eq in E. by subst.
Qed.

(** X19: [execute_command] runs [/bin/sh -c command] in the container
    that Status reports for the owner, the newest running one.  When the
    output decodes, the answer is a success that carries standard output
    followed by standard error and the exit code as it is: a command that
    fails inside the container is still a success of the call.  When
    either stream does not decode, the answer is a failure. *)
Theorem execute_command_in_active_lab exec_run user_id command w c el w1 :
  connected w → NoDup (ids w) →
  active_instance user_id w = Some c →
  exec_run c ["/bin/sh"; "-c"; command] w = (Ok el, w1) →
  (el_stdout el ≠ Some Malformed → el_stderr el ≠ Some Malformed →
   execute_command exec_run user_id command w
   = (Ok (ExecOutput (text_of (el_stdout el) +:+ text_of (el_stderr el)) (el_exit_code el)),
      w1))
  ∧ (el_stdout el = Some Malformed ∨
     (el_stdout el ≠ Some Malformed ∧ el_stderr el = Some Malformed) →
     ∃ error, fst (execute_command exec_run user_id command w) = Ok (ExecFailure error)).
Proof.
  intros [Hav Hr] Hnd Hact Hexec.
  assert (Hin : c ∈ w_containers w).
  { unfold active_instance in Hact. destruct (running_instances user_id w) eqn:E; [done|].
    injection Hact as ->.
    assert (Hc : c ∈ running_instances user_id w) by (rewrite E; by left).
    apply list_elem_of_In, filter_In in Hc as [Hc _]. by apply list_elem_of_In. }
  assert (Hstart : ∀ k h,
    (w0 <-- get_world ;;
     if negb (w_docker_available w0)
     then ret (ExecOutput ("simulated_user@lab:~$ " +:+ command +:+ NEWLINE
                           +:+ "[SIMULATION] Command executed." +:+ NEWLINE) 0)
     else try_except
            (lab <-- get_user_active_lab user_id ;;
             match lab with
             | None => ret (ExecFailure "No active lab found")
             | Some lab =>
                 container <-- containers_get (li_container_id lab) ;;
                 exec_log <-- exec_run container ["/bin/sh"; "-c"; command] ;;
                 k exec_log
             end) h) w
    = try_except (k el) h w1).
  { intros k h. unfold bind at 1, get_world. rewrite Hav. cbn [negb].
    unfold try_except.
    rewrite (bind_ok _ _ _ _ _ (get_user_active_lab_connected user_id w Hav Hr)), Hact.
    change (lab_info_of w <$> Some c) with (Some (lab_info_of w c)). cbv iota.
    change (li_container_id (lab_info_of w c)) with (c_id c).
    rewrite (bind_ok _ _ _ _ _ (containers_get_ok _ _ _ Hr (find_container_elem w c Hnd Hin))).
    by rewrite (bind_ok _ _ _ _ _ Hexec). }
  split.
  - intros Hout Herr. unfold execute_command. rewrite Hstart. unfold try_except.
    rewrite (bind_ok _ _ _ _ _ (decode_or_empty_text _ _ Hout)).
    by rewrite (bind_ok _ _ _ _ _ (decode_or_empty_text _ _ Herr)).
  - intros Hbad. unfold execute_command. rewrite Hstart. unfold try_except.
    destruct Hbad as [Hout|[Hout Herr]].
    + rewrite Hout. by eexists.
    + rewrite (bind_ok _ _ _ _ _ (decode_or_empty_text _ _ Hout)).
      rewrite Herr. by eexists.
Qed.

(** A runtime whose containers have no [grep]. *)
Definition exec_no_grep (c : Container) (argv : list string) : M ExecLog :=
  ret {| el_exit_code := 127; el_stdout := None;
         el_stderr := Some (Utf8 "/bin/sh: grep: not found") |}.

Lemma execute_command_in_active_lab_witness :
  execute_command exec_no_grep 42 "grep root /etc/passwd" w_sample
  = (Ok (ExecOutput "/bin/sh: grep: not found" 127), w_sample).
Proof.
  apply (execute_command_in_active_lab exec_no_grep 42 "grep root /etc/passwd" w_sample
           (sample_instance 2 42 "running" (NOON - minutes 30) (NOON + minutes 90) 20002)
           {| el_exit_code := 127; el_stdout := None;
              el_stderr := Some (Utf8 "/bin/sh: grep: not found") |} w_sample).
  - split; reflexivity.
  - by_compute.
  - vm_compute. reflexivity.
  - reflexivity.
  - discriminate.
  - discriminate.
Defined.

(** ** Kill, gracefully or not *)



(** ** Spawn, then Kill *)

(** X21: Kill undoes Spawn.  On a runtime that cooperates, a Kill that
    follows a Spawn that succeeded removes one container, the one the Spawn
    answered with, and leaves the runtime with the containers it had before
    the Spawn less those of the owner. *)
Theorem kill_undoes_spawn fuel user_id image_name lab_id cport timeout force w info w' :
  healthy w → well_formed w →
  spawn_lab_container fuel user_id image_name lab_id cport timeout w
  = Some (Ok (SpawnSuccess info), w') →
  ∃ kr w2,
    kill_user_containers user_id force w' = (Ok kr, w2)
    ∧ kr_success kr = true ∧ kr_killed_count kr = 1%nat
    ∧ RealId <$> kr_containers kr = [si_container_id info]
    ∧ w_containers w2
      = List.filter (fun c => negb (tagged user_id c)) (w_containers w).
Proof.
  intros Hh Hwf H.
  pose proof (spawn_lab_container_well_formed _ _ _ _ _ _ _ _ _ H Hwf) as [Hnd' _].
  destruct (spawn_success_healthy _ _ _ _ _ _ _ _ _ Hh Hwf H)
    as (c & Hcs & _ & _ & Hlab & Hid & _ & _ & _ & Hst & Hav).
  assert (Hh' : healthy w') by (by apply (healthy_static w)).
  assert (Hc' : connected w') by (split; [done | apply Hh']).
  destruct (kill_user_containers_healthy user_id force w' Hav Hh' Hnd')
    as (kr & l & Hrun & Hok & Hids).
  destruct (kill_user_containers_connected user_id force w' Hc' Hnd')
    as (kr1 & w1 & Hrun1 & _ & _ & Hcount & _).
  rewrite Hrun in Hrun1. injection Hrun1 as <- <-.
  assert (Ht : tagged user_id c = true).
  { unfold tagged. rewrite Hlab. apply bool_decide_eq_true_2.
    unfold spawn_labels. by rewrite lookup_insert_eq. }
  assert (Hf1 : List.filter (tagged user_id) (w_containers w') = [c]).
  { rewrite Hcs. simpl. rewrite Ht. f_equal.
    apply filter_none_in. intros d Hd.
    apply list_elem_of_In, filter_In in Hd as [_ Hd]. by apply negb_true_iff. }
  assert (Hf2 : List.filter (fun c => negb (tagged user_id c)) (w_containers w')
                = List.filter (fun c => negb (tagged user_id c)) (w_containers w)).
  { rewrite Hcs. simpl. rewrite Ht. simpl. apply filter_idemp. }
  rewrite Hf1 in Hids. rewrite Hf2 in Hrun.
  eexists kr, _. split; [exact Hrun|]. split; [exact Hok|].
  rewrite Hcount, Hids. split; [done|]. split; [|done]. simpl. by rewrite Hid.
Qed.

Lemma kill_undoes_spawn_witness :
  ∃ kr w2,
    kill_user_containers 42 false w_dvwa = (Ok kr, w2)
    ∧ kr_success kr = true ∧ kr_killed_count kr = 1%nat
    ∧ RealId <$> kr_containers kr = [si_container_id info_dvwa]
    ∧ map c_id (w_containers w2) = [1].
Proof.
  destruct (kill_undoes_spawn 1 42 "vulnerables/web-dvwa" (Some 7) 80 120 false w_sample
              info_dvwa w_dvwa)
    as (kr & w2 & Hrun & Hok & Hn & Hids & Hcs).
  - exact w_sample_healthy.
  - exact w_sample_well_formed.
  - vm_compute. reflexivity.
  - exists kr, w2. split; [exact Hrun|]. split; [exact Hok|]. split; [exact Hn|].
    split; [exact Hids | by rewrite Hcs].
Defined.

(** ** The port of a new lab *)

Lemma spawn_steps_2_to_5_inv user_id image_name lab_id cport timeout w la w1 :
  spawn_steps_2_to_5 user_id image_name lab_id cport timeout w = (Ok la, w1) →
  PORT_RANGE_START ≤ la_host_port la ≤ PORT_RANGE_END
  ∧ port_in_use w (la_host_port la) = false
  ∧ (∃ c, w_containers w1 = c :: w_containers w)
  ∧ w_bound_ports w1 = w_bound_ports w.
Proof.
  intros H.
  frame (parts_steps_2_to_5 (eq_on static) user_id) in H as Hst.
  assert (Hbound : w_bound_ports w1 = w_bound_ports w).
  { unfold eq_on, static in Hst. congruence. }
  unfold spawn_steps_2_to_5 in H.
  destruct (find_free_port_spec w) as (r & rnd & Hrun & Hr).
  unfold bind at 1 in H. rewrite Hrun in H. destruct r as [p|e]; [|done].
  destruct Hr as [Hrange Hfree].
  rewrite (bind_ok _ _ _ _ _ (log_run _ _)) in H.
  unfold bind at 1, utcnow at 1 in H. unfold bind at 1, utcnow at 1 in H.
  step H. apply timedelta_minutes_inv in E as [-> E]. subst.
  step H. apply datetime_add_inv in E as [-> E]. destruct E as [-> _].
  match type of H with
  | bind (token_hex 4) _ ?w0 = _ =>
      destruct (token_hex_run 4 w0) as (sfx & rnd' & Ht);
      rewrite (bind_ok _ _ _ _ _ Ht) in H; clear Ht
  end.
  step H. apply containers_run_inv in E. destruct E as (settled & _ & _ & _ & _ & -> & ->).
  rewrite (bind_ok _ _ _ _ _ (log_run _ _)) in H. injection H as <- <-.
  split; [exact Hrange|]. split; [exact Hfree|]. split; [|exact Hbound].
  eexists. reflexivity.
Qed.

(** Nothing else in [w'] holds the port of the answer: no other process,
    and no running container but the newest. *)
Definition port_is_clear (info : SpawnInfo) (w' : World) : Prop :=
  PORT_RANGE_START ≤ si_port info ≤ PORT_RANGE_END
  ∧ (si_port info ∉ w_bound_ports w')
  ∧ ∃ c rest, w_containers w' = c :: rest
            ∧ ∀ d, d ∈ rest → publishes (si_port info) d = false.

Lemma port_in_use_false w p :
  port_in_use w p = false →
  (p ∉ w_bound_ports w) ∧ ∀ d, d ∈ w_containers w → publishes p d = false.
Proof.
  unfold port_in_use. intros H. apply orb_false_iff in H as [Hb He]. split.
  - by apply bool_decide_eq_false_1 in Hb.
  - intros d Hd. destruct (publishes p d) eqn:E; [|done].
    assert (existsb (publishes p) (w_containers w) = true); [|congruence].
    apply existsb_exists. exists d. split; [by apply list_elem_of_In | done].
Qed.

Lemma spawn_try_port_is_clear user_id image_name lab_id cport timeout w info w' :
  spawn_try user_id image_name lab_id cport timeout w = (Ok (SpawnSuccess info), w') →
  port_is_clear info w'.
Proof.
  intros Ht.
  frame (keeps_spawn_try (eq_on static)) in Ht as Hst.
  rewrite spawn_try_eq in Ht.
  destruct (kill_user_containers_returns user_id true w) as (kr & wk & Hk).
  rewrite (bind_ok _ _ _ _ _ Hk) in Ht.
  frame (keeps_kill_user_containers (eq_on static)) in Hk as Hstk.
  unfold spawn_after_kill in Ht. step_as Ht la w1.
  apply spawn_steps_2_to_5_inv in E as (Hrange & Hfree & (c & Hcs) & Hbound).
  pose proof Ht as Hinv.
  apply spawn_settle_inv in Hinv as (Hcs2 & _).
  apply spawn_settle_answer in Ht as (c' & _ & Hres). injection Hres as ->.
  apply port_in_use_false in Hfree as [Hnb Hnp].
  unfold port_is_clear. cbn [si_port]. split; [exact Hrange|]. split.
  - assert (w_bound_ports w' = w_bound_ports wk); [|congruence].
    unfold eq_on, static in Hst, Hstk. congruence.
  - exists c, (w_containers wk). split; [congruence | exact Hnp].
Qed.

Lemma spawn_port_is_clear fuel :
  ∀ user_id image_name lab_id cport timeout w info w',
    spawn_lab_container fuel user_id image_name lab_id cport timeout w
    = Some (Ok (SpawnSuccess info), w') →
    si_simulated info = false →
    port_is_clear info w'.
Proof.
  induction fuel as [|fuel IH]; intros user_id image_name lab_id cport timeout w info w' H Hsim;
    [done|].
  rewrite spawn_lab_container_eq in H.
  destruct (spawn_enter user_id image_name w) as [[[]|e] w0] eqn:He; [| |done].
  - destruct (spawn_try user_id image_name lab_id cport timeout w0) as [[res|e] w1] eqn:Ht.
    + injection H as -> ->. by eapply spawn_try_port_is_clear.
    + destruct (spawn_handle_other_fails e w1) as (code & err & msg & wo & Hother).
      destruct e; try (unfold spawn_finish in H; rewrite Hother in H; discriminate).
      unfold spawn_finish in H. rewrite log_run in H.
      destruct (String.eqb image_name FALLBACK_IMAGE); [discriminate|].
      match type of H with
      | match spawn_lab_container _ _ _ _ _ _ ?wf with _ => _ end = _ =>
          destruct (spawn_lab_container fuel user_id FALLBACK_IMAGE lab_id cport timeout wf)
            as [[[res|e] w4]|] eqn:Hrec; [| |discriminate]
      end.
      * injection H as -> ->. by eapply IH.
      * rewrite log_run in H. discriminate.
  - rewrite log_run in H. injection H as H.
    unfold _simulate_spawn in H.
    repeat (step H; try discriminate). injection H as <- _. discriminate.
Qed.

(** X22: the host port of a real answer is the lab's alone.  It lies in
    20000..30000, no other process has it bound, and the only running
    container of the runtime that publishes it is the container of the
    answer, whatever the runtime refused during the call. *)
Theorem spawn_port_is_free fuel user_id image_name lab_id cport timeout w info w' :
  spawn_lab_container fuel user_id image_name lab_id cport timeout w
  = Some (Ok (SpawnSuccess info), w') →
  si_simulated info = false →
  PORT_RANGE_START ≤ si_port info ≤ PORT_RANGE_END
  ∧ (si_port info ∉ w_bound_ports w')
  ∧ ∃ c rest,
      w_containers w' = c :: rest
      ∧ si_container_id info = RealId (c_id c)
      ∧ publishes (si_port info) c = true
      ∧ ∀ d, d ∈ rest → publishes (si_port info) d = false.
Proof.
  intros H Hsim.
  destruct (spawn_port_is_clear _ _ _ _ _ _ _ _ _ H Hsim)
    as (Hrange & Hnb & c & rest & Hcs & Hrest).
  destruct (spawn_describes _ _ _ _ _ _ _ _ _ H Hsim)
    as (c' & (Hhead & Hid & _ & _ & Hports & _ & Hrun & _) & _).
  rewrite Hcs in Hhead. injection Hhead as <-.
  split; [exact Hrange|]. split; [exact Hnb|].
  exists c, rest. split; [exact Hcs|]. split; [exact Hid|]. split; [|exact Hrest].
  unfold publishes. rewrite Hrun, Hports. simpl. apply Z.eqb_refl.
Qed.

Lemma spawn_port_is_free_witness :
  20000 ≤ si_port info_dvwa ≤ 30000
  ∧ (si_port info_dvwa ∉ w_bound_ports w_dvwa)
  ∧ ∃ c rest,
      w_containers w_dvwa = c :: rest
      ∧ si_container_id info_dvwa = RealId (c_id c)
      ∧ publishes (si_port info_dvwa) c = true
      ∧ ∀ d, d ∈ rest → publishes (si_port info_dvwa) d = false.
Proof.
  apply (spawn_port_is_free 1 42 "vulnerables/web-dvwa" (Some 7) 80 120 w_sample
           info_dvwa w_dvwa).
  - vm_compute. reflexivity.
  - reflexivity.
Defined.

(** ** The background loop and the expiry *)

Lemma elem_of_swept n : ∀ now cs c,
  c ∈ cs →
  (∀ k, (k < n)%nat →
     stale (now + Z.of_nat k * seconds CLEANUP_PERIOD_SECONDS) STALE_MAX_AGE_MINUTES c
     = false) →
  c ∈ swept n now cs.
Proof.
  induction n as [|n IH]; intros now cs c Hc Hk; simpl; [done|].
  apply IH.
  - apply list_elem_of_In, filter_In. split; [by apply list_elem_of_In|].
    apply negb_true_iff. specialize (Hk 0%nat ltac:(lia)).
    by rewrite Z.add_0_r in Hk.
  - intros k Hlt. specialize (Hk (S k) ltac:(lia)).
    replace (now + seconds CLEANUP_PERIOD_SECONDS
             + Z.of_nat k * seconds CLEANUP_PERIOD_SECONDS)
      with (now + Z.of_nat (S k) * seconds CLEANUP_PERIOD_SECONDS) by lia.
    exact Hk.
Qed.

(** X23: the background loop does not enforce the expiry.  Its turns run
    the stale sweep only, so on a runtime that cooperates a container stays
    through every turn at which it is at most 60 minutes old, whatever its
    [expires_at] label says: a lab spawned with a timeout under an hour
    outlives its expiry unless the expiry sweep is called from
    outside. *)
Theorem background_loop_ignores_expiry turns w c created_at :
  w_docker_available w = true → healthy w → NoDup (ids w) →
  c ∈ w_containers w →
  c_labels c !! LABEL_CREATED_AT = Some (LTime created_at) →
  w_now w + Z.of_nat turns * seconds CLEANUP_PERIOD_SECONDS - created_at
  ≤ minutes STALE_MAX_AGE_MINUTES + seconds CLEANUP_PERIOD_SECONDS →
  ∃ w',
    run_cleanup turns w = (Ok tt, w')
    ∧ c ∈ w_containers w'
    ∧ w_now w' = w_now w + Z.of_nat turns * seconds CLEANUP_PERIOD_SECONDS.
Proof.
  intros Hav Hh Hnd Hc Hlab Hage.
  destruct (run_cleanup_healthy turns w Hav Hh Hnd) as [l Hrun].
  eexists. split; [exact Hrun|]. split; [|reflexivity].
  cbn [w_containers set_now upd set_log set_containers].
  apply elem_of_swept; [exact Hc|]. intros k Hk.
  unfold stale. rewrite Hlab.
  apply (age_exceeds_false _ STALE_MAX_AGE_MINUTES); [done | done |].
  unfold seconds, minutes, CLEANUP_PERIOD_SECONDS, STALE_MAX_AGE_MINUTES,
    MICROS_PER_MINUTE, MICROS_PER_SECOND in *. nia.
Qed.

(** A lab spawned ten minutes ago with a timeout of five minutes. *)
Definition i_short : Container :=
  sample_instance 1 42 "running" (NOON - minutes 10) (NOON - minutes 5) 20001.

Definition w_short : World :=
  {| w_docker_available := true; w_log := []; w_cleanup_thread := true;
     w_reachable := true;
     w_containers := [i_short];
     w_next_id := 2; w_images := sample_images;
     w_kill_fails := []; w_stop_fails := []; w_remove_fails := [];
     w_bound_ports := []; w_host_ip := "192.168.1.10"; w_now := NOON;
     w_random := [] |}.

Lemma background_loop_ignores_expiry_witness :
  expired (w_now w_short) i_short = true
  ∧ ∃ w',
      run_cleanup 10 w_short = (Ok tt, w')
      ∧ i_short ∈ w_containers w'
      ∧ w_now w' = NOON + minutes 50.
Proof.
  split; [reflexivity|].
  destruct (background_loop_ignores_expiry 10 w_short i_short (NOON - minutes 10))
    as (w' & Hrun & Hin & Hnow).
  - reflexivity.
  - by repeat split.
  - by_compute.
  - by left.
  - reflexivity.
  - vm_compute. discriminate.
  - exists w'. split; [exact Hrun|]. split; [exact Hin|]. rewrite Hnow. reflexivity.
Defined.

(** ** The sweeps on a runtime that does not cooperate *)

Lemma kill_if_running_then_remove_touches c w r w' :
  NoDup (ids w) →
  kill_if_running_then_remove c w = (r, w') →
  touches_only (c_id c) (w_containers w) (w_containers w').
Proof.
  intros Hnd H. unfold kill_if_running_then_remove in H.
  set (stop := if is_running c then container_kill c else ret tt) in H.
  assert (Hstop : ∀ r1 w1, stop w = (r1, w1) →
            w1 = w ∨ (r1 = Ok tt
                      ∧ w1 = set_containers (mark_exited (c_id c) (w_containers w)) w)).
  { intros r1 w1. unfold stop. destruct (is_running c).
    - intros Hk. apply container_kill_inv in Hk as [[-> ->]|(e & -> & ->)]; by eauto.
    - intros Hk. injection Hk as <- <-. by left. }
  destruct (stop w) as [[[]|e] w1] eqn:Es.
  - rewrite (bind_ok _ _ _ _ _ Es) in H.
    apply container_remove_inv in H as [(-> & -> & _)|(e & -> & ->)].
    + destruct (Hstop _ _ eq_refl) as [->|[_ ->]]; simpl.
      * by apply touches_only_drop.
      * rewrite drop_mark_exited. by apply touches_only_drop.
    + destruct (Hstop _ _ eq_refl) as [->|[_ ->]]; simpl.
      * by apply touches_only_same.
      * by apply touches_only_exited.
  - rewrite (bind_raise _ _ _ _ _ Es) in H. injection H as _ <-.
    destruct (Hstop _ _ eq_refl) as [->|[? _]]; [|done]. by apply touches_only_same.
Qed.

Section Loop.
Context {S : Type}.
Variable body : Container → S → M S.
Variable sel : Container → bool.

(** One turn may stop or remove its own container, and only when [sel]
    picks it. *)
Hypothesis body_touches : ∀ c acc w r w',
  NoDup (ids w) → body c acc w = (r, w') →
  touches_only (c_id c) (w_containers w) (w_containers w')
  ∧ (sel c = false → w_containers w' = w_containers w).

Lemma loop_spares L : ∀ w acc r w',
  NoDup (ids w) →
  for_each L body acc w = (r, w') →
  NoDup (ids w')
  ∧ ∀ d, d ∈ w_containers w →
         (∀ c, c ∈ L → sel c = true → c_id c ≠ c_id d) →
         d ∈ w_containers w'.
Proof.
  induction L as [|c L IH]; intros w acc r w' Hnd H; simpl in H.
  - injection H as _ <-. done.
  - destruct (body c acc w) as [[acc1|e] w1] eqn:E.
    + rewrite (bind_ok _ _ _ _ _ E) in H.
      destruct (body_touches _ _ _ _ _ Hnd E) as [(Hnd1 & Hkeep & _) Hsame].
      destruct (IH _ _ _ _ Hnd1 H) as [Hnd' Hrest]. split; [done|].
      intros d Hd Hsel. apply Hrest.
      * destruct (sel c) eqn:Es.
        -- apply Hkeep; [done|]. intros Heq. eapply Hsel; [by left | done | done].
        -- by rewrite Hsame.
      * intros c' Hc'. apply Hsel. by right.
    + rewrite (bind_raise _ _ _ _ _ E) in H. injection H as _ <-.
      destruct (body_touches _ _ _ _ _ Hnd E) as [(Hnd1 & Hkeep & _) Hsame].
      split; [done|]. intros d Hd Hsel.
      destruct (sel c) eqn:Es.
      * apply Hkeep; [done|]. intros Heq. eapply Hsel; [by left | done | done].
      * by rewrite Hsame.
Qed.
End Loop.

Lemma expire_one_touches now c acc w r w' :
  NoDup (ids w) → expire_one now c acc w = (r, w') →
  touches_only (c_id c) (w_containers w) (w_containers w')
  ∧ (expired now c = false → w_containers w' = w_containers w).
Proof.
  intros Hnd H. unfold expire_one, try_except, expired in *.
  destruct (c_labels c !! LABEL_EXPIRES_AT) as [[s|t]|]; simpl in H.
  - assert (w' = w) as ->; [|split; [by apply touches_only_same | done]].
    destruct (String.eqb s ""); simpl in H; by injection H as _ <-.
  - unfold bind at 1, ret at 1 in H. destruct (now >? t).
    + rewrite (bind_ok _ _ _ _ _ (log_run _ _)) in H.
      set (wl := set_log _ w) in H.
      destruct (kill_if_running_then_remove c wl) as [[[]|e] w1] eqn:Ek.
      * rewrite (bind_ok _ _ _ _ _ Ek) in H. injection H as _ <-.
        split; [|done]. by apply (kill_if_running_then_remove_touches c wl _ _ Hnd Ek).
      * rewrite (bind_raise _ _ _ _ _ Ek) in H. injection H as _ <-.
        split; [|done]. by apply (kill_if_running_then_remove_touches c wl _ _ Hnd Ek).
    + injection H as _ <-. split; [by apply touches_only_same | done].
  - injection H as _ <-. split; [by apply touches_only_same | done].
Qed.

Lemma stale_one_touches now m c acc w r w' :
  NoDup (ids w) → stale_one now m c acc w = (r, w') →
  touches_only (c_id c) (w_containers w) (w_containers w')
  ∧ (stale now m c = false → w_containers w' = w_containers w).
Proof.
  intros Hnd H. unfold stale_one, try_except, stale, age_exceeds in *.
  destruct (c_labels c !! LABEL_CREATED_AT) as [[s|t]|]; simpl in H.
  - assert (w_containers w' = w_containers w) as Hcs.
    { destruct (String.eqb s ""); simpl in H; [by injection H as _ <-|].
      rewrite (bind_ok _ _ _ _ _ (log_run _ _)) in H. by injection H as _ <-. }
    rewrite Hcs. split; [by apply touches_only_same | done].
  - unfold bind at 1, ret at 1 in H. destruct (float_gt_int _ m).
    + rewrite (bind_ok _ _ _ _ _ (log_run _ _)) in H.
      set (wl := set_log _ w) in H.
      destruct (kill_if_running_then_remove c wl) as [[[]|e] w1] eqn:Ek.
      * rewrite (bind_ok _ _ _ _ _ Ek) in H. injection H as _ <-.
        split; [|done]. by apply (kill_if_running_then_remove_touches c wl _ _ Hnd Ek).
      * rewrite (bind_raise _ _ _ _ _ Ek) in H.
        rewrite (bind_ok _ _ _ _ _ (log_run _ _)) in H. injection H as _ <-.
        split; [|done]. by apply (kill_if_running_then_remove_touches c wl _ _ Hnd Ek).
    + injection H as _ <-. split; [by apply touches_only_same | done].
  - injection H as _ <-. split; [by apply touches_only_same | done].
Qed.

(** Two containers of a runtime with unique ids, one picked and one not,
    have different ids. *)
Lemma picked_apart (sel : Container → bool) (p : Container → bool) cs c d :
  NoDup (map c_id cs) → c ∈ List.filter p cs → d ∈ cs →
  sel c = true → sel d = false → c_id c ≠ c_id d.
Proof.
  intros Hnd Hc Hd Hsc Hsd Heq.
  apply list_elem_of_In, filter_In in Hc as [Hc _]. apply list_elem_of_In in Hc.
  apply list_elem_of_lookup in Hc as [i Hi], Hd as [j Hj].
  assert (i = j) as ->; [|congruence].
  apply (NoDup_lookup (map c_id cs) i j (c_id d) Hnd);
    rewrite list_lookup_fmap; [rewrite Hi | rewrite Hj]; simpl; congruence.
Qed.

Lemma cleanup_expired_containers_spares w r w' d :
  NoDup (ids w) → cleanup_expired_containers w = (r, w') →
  d ∈ w_containers w → expired (w_now w) d = false → d ∈ w_containers w'.
Proof.
  intros Hnd H Hd Hlive. unfold cleanup_expired_containers, bind at 1, get_world in H.
  destruct (negb (w_docker_available w)); [by injection H as _ <-|].
  unfold try_except in H.
  destruct (w_reachable w) eqn:Hr.
  2:{ rewrite (bind_raise _ _ _ _ _ (containers_list_unreachable _ _ _ Hr)) in H.
      rewrite (bind_ok _ _ _ _ _ (log_run _ _)) in H. by injection H as _ <-. }
  rewrite (bind_ok _ _ _ _ _ (containers_list_ok _ _ _ Hr)) in H.
  unfold bind at 1, utcnow in H.
  match type of H with
  | context [for_each ?L ?body ?acc] =>
      destruct (for_each L body acc w) as [r1 w1] eqn:El;
      destruct (loop_spares body (expired (w_now w)) (expire_one_touches (w_now w))
                  L w acc r1 w1 Hnd El) as [_ Hkeep];
      assert (Hin : d ∈ w_containers w1)
  end.
  { apply Hkeep; [done|]. intros c Hc Hsel.
    by eapply (picked_apart (expired (w_now w))). }
  destruct r1 as [[cleaned errors]|e].
  - rewrite (bind_ok _ _ _ _ _ El) in H. by injection H as _ <-.
  - rewrite (bind_raise _ _ _ _ _ El) in H.
    rewrite (bind_ok _ _ _ _ _ (log_run _ _)) in H. by injection H as _ <-.
Qed.

Lemma cleanup_stale_containers_spares m w r w' d :
  NoDup (ids w) → cleanup_stale_containers m w = (r, w') →
  d ∈ w_containers w → stale (w_now w) m d = false → d ∈ w_containers w'.
Proof.
  intros Hnd H Hd Hlive. unfold cleanup_stale_containers, bind at 1, get_world in H.
  destruct (negb (w_docker_available w)); [by injection H as _ <-|].
  unfold try_except in H.
  destruct (w_reachable w) eqn:Hr.
  2:{ rewrite (bind_raise _ _ _ _ _ (containers_list_unreachable _ _ _ Hr)) in H.
      rewrite (bind_ok _ _ _ _ _ (log_run _ _)) in H. by injection H as _ <-. }
  rewrite (bind_ok _ _ _ _ _ (containers_list_ok _ _ _ Hr)) in H.
  unfold bind at 1, utcnow in H.
  match type of H with
  | context [for_each ?L ?body ?acc] =>
      destruct (for_each L body acc w) as [r1 w1] eqn:El;
      destruct (loop_spares body (stale (w_now w) m) (stale_one_touches (w_now w) m)
                  L w acc r1 w1 Hnd El) as [_ Hkeep];
      assert (Hin : d ∈ w_containers w1)
  end.
  { apply Hkeep; [done|]. intros c Hc Hsel.
    by eapply (picked_apart (stale (w_now w) m)). }
  destruct r1 as [cleaned|e].
  - rewrite (bind_ok _ _ _ _ _ El) in H.
    destruct cleaned; [by injection H as _ <-|].
    rewrite (bind_ok _ _ _ _ _ (log_run _ _)) in H. by injection H as _ <-.
  - rewrite (bind_raise _ _ _ _ _ El) in H.
    rewrite (bind_ok _ _ _ _ _ (log_run _ _)) in H. by injection H as _ <-.
Qed.

(** X24: the sweeps spare the living, whatever the runtime does.  On any
    runtime with unique container ids, cooperating or not, the expiry sweep
    leaves every container that is not past its expiry exactly as it was,
    and the stale sweep every container that is not older than its ceiling:
    a kill or a remove that fails never makes a sweep touch another
    container. *)
Theorem sweeps_spare_the_living max_age w d :
  NoDup (ids w) → d ∈ w_containers w →
  (expired (w_now w) d = false →
   d ∈ w_containers (snd (cleanup_expired_containers w)))
  ∧ (stale (w_now w) max_age d = false →
     d ∈ w_containers (snd (cleanup_stale_containers max_age w))).
Proof.
  intros Hnd Hd. split; intros Hlive.
  - destruct (cleanup_expired_containers w) as [r w'] eqn:E.
    by eapply cleanup_expired_containers_spares.
  - destruct (cleanup_stale_containers max_age w) as [r w'] eqn:E.
    by eapply cleanup_stale_containers_spares.
Qed.

Lemma sweeps_spare_the_living_witness :
  i_fresh ∈ w_containers (snd (cleanup_expired_containers w_three_refusing))
  ∧ i_fresh ∈ w_containers (snd (cleanup_stale_containers 100 w_three_refusing)).
Proof.
  destruct (sweeps_spare_the_living 100 w_three_refusing i_fresh) as [Hexp Hstale].
  - by_compute.
  - by left.
  - split; [apply Hexp | apply Hstale]; reflexivity.
Defined.

(** ** The error codes of Spawn *)

Definition SPAWN_ERROR_CODES : list string :=
  ["DEFAULT_IMAGE_MISSING"; "DOCKER_API_ERROR"; "RUNTIME_ERROR"; "UNKNOWN_ERROR"].

Lemma spawn_handle_other_code e w code err msg w' :
  spawn_handle_other e w = (Ok (SpawnFailure code err msg), w') →
  code ∈ SPAWN_ERROR_CODES.
Proof.
  unfold spawn_handle_other, SPAWN_ERROR_CODES.
  destruct (is_api_error e).
  - rewrite (bind_ok _ _ _ _ _ (log_run _ _)). intros H. injection H as <- _ _ _.
    set_solver.
  - destruct e; rewrite (bind_ok _ _ _ _ _ (log_run _ _)); intros H;
      injection H as <- _ _ _; set_solver.
Qed.

(** X25: a Spawn that fails answers one of four codes:
    DEFAULT_IMAGE_MISSING, DOCKER_API_ERROR, RUNTIME_ERROR or UNKNOWN_ERROR.
    It never answers IMAGE_NOT_FOUND: that code belongs to the handler
    around the fallback call, and the fallback call, made with the runtime
    recorded as available, catches its own exceptions.  When the fallback
    fails as well, the answer is the fallback's own. *)
Theorem spawn_error_codes fuel :
  ∀ user_id image_name lab_id cport timeout w code err msg w',
    spawn_lab_container fuel user_id image_name lab_id cport timeout w
    = Some (Ok (SpawnFailure code err msg), w') →
    code ∈ SPAWN_ERROR_CODES ∧ code ≠ "IMAGE_NOT_FOUND".
Proof.
  assert (Hnot : ∀ code, code ∈ SPAWN_ERROR_CODES → code ≠ "IMAGE_NOT_FOUND").
  { intros code Hc ->. unfold SPAWN_ERROR_CODES in Hc.
    repeat (apply elem_of_cons in Hc as [Hc|Hc]; [discriminate|]).
    by apply elem_of_nil in Hc. }
  enough (Hin : ∀ user_id image_name lab_id cport timeout w code err msg w',
            spawn_lab_container fuel user_id image_name lab_id cport timeout w
            = Some (Ok (SpawnFailure code err msg), w') → code ∈ SPAWN_ERROR_CODES).
  { intros. split; [by eapply Hin | eapply Hnot; by eapply Hin]. }
  induction fuel as [|fuel IH];
    intros user_id image_name lab_id cport timeout w code err msg w' H; [done|].
  rewrite spawn_lab_container_eq in H.
  destruct (spawn_enter user_id image_name w) as [[[]|e] w0] eqn:He; [| |done].
  - apply spawn_enter_true in He.
    destruct (spawn_try user_id image_name lab_id cport timeout w0) as [[res|e] w1] eqn:Ht.
    + injection H as -> ->. unfold spawn_try in Ht. step_as Ht la w2.
      apply spawn_settle_answer in Ht as (c & _ & Hres). discriminate.
    + frame (keeps_spawn_try (eq_on w_docker_available)) in Ht as Hav1.
      assert (Hother : Some (spawn_handle_other e w1)
                       = Some (Ok (SpawnFailure code err msg), w') →
                       code ∈ SPAWN_ERROR_CODES).
      { intros Hs. injection Hs as Hs. by eapply spawn_handle_other_code. }
      destruct e; try by apply Hother.
      unfold spawn_finish in H. rewrite log_run in H.
      destruct (String.eqb image_name FALLBACK_IMAGE).
      { injection H as <- _ _ _. unfold SPAWN_ERROR_CODES. set_solver. }
      match type of H with
      | match spawn_lab_container _ _ _ _ _ _ ?wf with _ => _ end = _ =>
          destruct (spawn_lab_container fuel user_id FALLBACK_IMAGE lab_id cport timeout wf)
            as [[[res|e] w4]|] eqn:Hrec; [| |discriminate]
      end.
      * injection H as -> ->. by eapply IH.
      * apply spawn_raises_offline in Hrec. simpl in Hrec. unfold eq_on in Hav1.
        congruence.
  - rewrite log_run in H. injection H as H.
    unfold _simulate_spawn in H.
    repeat (step H; try discriminate).
Qed.

Definition w_no_images : World :=
  {| w_docker_available := true; w_log := []; w_cleanup_thread := true;
     w_reachable := true;
     w_containers := []; w_next_id := 1; w_images := ∅;
     w_kill_fails := []; w_stop_fails := []; w_remove_fails := [];
     w_bound_ports := []; w_host_ip := "192.168.1.10";
     w_now := NOON; w_random := [5] |}.

Definition w_no_images_spawned : World :=
  Eval vm_compute in
    match spawn_lab_container 2 42 "ghost/lab:v1" (Some 7) 80 120 w_no_images with
    | Some (_, w') => w'
    | None => w_no_images
    end.

Lemma spawn_error_codes_witness :
  "DEFAULT_IMAGE_MISSING" ∈ SPAWN_ERROR_CODES
  ∧ "DEFAULT_IMAGE_MISSING" ≠ "IMAGE_NOT_FOUND".
Proof.
  apply (spawn_error_codes 2 42 "ghost/lab:v1" (Some 7) 80 120 w_no_images
           "DEFAULT_IMAGE_MISSING" "Default image missing"
           "System configuration error. Please contact support." w_no_images_spawned).
  vm_compute. reflexivity.
Defined.

(** ** Spawn without a port *)




